(** * M-Pesa contribution / reversal reconciliation: a shallow embedding

    This development models the payment core of the crowdfunding backend:

      - [config/mpesa.js]  (class [MPesa]: token cache, [initiateSTKPush],
        [formatPhoneNumber], [handleContributionCallback],
        [updateCampaignFunding], [initiateReversal],
        [handleReversalCallback])
      - the contribution route of the campaign router (payment initiation
        and its [catch] block)
      - the admin refund route [POST /contributions/:id/refund]

    Conventions.
      - Money stored in the database ([NUMERIC(12,2)]) is an integer number
        of hundredths, a [Z]; JavaScript arithmetic on such values is taken
        to be exact.
      - A JavaScript number that reaches the amount validation is a [num]:
        an exact rational, [NaN] or an infinity.
      - Timestamps are milliseconds since the epoch; [new Date()] is the
        [now] argument of the operation.
      - The two database tables are lists of rows, queried the way the
        Supabase client does ([.eq(...).single()] succeeds on exactly one
        matching row).
      - The row trigger [trigger_update_campaign_funding] of
        [migrations/update_contributions_table.sql] runs inside the
        updates of [contributions] made by the callback handlers and by
        the refund route, on a database that has it.  The contribute
        route only inserts a row as [pending] and then writes either no
        status or [failed] to that row, for which the trigger has no
        branch.  The [BEFORE UPDATE] trigger that stamps [updated_at] is
        left out. *)

From Stdlib Require Import ZArith QArith Qround Bool List String Ascii Lia.
From Stdlib Require Import DecimalString Permutation.
Import ListNotations.
Local Open Scope string_scope.
Local Open Scope Z_scope.

(* ===================================================================== *)
(** ** JavaScript values *)
(* ===================================================================== *)

Module JS.

(** A JavaScript number, with doubles idealised as exact rationals. *)
Inductive num : Type :=
| Fin (q : Q)
| NaN
| PosInf
| NegInf.

(** The values a JSON request body can put in a scalar field. *)
Inductive value : Type :=
| VUndef
| VNull
| VBool (b : bool)
| VNum (n : num)
| VStr (s : string).

Definition Qltb (a b : Q) : bool := negb (Qle_bool b a).

(** [a < b] on numbers: every comparison with [NaN] is false. *)
Definition lt (a b : num) : bool :=
  match a, b with
  | NaN, _ | _, NaN => false
  | Fin x, Fin y => Qltb x y
  | NegInf, NegInf => false
  | NegInf, _ => true
  | _, PosInf => match a with PosInf => false | _ => true end
  | _, _ => false
  end.

Definition gt (a b : num) : bool := lt b a.

(** [a <= b]: not [b < a], and false as soon as one side is [NaN]. *)
Definition le (a b : num) : bool :=
  match a, b with
  | NaN, _ | _, NaN => false
  | _, _ => negb (lt b a)
  end.

(** [Math.floor]. *)
Definition floor (n : num) : num :=
  match n with
  | Fin q => Fin (inject_Z (Qfloor q))
  | other => other
  end.

Definition is_zero (n : num) : bool :=
  match n with
  | Fin q => Qeq_bool q 0
  | _ => false
  end.

(** ToBoolean: [!v] is [negb (truthy v)]. *)
Definition truthy (v : value) : bool :=
  match v with
  | VUndef | VNull => false
  | VBool b => b
  | VNum NaN => false
  | VNum n => negb (is_zero n)
  | VStr s => negb (String.eqb s "")
  end.

Definition str_truthy (s : string) : bool := negb (String.eqb s "").

Definition of_Z (z : Z) : num := Fin (inject_Z z).

Section Conversions.
(** ECMAScript's StringToNumber belongs to the language runtime, not to
    the repository; the model is parametric in it. *)
Variable StringToNumber : string -> num.

(** [Number(v)]. *)
Definition Number (v : value) : num :=
  match v with
  | VUndef => NaN
  | VNull => of_Z 0
  | VBool true => of_Z 1
  | VBool false => of_Z 0
  | VNum n => n
  | VStr s => StringToNumber s
  end.
End Conversions.

(** A JSON scalar as it occurs in callback payloads: an integer or a
    string. *)
Inductive scalar : Type :=
| SInt (z : Z)
| SStr (s : string).

Definition scalar_truthy (v : scalar) : bool :=
  match v with
  | SInt z => negb (z =? 0)
  | SStr s => negb (String.eqb s "")
  end.

Definition Z_toString (z : Z) : string :=
  NilZero.string_of_int (Z.to_int z).

(** [v.toString()] and template interpolation of a scalar. *)
Definition scalar_toString (v : scalar) : string :=
  match v with
  | SInt z => Z_toString z
  | SStr s => s
  end.

(** [v === n] for an integer literal [n]: strict equality, so a string
    never equals a number. *)
Definition strict_eq_int (v : scalar) (n : Z) : bool :=
  match v with
  | SInt z => z =? n
  | SStr _ => false
  end.

Definition strict_eq_str (v : scalar) (s : string) : bool :=
  match v with
  | SInt _ => false
  | SStr t => String.eqb t s
  end.

(** [hay.includes(needle)]. *)
Fixpoint includes (needle hay : string) : bool :=
  String.prefix needle hay ||
  match hay with
  | EmptyString => false
  | String _ rest => includes needle rest
  end.

Definition startsWith (p s : string) : bool := String.prefix p s.

(** [s.slice(1)]. *)
Definition slice1 (s : string) : string :=
  match s with
  | EmptyString => EmptyString
  | String _ rest => rest
  end.

(** [s.substring(0, n)]. *)
Fixpoint substring0 (n : nat) (s : string) : string :=
  match n, s with
  | O, _ => EmptyString
  | _, EmptyString => EmptyString
  | S k, String c rest => String c (substring0 k rest)
  end.

Definition is_digit (c : ascii) : bool :=
  let n := nat_of_ascii c in (48 <=? n)%nat && (n <=? 57)%nat.

(** [s.replace(/\D/g, "")]. *)
Fixpoint strip_non_digits (s : string) : string :=
  match s with
  | EmptyString => EmptyString
  | String c rest =>
      if is_digit c then String c (strip_non_digits rest)
      else strip_non_digits rest
  end.

Definition digit_value (c : ascii) : Z := Z.of_nat (nat_of_ascii c) - 48.

Fixpoint digits_value (acc : Z) (s : string) : Z :=
  match s with
  | EmptyString => acc
  | String c rest =>
      if is_digit c then digits_value (10 * acc + digit_value c) rest
      else acc
  end.

(** The Number value for a non-negative integer: the integer itself
    while it fits in 53 bits, otherwise the nearest integer with 53
    significant bits, a tie going to the even one. *)
Definition to_double (z : Z) : Z :=
  let excess := Z.log2 z + 1 - 53 in
  if excess <=? 0 then z
  else
    let mantissa := Z.shiftr z excess in
    let rest := z - Z.shiftl mantissa excess in
    let half := Z.shiftl 1 (excess - 1) in
    let mantissa' :=
      if (half <? rest) || ((rest =? half) && Z.odd mantissa)
      then mantissa + 1 else mantissa in
    Z.shiftl mantissa' excess.

(** [parseInt(s)] on a string that starts with its digits (no sign, no
    leading blanks, no radix prefix): the Number value for the longest
    digit prefix, [None] (NaN) when there is none.  The infinity that a
    prefix of 309 digits or more can give is not represented. *)
Definition parseInt (s : string) : option Z :=
  match s with
  | EmptyString => None
  | String c _ =>
      if is_digit c then Some (to_double (digits_value 0 s)) else None
  end.

End JS.

(* ===================================================================== *)
(** ** Phone normalisation ([MPesa.formatPhoneNumber]) *)
(* ===================================================================== *)

Definition formatPhoneNumber (phoneNumber : string) : option Z :=
  let cleaned := JS.strip_non_digits phoneNumber in
  if JS.startsWith "254" cleaned then JS.parseInt cleaned
  else if JS.startsWith "0" cleaned then JS.parseInt ("254" ++ JS.slice1 cleaned)
  else JS.parseInt ("254" ++ cleaned).

(* ===================================================================== *)
(** ** Exceptions and the upstream gateway *)
(* ===================================================================== *)

(** What the handlers inspect of a thrown value: [error.code],
    [error.response?.status], [error.response?.data?.errorMessage] and
    [error.message].  [new Error(msg)] and a [ReferenceError] carry only a
    message. *)
Record JsError : Type := mkJsError {
  err_code : option string;
  err_status : option Z;
  err_errorMessage : option string;
  err_message : string
}.

Definition Error (msg : string) : JsError := mkJsError None None None msg.

Inductive outcome (A : Type) : Type :=
| Returned (a : A)
| Thrown (e : JsError).
Arguments Returned {A} a.
Arguments Thrown {A} e.

Record TokenResponse : Type := mkTokenResponse {
  access_token : string;
  expires_in : Z
}.

(** The charge request body; the signing fields ([Password], [Timestamp])
    and the constant [TransactionType] are left out. *)
Record StkRequest : Type := mkStkRequest {
  stk_BusinessShortCode : option Z;
  stk_Amount : JS.num;
  stk_PartyA : option Z;
  stk_PhoneNumber : option Z;
  stk_CallBackURL : string;
  stk_AccountReference : string;
  stk_TransactionDesc : string
}.

Record StkResponse : Type := mkStkResponse {
  stk_ResponseCode : string;
  stk_MerchantRequestID : string;
  stk_CheckoutRequestID : string;
  stk_ResponseDescription : option string;
  stk_CustomerMessage : string
}.

(** The reversal request body (credentials left out). *)
Record ReversalRequest : Type := mkReversalRequest {
  rev_TransactionID : string;
  rev_Amount : JS.num;
  rev_ReceiverParty : option Z;
  rev_ResultURL : string;
  rev_QueueTimeOutURL : string;
  rev_Remarks : string;
  rev_Occasion : string
}.

Record ReversalResponse : Type := mkReversalResponse {
  rev_ResponseCode : string;
  rev_OriginatorConversationID : string;
  rev_ConversationID : string;
  rev_ResponseDescription : option string
}.

(** The upstream API as the client sees it: what each call returns or
    throws.  [oauth] is indexed by the retry count of the attempt. *)
Record Gateway : Type := mkGateway {
  oauth : nat -> outcome TokenResponse;
  stkpush : StkRequest -> outcome StkResponse;
  reversal : ReversalRequest -> outcome ReversalResponse
}.

(** Requests that left the process, oldest first. *)
Inductive request : Type :=
| ReqOAuth
| ReqStkPush (r : StkRequest)
| ReqReversal (r : ReversalRequest).

(** Constructor fields of [MPesa] read from the environment. *)
Record Config : Type := mkConfig {
  consumerKey : option string;
  consumerSecret : option string;
  shortcode : option string;
  callbackUrl : string
}.

Definition env_truthy (v : option string) : bool :=
  match v with
  | Some s => negb (String.eqb s "")
  | None => false
  end.

(** [this.accessTokenCache]. *)
Record TokenCache : Type := mkTokenCache {
  token : option string;
  expires : option Z
}.

Definition empty_cache : TokenCache := mkTokenCache None None.

(** [a || b] on optional strings. *)
Definition or_else (a : option string) (b : string) : string :=
  match a with
  | Some s => if String.eqb s "" then b else s
  | None => b
  end.

Definition eqb_opt_string (a : option string) (s : string) : bool :=
  match a with
  | Some t => String.eqb t s
  | None => false
  end.

Definition mem_string (s : option string) (l : list string) : bool :=
  match s with
  | Some t => existsb (String.eqb t) l
  | None => false
  end.

Definition mem_Z (z : option Z) (l : list Z) : bool :=
  match z with
  | Some t => existsb (Z.eqb t) l
  | None => false
  end.

(* ===================================================================== *)
(** ** The database as the Supabase client sees it *)
(* ===================================================================== *)

Module Db.

(** A column value. *)
Inductive cell : Type :=
| Null
| Text (s : string)
| Num (z : Z)
| Time (t : Z).

(** A row, and equally a JavaScript object literal passed to [.update]:
    column names with their values. *)
Definition row : Type := list (string * cell).
Definition table : Type := list row.

Fixpoint lookup (k : string) (r : row) : option cell :=
  match r with
  | [] => None
  | (k', v) :: rest => if String.eqb k k' then Some v else lookup k rest
  end.

(** [r.k]; a column that was not selected or not set reads as null. *)
Definition get (k : string) (r : row) : cell :=
  match lookup k r with
  | Some v => v
  | None => Null
  end.

(** [r.k = v]. *)
Fixpoint set (k : string) (v : cell) (r : row) : row :=
  match r with
  | [] => [(k, v)]
  | (k', v') :: rest =>
      if String.eqb k k' then (k, v) :: rest else (k', v') :: set k v rest
  end.

(** The effect of [UPDATE ... SET patch] on one row. *)
Definition apply_update (patch r : row) : row :=
  fold_left (fun acc kv => set (fst kv) (snd kv) acc) patch r.

Definition cell_eqb (a b : cell) : bool :=
  match a, b with
  | Text s, Text t => String.eqb s t
  | Num x, Num y => x =? y
  | Time x, Time y => x =? y
  | _, _ => false
  end.

(** [.eq(col, v)]: SQL equality, which a null never satisfies. *)
Definition eq (col : string) (v : cell) (r : row) : bool :=
  cell_eqb (get col r) v.

(** [.select("a, b, c")]. *)
Definition select (cols : list string) (r : row) : row :=
  map (fun k => (k, get k r)) cols.

(** [.single()]: exactly one row, otherwise an error. *)
Definition single (rows : table) : option row :=
  match rows with
  | [r] => Some r
  | _ => None
  end.

(** [.from(t).select(cols).eq(col, v).single()]. *)
Definition select_single (cols : list string) (col : string) (v : cell)
    (t : table) : option row :=
  single (map (select cols) (filter (eq col v) t)).

(** [.from(t).update(patch).eq(col, v)]. *)
Definition update_eq (patch : row) (col : string) (v : cell) (t : table)
  : table :=
  map (fun r => if eq col v r then apply_update patch r else r) t.

(** A numeric column read into arithmetic; null coerces to 0. *)
Definition number (c : cell) : Z :=
  match c with
  | Num z => z
  | _ => 0
  end.

Definition number_of_time (c : cell) : Z :=
  match c with
  | Time t => t
  | _ => 0
  end.

(** ToBoolean of a column value. *)
Definition truthy (c : cell) : bool :=
  match c with
  | Null => false
  | Text s => negb (String.eqb s "")
  | Num z => negb (z =? 0)
  | Time _ => true
  end.

Definition text_is (c : cell) (s : string) : bool := cell_eqb c (Text s).

(** An optional property of an update object: [undefined] is dropped
    when the object is serialised, so the column is left alone. *)
Definition field (k : string) (v : option string) : row :=
  match v with
  | Some s => [(k, Text s)]
  | None => []
  end.

Record Store : Type := mkStore {
  contributions : table;
  campaigns : table
}.

(** What the repository leaves to the deployed database.
    - [rpc_increment]: the function [increment_campaign_funding] called
      through [supabase.rpc]; no migration defines it, so it is a
      parameter.  [None] is the call answering with an error.
    - [funding_check]: whether [campaigns.current_funding] carries
      [CHECK (current_funding >= 0)]; one of the table definitions has
      the constraint and the others do not.
    - [sandbox]: [NODE_ENV === 'development' ||
      MPESA_ENVIRONMENT === 'sandbox'].
    - [funding_trigger]: whether [trigger_update_campaign_funding] is
      installed on [contributions]; the migration that recreates the
      table ([migrations/update_contributions_table.sql]) installs it,
      the earlier table definitions do not. *)
Record Backend : Type := mkBackend {
  rpc_increment : table -> cell -> Z -> option table;
  funding_check : bool;
  sandbox : bool;
  funding_trigger : bool
}.

(** An update of [campaigns]; a statement that would store a negative
    total is refused as a whole when the constraint is present. *)
Definition update_campaigns (B : Backend) (patch : row) (v : cell)
    (t : table) : table :=
  if funding_check B
     && existsb (fun r => eq "id" v r
                   && (number (get "current_funding" (apply_update patch r)) <? 0))
          t
  then t
  else update_eq patch "id" v t.

(** [a + b] and [a - b] in SQL: null when an operand is null. *)
Definition sql_add (a b : cell) : cell :=
  match a, b with
  | Num x, Num y => Num (x + y)
  | _, _ => Null
  end.

Definition sql_sub (a b : cell) : cell :=
  match a, b with
  | Num x, Num y => Num (x - y)
  | _, _ => Null
  end.

(** [GREATEST(c, 0)], which ignores a null argument. *)
Definition greatest_zero (c : cell) : cell :=
  match c with
  | Num z => Num (Z.max z 0)
  | _ => Num 0
  end.

(** [OLD.status != s]: unknown on a null status, and an [IF] does not
    take an unknown condition. *)
Definition status_differs (c : cell) (s : string) : bool :=
  match c with
  | Text t => negb (String.eqb t s)
  | _ => false
  end.

(** [UPDATE campaigns SET current_funding = f(current_funding),
    updated_at = NOW() WHERE id = v], as the trigger function runs it.
    [None] is the constraint refusing the new total, which aborts the
    statement that fired the trigger. *)
Definition trigger_write (B : Backend) (now : Z) (f : cell -> cell)
    (v : cell) (t : table) : option table :=
  if funding_check B
     && existsb (fun r => eq "id" v r
                   && (number (f (get "current_funding" r)) <? 0))
          t
  then None
  else Some (map (fun r =>
                    if eq "id" v r
                    then apply_update
                           [("current_funding", f (get "current_funding" r));
                            ("updated_at", Time now)] r
                    else r)
               t).

(** The credit and the debit of the trigger function, as functions of
    the stored total. *)
Definition trigger_credit (NEW : row) (current_funding : cell) : cell :=
  sql_add current_funding (get "amount" NEW).

Definition trigger_debit (NEW : row) (current_funding : cell) : cell :=
  greatest_zero (sql_sub current_funding (get "amount" NEW)).

(** The three conditions of the trigger function on an updated row
    ([OLD] is not null on an update). *)
Definition becomes_completed (OLD NEW : row) : bool :=
  text_is (get "status" NEW) "completed"
  && status_differs (get "status" OLD) "completed".

Definition becomes_refunded (OLD NEW : row) : bool :=
  text_is (get "status" NEW) "refunded"
  && status_differs (get "status" OLD) "refunded".

Definition completed_becomes_failed (OLD NEW : row) : bool :=
  text_is (get "status" OLD) "completed"
  && text_is (get "status" NEW) "failed".

(** One statement of the trigger function: run when [cond] holds, and
    only if nothing before it was refused. *)
Definition trigger_step (B : Backend) (now : Z) (cond : bool)
    (f : cell -> cell) (v : cell) (acc : option table) : option table :=
  match acc with
  | Some t => if cond then trigger_write B now f v t else Some t
  | None => None
  end.

(** The function [update_campaign_funding()] for one updated row. *)
Definition update_campaign_funding (B : Backend) (now : Z) (OLD NEW : row)
    (t : table) : option table :=
  let target := get "campaign_id" NEW in
  trigger_step B now (completed_becomes_failed OLD NEW)
    (trigger_debit NEW) target
    (trigger_step B now (becomes_refunded OLD NEW)
       (trigger_debit NEW) target
       (trigger_step B now (becomes_completed OLD NEW)
          (trigger_credit NEW) target (Some t))).

(** The trigger over the rows an update of [contributions] touches. *)
Definition run_funding_trigger (B : Backend) (now : Z) (patch : row)
    (v : cell) (contributions campaigns : table) : option table :=
  fold_left
    (fun acc OLD =>
       match acc with
       | Some t =>
           if eq "id" v OLD
           then update_campaign_funding B now OLD (apply_update patch OLD) t
           else Some t
       | None => None
       end)
    contributions (Some campaigns).

(** [.from('contributions').update(patch).eq('id', v)] on a database
    with or without the trigger.  [None] is the statement refused, with
    nothing written to either table. *)
Definition update_contributions (B : Backend) (now : Z) (patch : row)
    (v : cell) (s : Store) : option Store :=
  let contributions' := update_eq patch "id" v (contributions s) in
  if funding_trigger B then
    match run_funding_trigger B now patch v (contributions s) (campaigns s) with
    | Some campaigns' => Some (mkStore contributions' campaigns')
    | None => None
    end
  else Some (mkStore contributions' (campaigns s)).

(** The same where the caller does not look at the statement's error. *)
Definition update_contributions_unchecked (B : Backend) (now : Z)
    (patch : row) (v : cell) (s : Store) : Store :=
  match update_contributions B now patch v s with
  | Some s' => s'
  | None => s
  end.

(** The funding total of a campaign, for stating properties. *)
Definition funding (campaignId : string) (s : Store) : option Z :=
  match filter (eq "id" (Text campaignId)) (campaigns s) with
  | [r] => Some (number (get "current_funding" r))
  | _ => None
  end.

(** The status of every contribution with the given id. *)
Definition statuses (id : string) (s : Store) : list cell :=
  map (get "status") (filter (eq "id" (Text id)) (contributions s)).

End Db.

(* ===================================================================== *)
(** ** Callback payloads *)
(* ===================================================================== *)

(** [Body.stkCallback] of a charge callback; [CallbackMetadata.Item] is
    the list of [Name]/[Value] pairs (empty when absent). *)
Record StkCallback : Type := mkStkCallback {
  cb_CheckoutRequestID : option string;
  cb_ResultCode : option JS.scalar;
  cb_ResultDesc : option string;
  cb_CallbackMetadata : list (string * JS.scalar)
}.

Record ChargeCallback : Type := mkChargeCallback {
  cb_test : bool;
  cb_stkCallback : option StkCallback
}.

(** [Result] of a reversal callback; [ResultParameters.ResultParameter]
    is the list of [Key]/[Value] pairs (empty when absent). *)
Record ReversalResult : Type := mkReversalResult {
  rv_ResultType : option JS.scalar;
  rv_ResultCode : option JS.scalar;
  rv_ResultDesc : option string;
  rv_OriginatorConversationID : option string;
  rv_ConversationID : option string;
  rv_TransactionID : option string;
  rv_ResultParameters : list (string * JS.scalar)
}.

Record ReversalCallback : Type := mkReversalCallback {
  rv_Result : option ReversalResult
}.

(** What a callback handler returns, as far as the routes read it. *)
Record CallbackResult : Type := mkCallbackResult {
  success : bool;
  message : string
}.

(** [`${v}`] for an optional string. *)
Definition interpolate (v : option string) : string :=
  match v with
  | Some s => s
  | None => "undefined"
  end.

Definition scalar_opt_truthy (v : option JS.scalar) : bool :=
  match v with
  | Some x => JS.scalar_truthy x
  | None => false
  end.

Module MPesa.
Section WithRuntime.

Variable StringToNumber : string -> JS.num.
Variable cfg : Config.
Variable gw : Gateway.
(** [Date.now()], held fixed during one operation. *)
Variable now : Z.

Definition shouldRetry (error : JsError) : bool :=
  mem_string (err_code error)
    ["ECONNABORTED"; "ETIMEDOUT"; "ENOTFOUND"; "ECONNRESET"]
  || mem_Z (err_status error) [500; 502; 503; 504].

Definition maxRetries : nat := 2.

Definition cache_hit (cache : TokenCache) : option string :=
  match token cache, expires cache with
  | Some t, Some e =>
      if negb (String.eqb t "") && (now <? e) then Some t else None
  | _, _ => None
  end.

(** One pass through the [try] block of [generateAccessToken]. *)
Definition token_attempt (retryCount : nat)
  : list request * outcome TokenResponse :=
  if negb (env_truthy (consumerKey cfg)) || negb (env_truthy (consumerSecret cfg))
  then ([], Thrown (Error "MPesa credentials not configured"))
  else ([ReqOAuth], oauth gw retryCount).

(** [generateAccessToken(retryCount)], where [retries_left] is
    [maxRetries - retryCount]. *)
Fixpoint generateAccessToken_from (retries_left retryCount : nat)
    (cache : TokenCache) : TokenCache * list request * outcome string :=
  match cache_hit cache with
  | Some t => (cache, [], Returned t)
  | None =>
      match token_attempt retryCount with
      | (log, Returned r) =>
          (mkTokenCache (Some (access_token r))
             (Some (now + expires_in r * 1000 - 60000)),
           log, Returned (access_token r))
      | (log, Thrown error) =>
          let rethrow :=
            (cache, log,
             Thrown (Error ("Failed to generate access token: "
                            ++ err_message error))) in
          match retries_left with
          | S k =>
              if shouldRetry error then
                let '(cache', log', res) :=
                  generateAccessToken_from k (S retryCount) cache in
                (cache', (log ++ log')%list, res)
              else rethrow
          | O => rethrow
          end
      end
  end.

Definition generateAccessToken (cache : TokenCache) :=
  generateAccessToken_from maxRetries 0 cache.

(** [parseInt(this.shortcode || "174379")]. *)
Definition shortcode_number : option Z :=
  JS.parseInt (or_else (shortcode cfg) "174379").

Inductive amount_check : Type :=
| MissingParameters
| InvalidAmount
| AmountOk (numericAmount : JS.num).

(** The two guards that open [initiateSTKPush]. *)
Definition validate_stk (phoneNumber : string) (amount : JS.value)
    (contributionId : string) : amount_check :=
  if negb (JS.str_truthy phoneNumber)
     || negb (JS.truthy amount)
     || negb (JS.str_truthy contributionId)
  then MissingParameters
  else
    let numericAmount := JS.floor (JS.Number StringToNumber amount) in
    if JS.lt numericAmount (JS.of_Z 1) || JS.gt numericAmount (JS.of_Z 300000)
    then InvalidAmount
    else AmountOk numericAmount.

Record StkResult : Type := mkStkResult {
  res_MerchantRequestID : string;
  res_CheckoutRequestID : string;
  res_CustomerMessage : string
}.

Definition build_stk_request (phoneNumber : string) (numericAmount : JS.num)
    (contributionId : string) : StkRequest :=
  let formattedPhone := formatPhoneNumber phoneNumber in
  mkStkRequest shortcode_number numericAmount formattedPhone formattedPhone
    (callbackUrl cfg ++ "/mpesa/callback/contributions")
    ("CONTRIBUTION_" ++ contributionId)
    ("Campaign Contribution - " ++ contributionId).

(** The [try] block of [initiateSTKPush]. *)
Definition initiateSTKPush_try (cache : TokenCache) (phoneNumber : string)
    (amount : JS.value) (contributionId : string)
  : TokenCache * list request * outcome StkResult :=
  match validate_stk phoneNumber amount contributionId with
  | MissingParameters =>
      (cache, [], Thrown (Error "Missing required parameters for STK push"))
  | InvalidAmount =>
      (cache, [],
       Thrown (Error "Invalid amount: must be between 1 and 300,000 KES"))
  | AmountOk numericAmount =>
      match generateAccessToken cache with
      | (cache', log, Thrown e) => (cache', log, Thrown e)
      | (cache', log, Returned _) =>
          let paymentRequest :=
            build_stk_request phoneNumber numericAmount contributionId in
          (cache', (log ++ [ReqStkPush paymentRequest])%list,
           match stkpush gw paymentRequest with
           | Thrown e => Thrown e
           | Returned data =>
               if String.eqb (stk_ResponseCode data) "0" then
                 Returned (mkStkResult (stk_MerchantRequestID data)
                             (stk_CheckoutRequestID data)
                             (stk_CustomerMessage data))
               else
                 Thrown (Error ("MPesa Error: "
                   ++ or_else (stk_ResponseDescription data) "Unknown error"))
           end)
      end
  end.

(** The [catch] block of [initiateSTKPush]. *)
Definition stk_catch (error : JsError) : JsError :=
  if eqb_opt_string (err_code error) "ECONNABORTED" then
    Error "M-Pesa service timeout - please try again"
  else if env_truthy (err_errorMessage error) then
    Error (or_else (err_errorMessage error) "")
  else Error ("Payment initiation failed: " ++ err_message error).

Definition initiateSTKPush (cache : TokenCache) (phoneNumber : string)
    (amount : JS.value) (contributionId : string)
  : TokenCache * list request * outcome StkResult :=
  match initiateSTKPush_try cache phoneNumber amount contributionId with
  | (cache', log, Thrown e) => (cache', log, Thrown (stk_catch e))
  | done => done
  end.

(* ------------------------------------------------------------------- *)
(** *** Charge callback *)

Variable B : Db.Backend.

(** The fields of [parseCallbackMetadata]'s result that the handler
    reads ([amount] and [balance] are parsed and never used). *)
Record TransactionDetails : Type := mkTransactionDetails {
  mpesaReceiptNumber : option JS.scalar;
  transactionDate : option JS.scalar;
  phoneNumber : option JS.scalar
}.

Definition parseCallbackMetadata (items : list (string * JS.scalar))
  : TransactionDetails :=
  fold_left
    (fun details item =>
       let '(Name, Value) := item in
       if String.eqb Name "MpesaReceiptNumber" then
         mkTransactionDetails (Some Value) (transactionDate details)
           (phoneNumber details)
       else if String.eqb Name "TransactionDate" then
         mkTransactionDetails (mpesaReceiptNumber details) (Some Value)
           (phoneNumber details)
       else if String.eqb Name "PhoneNumber" then
         mkTransactionDetails (mpesaReceiptNumber details)
           (transactionDate details) (Some Value)
       else details)
    items (mkTransactionDetails None None None).

(** [updateCampaignFunding(campaignId, amount)]: the RPC first, and on
    its error a read of the total followed by a write of the sum. *)
Definition updateCampaignFunding (campaigns : Db.table)
    (campaignId : Db.cell) (amount : Z) : Db.table :=
  match Db.rpc_increment B campaigns campaignId amount with
  | Some campaigns' => campaigns'
  | None =>
      match Db.select_single ["current_funding"] "id" campaignId campaigns with
      | Some campaign =>
          Db.update_campaigns B
            [("current_funding",
               Db.Num (Db.number (Db.get "current_funding" campaign) + amount));
             ("updated_at", Db.Time now)]
            campaignId campaigns
      | None => campaigns
      end
  end.

(** [obj.k = v] when [cond] holds. *)
Definition set_if (cond : bool) (k : string) (v : Db.cell) (obj : Db.row)
  : Db.row :=
  if cond then Db.set k v obj else obj.

Definition scalar_text (v : option JS.scalar) : Db.cell :=
  match v with
  | Some x => Db.Text (JS.scalar_toString x)
  | None => Db.Null
  end.

(** [updateData] of [handleContributionCallback]. *)
Definition charge_updateData (ResultCode : JS.scalar)
    (ResultDesc : option string) (transactionDetails : TransactionDetails)
  : Db.row :=
  let updateData :=
    ([("result_code", Db.Text (JS.scalar_toString ResultCode))]
       ++ Db.field "result_desc" ResultDesc
       ++ [("updated_at", Db.Time now)])%list in
  if JS.strict_eq_int ResultCode 0 then
    let updateData := Db.set "status" (Db.Text "completed") updateData in
    let updateData := Db.set "processed_at" (Db.Time now) updateData in
    let updateData :=
      set_if (scalar_opt_truthy (mpesaReceiptNumber transactionDetails))
        "transaction_id" (scalar_text (mpesaReceiptNumber transactionDetails))
        updateData in
    let updateData :=
      set_if (scalar_opt_truthy (phoneNumber transactionDetails))
        "mpesa_phone_number" (scalar_text (phoneNumber transactionDetails))
        updateData in
    set_if (scalar_opt_truthy (transactionDate transactionDetails))
      "result_desc"
      (Db.Text (interpolate ResultDesc ++ " | Transaction Date: "
                ++ match transactionDate transactionDetails with
                   | Some d => JS.scalar_toString d
                   | None => ""
                   end))
      updateData
  else Db.set "status" (Db.Text "failed") updateData.

(** The lookup of the contribution a charge callback is for. *)
Definition charge_target (contributions : Db.table) (callback : StkCallback)
  : option Db.row :=
  Db.select_single ["id"; "campaign_id"; "amount"; "status"]
    "mpesa_checkout_request_id"
    (Db.Text (interpolate (cb_CheckoutRequestID callback)))
    contributions.

Definition handleContributionCallback (s : Db.Store)
    (callbackData : ChargeCallback) : Db.Store * CallbackResult :=
  if cb_test callbackData then
    (s, mkCallbackResult true "Test callback received")
  else
    match cb_stkCallback callbackData with
    | None => (s, mkCallbackResult false "Invalid callback format")
    | Some callback =>
        if negb (env_truthy (cb_CheckoutRequestID callback)) then
          (s, mkCallbackResult false "Missing CheckoutRequestID")
        else
          let transactionDetails :=
            parseCallbackMetadata (cb_CallbackMetadata callback) in
          match charge_target (Db.contributions s) callback with
          | None => (s, mkCallbackResult false "Contribution not found")
          | Some contribution =>
              match cb_ResultCode callback with
              | None =>
                  (* [ResultCode.toString()] throws; the outer catch
                     answers before anything is written *)
                  (s, mkCallbackResult false "Callback processing failed")
              | Some ResultCode =>
                  let updateData :=
                    charge_updateData ResultCode (cb_ResultDesc callback)
                      transactionDetails in
                  (* the two operations of [Promise.all], in the order
                     of the array; the error of the first is not read *)
                  let s' :=
                    Db.update_contributions_unchecked B now updateData
                      (Db.get "id" contribution) s in
                  let campaigns' :=
                    if JS.strict_eq_int ResultCode 0
                       && negb (Db.text_is (Db.get "status" contribution)
                                  "completed")
                    then updateCampaignFunding (Db.campaigns s')
                           (Db.get "campaign_id" contribution)
                           (Db.number (Db.get "amount" contribution))
                    else Db.campaigns s' in
                  (Db.mkStore (Db.contributions s') campaigns',
                   mkCallbackResult true "Callback processed successfully")
              end
          end
    end.

(* ------------------------------------------------------------------- *)
(** *** Reversal callback *)

(** [parseReversalResultParameters] (the second definition in the class
    body, which is the one in force); only [originalTransactionID] is
    read by the handlers. *)
Definition parseReversalResultParameters (params : list (string * JS.scalar))
  : option JS.scalar :=
  fold_left
    (fun originalTransactionID param =>
       if String.eqb (fst param) "OriginalTransactionID"
       then Some (snd param) else originalTransactionID)
    params None.

(** The value given to [.eq]: the client renders [undefined] as the
    text [undefined]. *)
Definition eq_key (v : option string) : Db.cell := Db.Text (interpolate v).

(** [a || b]. *)
Definition scalar_or (a : option JS.scalar) (b : option string)
  : option string :=
  if scalar_opt_truthy a then option_map JS.scalar_toString a else b.

(** [updateData] of the [handleReversalCallback] in force. *)
Definition reversal_updateData (ResultCode : JS.scalar)
    (Result : ReversalResult) : Db.row :=
  let updateData :=
    ([("updated_at", Db.Time now)]
       ++ Db.field "reversal_conversation_id" (rv_ConversationID Result)
       ++ [("reversal_result_code", Db.Text (JS.scalar_toString ResultCode))]
       ++ Db.field "reversal_result_desc" (rv_ResultDesc Result))%list in
  if JS.strict_eq_int ResultCode 0 then
    Db.set "refunded_at" (Db.Time now)
      (Db.set "status" (Db.Text "refunded") updateData)
  else updateData.

(** The lookup of the contribution a reversal callback is for:
    [.eq("transaction_id", resultParams.originalTransactionID ||
    TransactionID)]. *)
Definition reversal_target (contributions : Db.table) (Result : ReversalResult)
  : option Db.row :=
  Db.select_single
    ["id"; "campaign_id"; "amount"; "status"; "transaction_id"]
    "transaction_id"
    (eq_key (scalar_or (parseReversalResultParameters (rv_ResultParameters Result))
               (rv_TransactionID Result)))
    contributions.

(** [handleReversalCallback]: a class body with two methods of one name
    keeps the later one, so this is the definition every route calls. *)
Definition handleReversalCallback (s : Db.Store)
    (callbackData : ReversalCallback) : Db.Store * CallbackResult :=
  match rv_Result callbackData with
  | None => (s, mkCallbackResult false "Invalid reversal callback format")
  | Some Result =>
      match reversal_target (Db.contributions s) Result with
      | None => (s, mkCallbackResult false "Original contribution not found")
      | Some contribution =>
          match rv_ResultCode Result with
          | None =>
              (s, mkCallbackResult false "Reversal callback processing failed")
          | Some ResultCode =>
              match Db.update_contributions B now
                      (reversal_updateData ResultCode Result)
                      (Db.get "id" contribution) s with
              | None =>
                  (* [throw updateError] *)
                  (s, mkCallbackResult false "Reversal callback processing failed")
              | Some s' =>
                  let campaigns' :=
                    if JS.strict_eq_int ResultCode 0
                    then updateCampaignFunding (Db.campaigns s')
                           (Db.get "campaign_id" contribution)
                           (- Db.number (Db.get "amount" contribution))
                    else Db.campaigns s' in
                  (Db.mkStore (Db.contributions s') campaigns',
                   mkCallbackResult true
                     "Reversal callback processed successfully")
              end
          end
      end
  end.


(** Rows most recently sent for refund first: [.order("refund_initiated_at",
    { ascending: false }).limit(1)].  Among equal timestamps the earlier
    row of the table is kept. *)
Definition most_recent (rows : Db.table) : option Db.row :=
  fold_left
    (fun best r =>
       match best with
       | None => Some r
       | Some b =>
           if Db.number_of_time (Db.get "refund_initiated_at" b)
              <? Db.number_of_time (Db.get "refund_initiated_at" r)
           then Some r else Some b
       end)
    rows None.

Definition reversal_columns : list string :=
  ["id"; "transaction_id"; "amount"; "status"; "campaign_id";
   "refund_initiated_at"].

(** The four ways the first [handleReversalCallback] of the class body
    looks for the contribution, in order. *)
Definition find_reversal_target (contributions : Db.table)
    (Result : ReversalResult) (originalTransactionID : option JS.scalar)
  : option Db.row :=
  let look col key := Db.select_single reversal_columns col key contributions in
  match look "reversal_conversation_id" (eq_key (rv_ConversationID Result)) with
  | Some c => Some c
  | None =>
      match look "reversal_originator_conversation_id"
              (eq_key (rv_OriginatorConversationID Result)) with
      | Some c => Some c
      | None =>
          let by_tx :=
            if scalar_opt_truthy originalTransactionID
            then look "transaction_id" (scalar_text originalTransactionID)
            else None in
          match by_tx with
          | Some c => Some c
          | None =>
              most_recent
                (map (Db.select reversal_columns)
                   (filter
                      (fun r =>
                         Db.eq "status" (Db.Text "refund_pending") r
                         && match Db.get "refund_initiated_at" r with
                            | Db.Time t => now - 60 * 60 * 1000 <=? t
                            | _ => false
                            end)
                      contributions))
          end
      end
  end.

Definition scalar_is (v : option JS.scalar) (s : string) (n : Z) : bool :=
  match v with
  | Some x => JS.strict_eq_str x s || JS.strict_eq_int x n
  | None => false
  end.

(** [updateData] of the first definition; the JSON blob
    [reversal_details] is left out. *)
Definition shadowed_updateData (Result : ReversalResult) : Db.row :=
  (Db.field "reversal_result_type"
     (option_map JS.scalar_toString (rv_ResultType Result))
   ++ Db.field "reversal_result_code"
        (option_map JS.scalar_toString (rv_ResultCode Result))
   ++ Db.field "reversal_result_desc" (rv_ResultDesc Result)
   ++ Db.field "reversal_conversation_id" (rv_ConversationID Result)
   ++ Db.field "reversal_transaction_id" (rv_TransactionID Result)
   ++ [("updated_at", Db.Time now);
       ("reversal_callback_received_at", Db.Time now)])%list.

Definition mark_refunded (s : Db.Store) (contribution updateData : Db.row)
  : Db.Store :=
  let updateData :=
    Db.set "refunded_at" (Db.Time now)
      (Db.set "status" (Db.Text "refunded") updateData) in
  let s' :=
    Db.update_contributions_unchecked B now updateData
      (Db.get "id" contribution) s in
  Db.mkStore (Db.contributions s')
    (if Db.truthy (Db.get "campaign_id" contribution)
     then updateCampaignFunding (Db.campaigns s')
            (Db.get "campaign_id" contribution)
            (- Db.number (Db.get "amount" contribution))
     else Db.campaigns s').

Definition mark_refund_failed (s : Db.Store) (contribution updateData : Db.row)
  : Db.Store :=
  Db.update_contributions_unchecked B now
    (Db.set "status" (Db.Text "refund_failed") updateData)
    (Db.get "id" contribution) s.

(** The first [handleReversalCallback] of the class body.  The later
    definition of the same name replaces it, so no route reaches it; it
    is modelled to compare the two. *)
Definition handleReversalCallback_shadowed (s : Db.Store)
    (callbackData : ReversalCallback) : Db.Store * CallbackResult :=
  match rv_Result callbackData with
  | None =>
      (s, mkCallbackResult false
            "Invalid reversal callback format - missing Result object")
  | Some Result =>
      let originalTransactionID :=
        parseReversalResultParameters (rv_ResultParameters Result) in
      match find_reversal_target (Db.contributions s) Result
              originalTransactionID with
      | None => (s, mkCallbackResult false "Contribution not found for reversal")
      | Some contribution =>
          let updateData := shadowed_updateData Result in
          let ResultCode := rv_ResultCode Result in
          if scalar_is ResultCode "0" 0 then
            (mark_refunded s contribution updateData,
             mkCallbackResult true "Reversal completed successfully")
          else if scalar_is ResultCode "21" 21 then
            (mark_refunded s contribution updateData,
             mkCallbackResult true "Reversal processed successfully")
          else if match ResultCode with
                  | Some x => JS.strict_eq_str x "R000002"
                  | None => false
                  end
                  && match rv_ResultDesc Result with
                     | Some d => JS.includes "OriginalTransactionID is invalid" d
                     | None => false
                     end
          then
            if Db.sandbox B then
              (mark_refunded s contribution updateData,
               mkCallbackResult true "Sandbox refund processed successfully")
            else
              (mark_refund_failed s contribution updateData,
               mkCallbackResult false
                 "Reversal failed - Invalid transaction ID (requires manual processing)")
          else
            (mark_refund_failed s contribution updateData,
             mkCallbackResult false
               ("Reversal failed: " ++ interpolate (rv_ResultDesc Result)))
      end
  end.

(* ------------------------------------------------------------------- *)
(** *** Reversal initiation *)

(** Reading an identifier: its binding in the enclosing function, or a
    [ReferenceError]. *)
Definition resolve (scope : list (string * string)) (name : string)
  : outcome string :=
  match find (fun binding => String.eqb (fst binding) name) scope with
  | Some binding => Returned (snd binding)
  | None => Thrown (Error (name ++ " is not defined"))
  end.

Record ReversalAccepted : Type := mkReversalAccepted {
  acc_OriginatorConversationID : string;
  acc_ConversationID : string;
  acc_callbackUrl : string
}.

(** The [try] block of [initiateReversal(transactionId, amount, remarks)].
    The request literal reads [remarks] and [occasion]; the string-valued
    names the function binds are its parameters [transactionId] and
    [remarks]. *)
Definition initiateReversal_try (cache : TokenCache) (transactionId : string)
    (amount : JS.num) (remarks : string)
  : TokenCache * list request * outcome ReversalAccepted :=
  match generateAccessToken cache with
  | (cache', log, Thrown e) => (cache', log, Thrown e)
  | (cache', log, Returned _) =>
      let numericAmount := JS.floor amount in
      if JS.lt numericAmount (JS.of_Z 1) || JS.gt numericAmount (JS.of_Z 300000)
      then
        (cache', log,
         Thrown (Error
           "Invalid reversal amount: must be between 1 and 300,000 KES"))
      else
        let scope := [("transactionId", transactionId); ("remarks", remarks)] in
        match resolve scope "remarks" with
        | Thrown e => (cache', log, Thrown e)
        | Returned remarks_value =>
            match resolve scope "occasion" with
            | Thrown e => (cache', log, Thrown e)
            | Returned occasion_value =>
                let reversalRequest :=
                  mkReversalRequest transactionId numericAmount
                    shortcode_number
                    (callbackUrl cfg ++ "/mpesa/callback/reversal")
                    (callbackUrl cfg ++ "/mpesa/timeout/reversal")
                    (JS.substring0 100 remarks_value)
                    (JS.substring0 100 occasion_value) in
                (cache', (log ++ [ReqReversal reversalRequest])%list,
                 match reversal gw reversalRequest with
                 | Thrown e => Thrown e
                 | Returned data =>
                     if String.eqb (rev_ResponseCode data) "0" then
                       Returned (mkReversalAccepted
                                   (rev_OriginatorConversationID data)
                                   (rev_ConversationID data)
                                   (callbackUrl cfg ++ "/mpesa/callback/reversal"))
                     else
                       Thrown (Error ("M-Pesa Reversal Error: "
                         ++ or_else (rev_ResponseDescription data)
                              "Unknown error"))
                 end)
            end
        end
  end.

(** The [catch] block of [initiateReversal]. *)
Definition reversal_catch (error : JsError) : JsError :=
  if eqb_opt_string (err_code error) "ECONNABORTED" then
    Error "M-Pesa reversal service timeout - please try again"
  else if env_truthy (err_errorMessage error) then
    Error (or_else (err_errorMessage error) "")
  else Error ("Reversal initiation failed: " ++ err_message error).

Definition initiateReversal (cache : TokenCache) (transactionId : string)
    (amount : JS.num) (remarks : string)
  : TokenCache * list request * outcome ReversalAccepted :=
  match initiateReversal_try cache transactionId amount remarks with
  | (cache', log, Thrown e) => (cache', log, Thrown (reversal_catch e))
  | done => done
  end.


End WithRuntime.
End MPesa.


(* ===================================================================== *)
(** ** Routes that drive the payment core *)
(* ===================================================================== *)

Module Routes.
Section WithRuntime.

Variable StringToNumber : string -> JS.num.
Variable cfg : Config.
Variable gw : Gateway.
Variable now : Z.
Variable B : Db.Backend.

(** The parts of an HTTP answer that matter here. *)
Record Response : Type := mkResponse {
  http_status : Z;
  body_error : option string;
  body_details : option string;
  body_status : option string;
  body_can_retry : option bool
}.

(** A text column as a JavaScript string. *)
Definition cell_string (c : Db.cell) : string :=
  match c with
  | Db.Text t => t
  | _ => ""
  end.

(* ------------------------------------------------------------------- *)
(** *** [POST /:id/contribute], from the call of [initiateSTKPush] on *)

(** [contribution] is the row the route has just inserted with status
    [pending]; [amount] is the request's amount, already known to be
    truthy and positive.  Neither update below can fire the funding
    trigger: the first writes no status, the second takes the row from
    [pending] to [failed]. *)
Definition contribute_payment (s : Db.Store) (cache : TokenCache)
    (contribution : Db.row) (formattedPhone : string) (amount : JS.value)
  : Db.Store * TokenCache * list request * Response :=
  let id := Db.get "id" contribution in
  match MPesa.initiateSTKPush StringToNumber cfg gw now cache formattedPhone
          (JS.VNum (JS.floor (JS.Number StringToNumber amount)))
          (cell_string id) with
  | (cache', log, Returned mpesaResponse) =>
      (Db.mkStore
         (Db.update_eq
            [("merchant_request_id",
               Db.Text (MPesa.res_MerchantRequestID mpesaResponse));
             ("mpesa_checkout_request_id",
               Db.Text (MPesa.res_CheckoutRequestID mpesaResponse));
             ("updated_at", Db.Time now)]
            "id" id (Db.contributions s))
         (Db.campaigns s),
       cache', log,
       mkResponse 200 None None None None)
  | (cache', log, Thrown mpesaError) =>
      let statusCode :=
        if JS.includes "timeout" (err_message mpesaError) then 504
        else if JS.includes "Invalid Access Token" (err_message mpesaError)
             then 503
        else if JS.includes "Invalid phone number" (err_message mpesaError)
             then 400
        else 500 in
      let userMessage :=
        if JS.includes "timeout" (err_message mpesaError) then
          "Payment service is currently slow. Please try again in a few minutes."
        else if JS.includes "Invalid Access Token" (err_message mpesaError)
             then "Payment service is temporarily unavailable. Please try again later."
        else if JS.includes "Invalid phone number" (err_message mpesaError)
             then "Invalid phone number format. Please check and try again."
        else "Failed to initiate payment. Please try again." in
      (Db.mkStore
         (Db.update_eq
            [("status", Db.Text "failed");
             ("result_desc",
               Db.Text ("M-Pesa initiation failed: " ++ err_message mpesaError));
             ("updated_at", Db.Time now)]
            "id" id (Db.contributions s))
         (Db.campaigns s),
       cache', log,
       mkResponse statusCode (Some userMessage)
         (Some (err_message mpesaError)) None (Some (500 <=? statusCode)))
  end.

(* ------------------------------------------------------------------- *)
(** *** [POST /contributions/:id/refund] *)

(** A stored amount (hundredths) as the JavaScript number the client
    hands back. *)
Definition js_amount (c : Db.cell) : JS.num :=
  JS.Fin (Db.number c # 100).

Definition refund (s : Db.Store) (cache : TokenCache) (id reason : string)
  : Db.Store * TokenCache * list request * Response :=
  match Db.select_single
          ["id"; "status"; "amount"; "transaction_id"; "payment_method";
           "campaign_id"; "created_at"]
          "id" (Db.Text id) (Db.contributions s) with
  | None =>
      (s, cache, [], mkResponse 404 (Some "Contribution not found") None None None)
  | Some contribution =>
      let status := Db.get "status" contribution in
      if negb (Db.text_is status "completed") then
        (s, cache, [],
         mkResponse 400 (Some "Only completed contributions can be refunded")
           None None None)
      else if existsb (Db.text_is status)
                ["refunded"; "refund_pending"; "refund_failed"] then
        (s, cache, [],
         mkResponse 400
           (Some ("Contribution is already " ++ cell_string status))
           None None None)
      else if Db.text_is (Db.get "payment_method" contribution) "mpesa"
              && Db.truthy (Db.get "transaction_id" contribution) then
        match MPesa.initiateReversal cfg gw now cache
                (cell_string (Db.get "transaction_id" contribution))
                (js_amount (Db.get "amount" contribution)) reason with
        | (cache', log, Returned reversalResult) =>
            (Db.update_contributions_unchecked B now
               [("status", Db.Text "refund_pending");
                ("reversal_conversation_id",
                  Db.Text (MPesa.acc_ConversationID reversalResult));
                ("reversal_originator_conversation_id",
                  Db.Text (MPesa.acc_OriginatorConversationID reversalResult));
                ("refund_reason", Db.Text reason);
                ("refund_initiated_at", Db.Time now);
                ("updated_at", Db.Time now);
                ("refund_estimated_completion",
                  Db.Time (now + 10 * 60 * 1000))]
               (Db.Text id) s,
             cache', log,
             mkResponse 200 None None (Some "refund_pending") None)
        | (cache', log, Thrown mpesaError) =>
            (Db.update_contributions_unchecked B now
               [("status", Db.Text "refund_failed");
                ("refund_reason", Db.Text reason);
                ("refund_error", Db.Text (err_message mpesaError));
                ("refund_initiated_at", Db.Time now);
                ("updated_at", Db.Time now)]
               (Db.Text id) s,
             cache', log,
             mkResponse 500 (Some "M-Pesa reversal initiation failed")
               (Some (err_message mpesaError)) None None)
        end
      else
        let s' :=
          Db.update_contributions_unchecked B now
            [("status", Db.Text "refunded");
             ("refund_reason", Db.Text reason);
             ("refunded_at", Db.Time now);
             ("updated_at", Db.Time now)]
            (Db.Text id) s in
        let campaign_id := Db.get "campaign_id" contribution in
        let campaigns' :=
          if Db.truthy campaign_id then
            match Db.select_single ["current_funding"] "id" campaign_id
                    (Db.campaigns s') with
            | Some campaign =>
                Db.update_campaigns B
                  [("current_funding",
                     Db.Num (Z.max 0
                               (Db.number (Db.get "current_funding" campaign)
                                - Db.number (Db.get "amount" contribution))));
                   ("updated_at", Db.Time now)]
                  campaign_id (Db.campaigns s')
            | None => Db.campaigns s'
            end
          else Db.campaigns s' in
        (Db.mkStore (Db.contributions s') campaigns', cache, [],
         mkResponse 200 None None (Some "refunded") None)
  end.

End WithRuntime.
End Routes.

(* ===================================================================== *)
(** ** The callback endpoints *)
(* ===================================================================== *)

(** One delivery to [POST /payments/mpesa/callback/contributions] or to
    [POST /payments/mpesa/callback/reversal]; both routes hand the body to
    the handler and answer 200. *)
Inductive delivery : Type :=
| ChargeDelivery (body : ChargeCallback)
| ReversalDelivery (body : ReversalCallback).

Definition deliver (B : Db.Backend) (now : Z) (s : Db.Store) (d : delivery)
  : Db.Store :=
  match d with
  | ChargeDelivery body => fst (MPesa.handleContributionCallback now B s body)
  | ReversalDelivery body => fst (MPesa.handleReversalCallback now B s body)
  end.

(** Deliveries in order, each at its own time. *)
Fixpoint deliver_all (B : Db.Backend) (s : Db.Store)
    (ds : list (Z * delivery)) : Db.Store :=
  match ds with
  | [] => s
  | (now, d) :: rest => deliver_all B (deliver B now s d) rest
  end.


(** A delivery gets past the handler's checks and finds contribution [c],
    carrying result code [rc]. *)
Inductive resolves (s : Db.Store) : delivery -> Db.row -> JS.scalar -> Prop :=
| resolves_charge body callback c rc :
    cb_test body = false ->
    cb_stkCallback body = Some callback ->
    env_truthy (cb_CheckoutRequestID callback) = true ->
    MPesa.charge_target (Db.contributions s) callback = Some c ->
    cb_ResultCode callback = Some rc ->
    resolves s (ChargeDelivery body) c rc
| resolves_reversal body Result c rc :
    rv_Result body = Some Result ->
    MPesa.reversal_target (Db.contributions s) Result = Some c ->
    rv_ResultCode Result = Some rc ->
    resolves s (ReversalDelivery body) c rc.

(** The six values of the status column. *)
Definition valid_status (c : Db.cell) : Prop :=
  In c [Db.Text "pending"; Db.Text "completed"; Db.Text "failed";
        Db.Text "refund_pending"; Db.Text "refunded"; Db.Text "refund_failed"].

Definition statuses_valid (s : Db.Store) : Prop :=
  Forall (fun r => valid_status (Db.get "status" r)) (Db.contributions s).

(* ===================================================================== *)
(** ** Upstream timeouts *)
(* ===================================================================== *)

(** The HTTP client's error for a request that was not answered within
    the 30 s the constructor allows: code [ECONNABORTED], message
    [timeout of 30000ms exceeded]. *)
Definition upstream_timeout (error : JsError) : bool :=
  eqb_opt_string (err_code error) "ECONNABORTED"
  && JS.includes "timeout" (err_message error).

(** A charge initiation that gets past validation and fails with an
    upstream timeout: either the charge request is not answered in time,
    or the token request is not, on the last attempt the client makes
    (an earlier timeout is retried). *)
Inductive initiation_times_out (StringToNumber : string -> JS.num)
    (cfg : Config) (gw : Gateway) (now : Z) (cache : TokenCache)
    (phoneNumber : string) (amount : JS.value) (contributionId : string)
  : Prop :=
| charge_request_times_out numericAmount cache' log tok e :
    MPesa.validate_stk StringToNumber phoneNumber amount contributionId
    = MPesa.AmountOk numericAmount ->
    MPesa.generateAccessToken cfg gw now cache = (cache', log, Returned tok) ->
    stkpush gw (MPesa.build_stk_request cfg phoneNumber numericAmount
                  contributionId) = Thrown e ->
    upstream_timeout e = true ->
    initiation_times_out StringToNumber cfg gw now cache phoneNumber amount
      contributionId
| token_request_times_out numericAmount e0 e1 e2 :
    MPesa.validate_stk StringToNumber phoneNumber amount contributionId
    = MPesa.AmountOk numericAmount ->
    MPesa.cache_hit now cache = None ->
    env_truthy (consumerKey cfg) = true ->
    env_truthy (consumerSecret cfg) = true ->
    oauth gw 0%nat = Thrown e0 -> MPesa.shouldRetry e0 = true ->
    oauth gw 1%nat = Thrown e1 -> MPesa.shouldRetry e1 = true ->
    oauth gw 2%nat = Thrown e2 -> upstream_timeout e2 = true ->
    initiation_times_out StringToNumber cfg gw now cache phoneNumber amount
      contributionId.

(* ===================================================================== *)
(** ** Concrete data for the examples *)
(* ===================================================================== *)

Module Examples.

(** A database without the RPC function, the constraint and the
    trigger, as the main schema file creates it. *)
Definition plain : Db.Backend :=
  Db.mkBackend (fun _ _ _ => None) false false false.

(** The same with [CHECK (current_funding >= 0)]. *)
Definition checked : Db.Backend :=
  Db.mkBackend (fun _ _ _ => None) true false false.

(** The database after [migrations/update_contributions_table.sql]:
    [contributions] carries [trigger_update_campaign_funding]. *)
Definition triggered : Db.Backend :=
  Db.mkBackend (fun _ _ _ => None) false false true.

(** The same with [CHECK (current_funding >= 0)]. *)
Definition triggered_checked : Db.Backend :=
  Db.mkBackend (fun _ _ _ => None) true false true.

Definition cfg : Config :=
  mkConfig (Some "key") (Some "secret") (Some "174379")
    "https://example.org/api/payments".

(** A stand-in for the runtime's StringToNumber: right on non-empty
    strings of decimal digits and on ["abc"]. *)
Definition digits_StringToNumber (s : string) : JS.num :=
  if String.eqb (JS.strip_non_digits s) s then
    match JS.parseInt s with
    | Some z => JS.of_Z z
    | None => JS.NaN
    end
  else JS.NaN.

Definition timeout_error : JsError :=
  mkJsError (Some "ECONNABORTED") None None "timeout of 30000ms exceeded".

(** An upstream that accepts every request. *)
Definition accepting : Gateway :=
  mkGateway
    (fun _ => Returned (mkTokenResponse "tok" 3599))
    (fun _ => Returned (mkStkResponse "0" "MR1" "CO123" None "Success"))
    (fun _ => Returned (mkReversalResponse "0" "OC1" "CV1" None)).

(** An upstream whose charge endpoint does not answer in time. *)
Definition stalling : Gateway :=
  mkGateway
    (fun _ => Returned (mkTokenResponse "tok" 3599))
    (fun _ => Thrown timeout_error)
    (fun _ => Thrown timeout_error).

(** An upstream whose token endpoint does not answer in time. *)
Definition token_stalling : Gateway :=
  mkGateway
    (fun _ => Thrown timeout_error)
    (fun _ => Returned (mkStkResponse "0" "MR1" "CO123" None "Success"))
    (fun _ => Returned (mkReversalResponse "0" "OC1" "CV1" None)).

(** A contribution of 100.00 to campaign [k1], paid by M-Pesa. *)
Definition contribution (status : string) : Db.row :=
  [("id", Db.Text "c1"); ("campaign_id", Db.Text "k1");
   ("amount", Db.Num 10000); ("status", Db.Text status);
   ("payment_method", Db.Text "mpesa");
   ("mpesa_checkout_request_id", Db.Text "CO123");
   ("transaction_id", Db.Text "ABC1");
   ("created_at", Db.Time 1000)].

Definition campaign (current_funding : Z) : Db.row :=
  [("id", Db.Text "k1"); ("current_funding", Db.Num current_funding);
   ("updated_at", Db.Time 1000)].

Definition store (status : string) (current_funding : Z) : Db.Store :=
  Db.mkStore [contribution status] [campaign current_funding].

Definition charge (ResultCode : Z) : ChargeCallback :=
  mkChargeCallback false
    (Some (mkStkCallback (Some "CO123") (Some (JS.SInt ResultCode))
             (Some "The service request is processed successfully.")
             [("Amount", JS.SInt 100);
              ("MpesaReceiptNumber", JS.SStr "ABC1");
              ("TransactionDate", JS.SInt 20191219102115);
              ("PhoneNumber", JS.SInt 254712345678)])).

Definition reversal_result (ResultCode : Z) : ReversalResult :=
  mkReversalResult (Some (JS.SInt 0)) (Some (JS.SInt ResultCode))
    (Some "The service request is processed successfully.")
    (Some "OC1") (Some "CV1") (Some "XYZ9")
    [("Amount", JS.SInt 100); ("OriginalTransactionID", JS.SStr "ABC1")].

Definition reversal (ResultCode : Z) : ReversalCallback :=
  mkReversalCallback (Some (reversal_result ResultCode)).

End Examples.

(* ===================================================================== *)
(** ** The rest of the [MPesa] class *)
(* ===================================================================== *)

Module Reversal.
Section WithRuntime.

Variable cfg : Config.
Variable gw : Gateway.
Variable now : Z.

Record ReversalInitiated : Type := mkReversalInitiated {
  ini_OriginatorConversationID : string;
  ini_ConversationID : string
}.

(** The [try] block of [reverseTransaction(transactionId, amount, remarks,
    occasion)]; the two defaults are applied by the caller. *)
Definition reverseTransaction_try (cache : TokenCache) (transactionId : string)
    (amount : JS.num) (remarks occasion : string)
  : TokenCache * list request * outcome ReversalInitiated :=
  match MPesa.generateAccessToken cfg gw now cache with
  | (cache', log, Thrown e) => (cache', log, Thrown e)
  | (cache', log, Returned _) =>
      let reversalRequest :=
        mkReversalRequest transactionId (JS.floor amount)
          (MPesa.shortcode_number cfg)
          (callbackUrl cfg ++ "/mpesa/reversal/result")
          (callbackUrl cfg ++ "/mpesa/reversal/timeout")
          (JS.substring0 100 remarks)
          (JS.substring0 100 occasion) in
      (cache', (log ++ [ReqReversal reversalRequest])%list,
       match reversal gw reversalRequest with
       | Thrown e => Thrown e
       | Returned data =>
           if String.eqb (rev_ResponseCode data) "0" then
             Returned (mkReversalInitiated (rev_OriginatorConversationID data)
                         (rev_ConversationID data))
           else
             Thrown (Error ("M-Pesa Reversal Error: "
               ++ or_else (rev_ResponseDescription data) "Unknown error"))
       end)
  end.

Definition reverseTransaction (cache : TokenCache) (transactionId : string)
    (amount : JS.num) (remarks occasion : string)
  : TokenCache * list request * outcome ReversalInitiated :=
  match reverseTransaction_try cache transactionId amount remarks occasion with
  | (cache', log, Thrown e) => (cache', log, Thrown (MPesa.reversal_catch e))
  | done => done
  end.

(** What [checkReversalStatus] answers for a reversal it finds. *)
Record ReversalStatus : Type := mkReversalStatus {
  st_status : Db.cell;
  st_resultCode : Db.cell;
  st_resultDesc : Db.cell;
  st_callbackReceived : bool;
  st_timeSinceInitiation : option Z;
  st_isComplete : bool;
  st_refundedAt : Db.cell
}.

(** [checkReversalStatus(conversationId)]; [None] is the answer
    [{ success: false, message: 'Reversal not found' }]. *)
Definition checkReversalStatus (contributions : Db.table)
    (conversationId : Db.cell) : option ReversalStatus :=
  match Db.select_single
          ["id"; "status"; "reversal_result_code"; "reversal_result_desc";
           "reversal_callback_received_at"; "refund_initiated_at"; "refunded_at"]
          "reversal_conversation_id" conversationId contributions with
  | None => None
  | Some contribution =>
      let timeSinceInitiation :=
        if Db.truthy (Db.get "refund_initiated_at" contribution)
        then Some (now - Db.number_of_time
                           (Db.get "refund_initiated_at" contribution))
        else None in
      Some (mkReversalStatus
              (Db.get "status" contribution)
              (Db.get "reversal_result_code" contribution)
              (Db.get "reversal_result_desc" contribution)
              (Db.truthy (Db.get "reversal_callback_received_at" contribution))
              (match timeSinceInitiation with
               | Some t => if t =? 0 then None else Some (t / 1000)
               | None => None
               end)
              (existsb (Db.text_is (Db.get "status" contribution))
                 ["refunded"; "refund_failed"])
              (Db.get "refunded_at" contribution))
  end.

End WithRuntime.
End Reversal.

(* ===================================================================== *)
(** ** The other routes around the payment core *)
(* ===================================================================== *)

Module Api.
Section WithRuntime.

Variable StringToNumber : string -> JS.num.
Variable cfg : Config.
Variable gw : Gateway.
Variable now : Z.
Variable B : Db.Backend.

(* ------------------------------------------------------------------- *)
(** *** [GET /contributions/:id/refund-status] *)

Record Timing : Type := mkTiming {
  minutesSinceInitiation : Z;
  isOverdue : bool
}.

Record MpesaDetails : Type := mkMpesaDetails {
  md_conversationId : Db.cell;
  md_callbackReceived : bool;
  md_reversalStatus : option Reversal.ReversalStatus
}.

Record StatusDetails : Type := mkStatusDetails {
  sd_status : Db.cell;
  sd_error : Db.cell;
  sd_isComplete : bool;
  sd_isPending : bool;
  sd_mpesaDetails : option MpesaDetails;
  sd_timing : option Timing
}.

(** [None] is the 404 answer. *)
Definition refund_status (s : Db.Store) (id : string) : option StatusDetails :=
  match Db.select_single
          ["id"; "status"; "refund_reason"; "refund_initiated_at"; "refunded_at";
           "reversal_result_code"; "reversal_result_desc";
           "reversal_conversation_id"; "reversal_callback_received_at";
           "refund_estimated_completion"; "refund_error"]
          "id" (Db.Text id) (Db.contributions s) with
  | None => None
  | Some contribution =>
      let status := Db.get "status" contribution in
      let has_reversal :=
        Db.truthy (Db.get "reversal_conversation_id" contribution) in
      Some (mkStatusDetails status (Db.get "refund_error" contribution)
              (existsb (Db.text_is status) ["refunded"; "refund_failed"])
              (Db.text_is status "refund_pending")
              (if has_reversal then
                 Some (mkMpesaDetails
                         (Db.get "reversal_conversation_id" contribution)
                         (Db.truthy
                            (Db.get "reversal_callback_received_at" contribution))
                         (Reversal.checkReversalStatus now (Db.contributions s)
                            (Db.get "reversal_conversation_id" contribution)))
               else None)
              (if has_reversal && Db.text_is status "refund_pending" then
                 let timeSinceInitiation :=
                   now - Db.number_of_time
                           (Db.get "refund_initiated_at" contribution) in
                 let minutes := timeSinceInitiation / (1000 * 60) in
                 Some (mkTiming minutes (15 <? minutes))
               else None))
  end.

(* ------------------------------------------------------------------- *)
(** *** [POST /contributions/:id/check-reversal-status] *)

(** [inl 404] or the answer of [checkReversalStatus]. *)
Definition check_reversal_status (s : Db.Store) (id : string)
  : Z + option Reversal.ReversalStatus :=
  match Db.select_single ["reversal_conversation_id"] "id" (Db.Text id)
          (Db.contributions s) with
  | None => inl 404
  | Some contribution =>
      if negb (Db.truthy (Db.get "reversal_conversation_id" contribution))
      then inl 404
      else inr (Reversal.checkReversalStatus now (Db.contributions s)
                  (Db.get "reversal_conversation_id" contribution))
  end.

(* ------------------------------------------------------------------- *)
(** *** The two reversal callback endpoints *)

(** [POST /callback/reversal] of the M-Pesa router: 200 when the handler
    reports success, 400 otherwise. *)
Definition mpesa_reversal_callback (s : Db.Store) (body : ReversalCallback)
  : Db.Store * Z :=
  let '(s', result) := MPesa.handleReversalCallback now B s body in
  (s', if success result then 200 else 400).

(** [POST /mpesa/callback/reversal] of the payments router: 200 with the
    handler's answer as the body. *)
Definition payments_reversal_callback (s : Db.Store) (body : ReversalCallback)
  : Db.Store * Z :=
  let '(s', result) := MPesa.handleReversalCallback now B s body in
  (s', 200).

(* ------------------------------------------------------------------- *)
(** *** [POST /:id/contribute], whole *)

(** The fields of the request body that the payment depends on. *)
Record ContributeBody : Type := mkContributeBody {
  body_amount : JS.value;
  body_phone_number : option string
}.

(** [parseFloat(amount)] as the [amount] column stores it; the parse and
    the cast to [NUMERIC] belong to the runtime and the database. *)
Variable stored_amount : JS.value -> Db.cell.

(** The phone number as the route rewrites it before storing it. *)
Definition route_phone (phoneNumber : string) : string :=
  if JS.startsWith "0" phoneNumber then "254" ++ JS.slice1 phoneNumber
  else if JS.startsWith "+" phoneNumber then JS.slice1 phoneNumber
  else phoneNumber.

(** [!amount || amount <= 0]. *)
Definition amount_refused (amount : JS.value) : bool :=
  negb (JS.truthy amount)
  || JS.le (JS.Number StringToNumber amount) (JS.of_Z 0).

Definition refuse (status : Z) (error : string) : Routes.Response :=
  Routes.mkResponse status (Some error) None None None.

(** [profiles] is the table of that name; [defaults] holds the columns the
    database fills on insert, the generated [id] among them.  The inserted
    columns that no later step reads ([anonymous], [notes], [ip_address],
    [user_agent]) are left out; the insert is taken to succeed and the
    [MPesa] module to have loaded. *)
Definition contribute (s : Db.Store) (profiles : Db.table)
    (cache : TokenCache) (campaignId contributorId : string)
    (body : ContributeBody) (defaults : Db.row)
  : Db.Store * TokenCache * list request * Routes.Response :=
  let amount := body_amount body in
  if amount_refused amount then
    (s, cache, [], refuse 400 "Invalid contribution amount")
  else
    match Db.single (filter (Db.eq "id" (Db.Text campaignId))
                       (Db.campaigns s)) with
    | None => (s, cache, [], refuse 404 "Campaign not found")
    | Some campaign =>
        if negb (Db.text_is (Db.get "status" campaign) "active") then
          (s, cache, [], refuse 400 "Campaign is not accepting contributions")
        else if Db.number_of_time (Db.get "end_date" campaign) <? now then
          (s, cache, [], refuse 400 "Campaign has ended")
        else
          let phoneNumber :=
            if env_truthy (body_phone_number body)
            then interpolate (body_phone_number body)
            else
              match Db.select_single ["phone"] "id" (Db.Text contributorId)
                      profiles with
              | Some profile => Routes.cell_string (Db.get "phone" profile)
              | None => ""
              end in
          if negb (JS.str_truthy phoneNumber) then
            (s, cache, [], refuse 400 "Phone number is required for payment")
          else
            let formattedPhone := route_phone phoneNumber in
            let contribution :=
              Db.apply_update
                [("campaign_id", Db.Text campaignId);
                  ("contributor_id", Db.Text contributorId);
                  ("amount", stored_amount amount);
                  ("mpesa_phone_number", Db.Text formattedPhone);
                  ("payment_reference",
                    Db.Text ("CAMP_" ++ JS.substring0 8 campaignId ++ "_"
                             ++ JS.Z_toString now));
                  ("status", Db.Text "pending");
                  ("source", Db.Text "web")]
                defaults in
            Routes.contribute_payment StringToNumber cfg gw now
              (Db.mkStore (Db.contributions s ++ [contribution])%list
                 (Db.campaigns s))
              cache contribution formattedPhone amount
    end.

End WithRuntime.
End Api.

(** No contribution carries the given id yet. *)
Definition fresh_id (id : Db.cell) (t : Db.table) : Prop :=
  forall r, In r t -> Db.eq "id" id r = false.

(** No contribution carries the given checkout-request id yet. *)
Definition fresh_checkout (checkout : string) (t : Db.table) : Prop :=
  forall r, In r t ->
    Db.eq "mpesa_checkout_request_id" (Db.Text checkout) r = false.

(** The items of a callback carry pairwise different names. *)
Definition distinct_names (items : list (string * JS.scalar)) : Prop :=
  NoDup (map fst items).

(** The columns that identify a contribution and fix what it is worth. *)
Definition identity_columns : list string :=
  ["id"; "campaign_id"; "amount"; "mpesa_checkout_request_id"].

(** Every campaign total is zero or more. *)
Definition totals_nonnegative (t : Db.table) : Prop :=
  Forall (fun r => 0 <= Db.number (Db.get "current_funding" r)) t.


(* ===================================================================== *)
(** * Properties *)
(* ===================================================================== *)

(** ** Numbers and amount validation *)

Lemma Qltb_true (a b : Q) : JS.Qltb a b = true <-> (a < b)%Q.
Proof.
  unfold JS.Qltb. rewrite negb_true_iff. split.
  - intros H. apply Qnot_le_lt. intros Hle.
    apply Qle_bool_iff in Hle. congruence.
  - intros H. destruct (Qle_bool b a) eqn:E; [|reflexivity].
    apply Qle_bool_iff in E. exfalso. exact (Qlt_not_le _ _ H E).
Qed.

Lemma Qltb_false (a b : Q) : JS.Qltb a b = false <-> (b <= a)%Q.
Proof.
  unfold JS.Qltb. rewrite negb_false_iff. apply Qle_bool_iff.
Qed.

(** The floor is below an integer bound exactly when the number is. *)
Lemma floor_lt_int (q : Q) (n : Z) :
  (inject_Z (Qfloor q) < inject_Z n)%Q <-> (q < inject_Z n)%Q.
Proof.
  split; intros H.
  - apply Qlt_le_trans with (inject_Z (Qfloor q + 1)).
    + apply Qlt_floor.
    + rewrite <- Zle_Qle. rewrite <- Zlt_Qlt in H. lia.
  - apply Qle_lt_trans with q; [apply Qfloor_le | exact H].
Qed.

Lemma floor_gt_int (q : Q) (n : Z) :
  (inject_Z n < inject_Z (Qfloor q))%Q <-> (inject_Z (n + 1) <= q)%Q.
Proof.
  split; intros H.
  - apply Qle_trans with (inject_Z (Qfloor q)); [|apply Qfloor_le].
    rewrite <- Zle_Qle. rewrite <- Zlt_Qlt in H. lia.
  - rewrite <- Zlt_Qlt.
    assert (Hlt : (inject_Z (n + 1) < inject_Z (Qfloor q + 1))%Q)
      by (eapply Qle_lt_trans; [exact H | apply Qlt_floor]).
    rewrite <- Zlt_Qlt in Hlt. lia.
Qed.

(** The outcome of the two guards on a finite numeric amount. *)
Lemma validate_stk_numeric S (phone cid : string) (q : Q) :
  JS.str_truthy phone = true -> JS.str_truthy cid = true ->
  MPesa.validate_stk S phone (JS.VNum (JS.Fin q)) cid =
    if Qeq_bool q 0 then MPesa.MissingParameters
    else if JS.Qltb q 1 || negb (JS.Qltb q 300001) then MPesa.InvalidAmount
    else MPesa.AmountOk (JS.Fin (inject_Z (Qfloor q))).
Proof.
  intros Hp Hc. unfold MPesa.validate_stk. rewrite Hp, Hc. cbn [negb orb].
  cbn [JS.truthy JS.is_zero JS.Number JS.floor].
  destruct (Qeq_bool q 0); cbn [negb]; [reflexivity|].
  unfold JS.gt, JS.of_Z. cbn [JS.lt].
  assert (E1 : JS.Qltb (inject_Z (Qfloor q)) (inject_Z 1) = JS.Qltb q 1).
  { destruct (JS.Qltb q 1) eqn:E.
    - apply Qltb_true. apply <- floor_lt_int. apply Qltb_true in E. exact E.
    - apply Qltb_false. apply Qltb_false in E.
      apply Qnot_lt_le. intros H. apply -> floor_lt_int in H.
      exact (Qlt_not_le _ _ H E). }
  assert (E2 : JS.Qltb (inject_Z 300000) (inject_Z (Qfloor q))
               = negb (JS.Qltb q 300001)).
  { destruct (JS.Qltb q 300001) eqn:E; cbn [negb].
    - apply Qltb_false. apply Qltb_true in E.
      apply Qnot_lt_le. intros H. apply -> floor_gt_int in H.
      exact (Qlt_not_le _ _ E H).
    - apply Qltb_true. apply <- floor_gt_int. apply Qltb_false in E. exact E. }
  rewrite E1, E2. reflexivity.
Qed.

Lemma initiateSTKPush_rejects S cfg gw now cache phone amount cid :
  MPesa.validate_stk S phone amount cid <> MPesa.AmountOk
    (JS.floor (JS.Number S amount)) ->
  exists e,
    MPesa.initiateSTKPush S cfg gw now cache phone amount cid
    = (cache, [], Thrown e).
Proof.
  intros H. unfold MPesa.initiateSTKPush, MPesa.initiateSTKPush_try.
  unfold MPesa.validate_stk in *.
  destruct (negb (JS.str_truthy phone) || negb (JS.truthy amount)
            || negb (JS.str_truthy cid)).
  - eexists. reflexivity.
  - destruct (JS.lt _ _ || JS.gt _ _).
    + eexists. reflexivity.
    + congruence.
Qed.

(** The two guards on any finite amount, whole or not, given a
    non-empty phone number and a non-empty reference: the amount is
    truncated before it is compared, so what is turned away is every
    amount below 1 and every amount from 300001 upwards. *)
Lemma stk_amount_validation :
  forall S cfg gw now cache phone cid (q : Q),
    JS.str_truthy phone = true ->
    JS.str_truthy cid = true ->
    ((q < 1 \/ 300001 <= q)%Q ->
       exists e,
         MPesa.initiateSTKPush S cfg gw now cache phone (JS.VNum (JS.Fin q)) cid
         = (cache, [], Thrown e))
    /\ ((1 <= q /\ q < 300001)%Q ->
       MPesa.validate_stk S phone (JS.VNum (JS.Fin q)) cid
       = MPesa.AmountOk (JS.Fin (inject_Z (Qfloor q)))).
Proof.
  intros S cfg gw now cache phone cid q Hp Hc.
  pose proof (validate_stk_numeric S phone cid q Hp Hc) as V.
  split.
  - intros Hout. apply initiateSTKPush_rejects. rewrite V.
    destruct (Qeq_bool q 0); [discriminate|].
    assert (E : JS.Qltb q 1 || negb (JS.Qltb q 300001) = true).
    { destruct Hout as [Hlow | Hhigh].
      - apply (proj2 (Qltb_true q 1)) in Hlow. rewrite Hlow. reflexivity.
      - apply (proj2 (Qltb_false q 300001)) in Hhigh. rewrite Hhigh.
        apply orb_true_r. }
    rewrite E. discriminate.
  - intros [Hlow Hhigh]. rewrite V.
    destruct (Qeq_bool q 0) eqn:Ez.
    + apply Qeq_bool_iff in Ez. rewrite Ez in Hlow.
      exfalso. revert Hlow. apply Qlt_not_le. reflexivity.
    + apply (proj2 (Qltb_false q 1)) in Hlow.
      apply (proj2 (Qltb_true q 300001)) in Hhigh.
      rewrite Hlow, Hhigh. reflexivity.
Qed.

(** An amount that passes validation goes upstream, truncated, as soon
    as a token is at hand. *)
Lemma initiateSTKPush_accepted S cfg gw now cache phone amount cid n
    cache' log tok :
  MPesa.validate_stk S phone amount cid = MPesa.AmountOk n ->
  MPesa.generateAccessToken cfg gw now cache = (cache', log, Returned tok) ->
  exists paymentRequest res,
    MPesa.initiateSTKPush S cfg gw now cache phone amount cid
    = (cache', (log ++ [ReqStkPush paymentRequest])%list, res)
    /\ stk_Amount paymentRequest = n.
Proof.
  intros V Htok. unfold MPesa.initiateSTKPush, MPesa.initiateSTKPush_try.
  rewrite V, Htok.
  exists (MPesa.build_stk_request cfg phone n cid).
  destruct (stkpush gw (MPesa.build_stk_request cfg phone n cid)) as [data|e].
  - destruct (String.eqb (stk_ResponseCode data) "0");
      eexists; split; reflexivity.
  - eexists; split; reflexivity.
Qed.

(** The two guards on a whole amount. *)
Lemma validate_stk_whole S (phone cid : string) (z : Z) :
  MPesa.validate_stk S phone (JS.VNum (JS.of_Z z)) cid =
    if negb (JS.str_truthy phone) || (z =? 0) || negb (JS.str_truthy cid)
    then MPesa.MissingParameters
    else if (z <? 1) || (300000 <? z) then MPesa.InvalidAmount
    else MPesa.AmountOk (JS.of_Z z).
Proof.
  unfold MPesa.validate_stk, JS.of_Z.
  cbn [JS.truthy JS.is_zero JS.Number JS.floor].
  assert (Ez : Qeq_bool (inject_Z z) 0 = (z =? 0)).
  { unfold Qeq_bool, inject_Z. cbn [Qnum Qden].
    rewrite Z.mul_1_r. reflexivity. }
  rewrite Ez, negb_involutive.
  destruct (negb (JS.str_truthy phone) || (z =? 0) || negb (JS.str_truthy cid));
    [reflexivity|].
  rewrite Qfloor_Z. unfold JS.gt. cbn [JS.lt].
  assert (E1 : JS.Qltb (inject_Z z) (inject_Z 1) = (z <? 1)).
  { destruct (Z.ltb_spec z 1) as [H|H].
    - apply Qltb_true. rewrite <- Zlt_Qlt. exact H.
    - apply Qltb_false. rewrite <- Zle_Qle. exact H. }
  assert (E2 : JS.Qltb (inject_Z 300000) (inject_Z z) = (300000 <? z)).
  { destruct (Z.ltb_spec 300000 z) as [H|H].
    - apply Qltb_true. rewrite <- Zlt_Qlt. exact H.
    - apply Qltb_false. rewrite <- Zle_Qle. exact H. }
  rewrite E1, E2. reflexivity.
Qed.

(** C8. Whatever the other arguments are, [initiateSTKPush] turns away
    amount 0, every negative amount and every amount greater than 300000
    with an error, before any request has been sent and with the token
    cache untouched.  Amount 1 and amount 300000, with a phone number and
    a reference, pass the validation, and the charge request goes out
    for that amount once a token is at hand. *)
Theorem stk_whole_amount_validation :
  forall S cfg gw now cache phone cid,
    (forall z : Z,
       z <= 0 \/ 300000 < z ->
       exists e,
         MPesa.initiateSTKPush S cfg gw now cache phone
           (JS.VNum (JS.of_Z z)) cid
         = (cache, [], Thrown e))
    /\ (JS.str_truthy phone = true ->
        JS.str_truthy cid = true ->
        forall z : Z,
          z = 1 \/ z = 300000 ->
          MPesa.validate_stk S phone (JS.VNum (JS.of_Z z)) cid
          = MPesa.AmountOk (JS.of_Z z)
          /\ forall cache' log tok,
              MPesa.generateAccessToken cfg gw now cache
              = (cache', log, Returned tok) ->
              exists paymentRequest res,
                MPesa.initiateSTKPush S cfg gw now cache phone
                  (JS.VNum (JS.of_Z z)) cid
                = (cache', (log ++ [ReqStkPush paymentRequest])%list, res)
                /\ stk_Amount paymentRequest = JS.of_Z z).
Proof.
  intros S cfg gw now cache phone cid. split.
  - intros z Hz. apply initiateSTKPush_rejects. rewrite validate_stk_whole.
    destruct (negb (JS.str_truthy phone) || (z =? 0) || negb (JS.str_truthy cid));
      [discriminate|].
    assert (E : (z <? 1) || (300000 <? z) = true).
    { destruct Hz as [Hz|Hz].
      - apply orb_true_iff. left. apply Z.ltb_lt. lia.
      - apply orb_true_iff. right. apply Z.ltb_lt. exact Hz. }
    rewrite E. discriminate.
  - intros Hp Hc z Hz.
    assert (V : MPesa.validate_stk S phone (JS.VNum (JS.of_Z z)) cid
                = MPesa.AmountOk (JS.of_Z z)).
    { rewrite validate_stk_whole, Hp, Hc.
      destruct Hz as [->| ->]; reflexivity. }
    split; [exact V|].
    intros cache' log tok Htok.
    exact (initiateSTKPush_accepted S cfg gw now cache phone _ cid _
             cache' log tok V Htok).
Qed.

(** The amounts the specification names: 0 and 300001 are turned away,
    and so is -5, here with an empty phone number and reference; 1 and
    300000 pass. *)
Lemma stk_whole_amount_validation_witness :
  (exists e,
     MPesa.initiateSTKPush Examples.digits_StringToNumber Examples.cfg
       Examples.accepting 5000 empty_cache "0712345678"
       (JS.VNum (JS.of_Z 0)) "c1"
     = (empty_cache, [], Thrown e))
  /\ (exists e,
        MPesa.initiateSTKPush Examples.digits_StringToNumber Examples.cfg
          Examples.accepting 5000 empty_cache "" (JS.VNum (JS.of_Z (-5))) ""
        = (empty_cache, [], Thrown e))
  /\ (exists e,
        MPesa.initiateSTKPush Examples.digits_StringToNumber Examples.cfg
          Examples.accepting 5000 empty_cache "0712345678"
          (JS.VNum (JS.of_Z 300001)) "c1"
        = (empty_cache, [], Thrown e))
  /\ MPesa.validate_stk Examples.digits_StringToNumber "0712345678"
       (JS.VNum (JS.of_Z 1)) "c1"
     = MPesa.AmountOk (JS.of_Z 1)
  /\ MPesa.validate_stk Examples.digits_StringToNumber "0712345678"
       (JS.VNum (JS.of_Z 300000)) "c1"
     = MPesa.AmountOk (JS.of_Z 300000).
Proof.
  split; [|split; [|split; [|split]]].
  - apply (proj1 (stk_whole_amount_validation Examples.digits_StringToNumber
                    Examples.cfg Examples.accepting 5000 empty_cache
                    "0712345678" "c1") 0).
    left. lia.
  - apply (proj1 (stk_whole_amount_validation Examples.digits_StringToNumber
                    Examples.cfg Examples.accepting 5000 empty_cache "" "")
             (-5)).
    left. lia.
  - apply (proj1 (stk_whole_amount_validation Examples.digits_StringToNumber
                    Examples.cfg Examples.accepting 5000 empty_cache
                    "0712345678" "c1") 300001).
    right. lia.
  - apply (proj2 (stk_whole_amount_validation Examples.digits_StringToNumber
                    Examples.cfg Examples.accepting 5000 empty_cache
                    "0712345678" "c1") eq_refl eq_refl 1).
    left. reflexivity.
  - apply (proj2 (stk_whole_amount_validation Examples.digits_StringToNumber
                    Examples.cfg Examples.accepting 5000 empty_cache
                    "0712345678" "c1") eq_refl eq_refl 300000).
    right. reflexivity.
Defined.

(** An amount that is not whole is truncated before it is compared:
    300000.5 passes both guards, and the charge request is submitted for
    300000. *)
Lemma stk_accepts_fraction_above_ceiling :
  (300000 < 600001 # 2)%Q
  /\ MPesa.validate_stk Examples.digits_StringToNumber "0712345678"
       (JS.VNum (JS.Fin (600001 # 2))) "c1"
     = MPesa.AmountOk (JS.Fin (inject_Z 300000))
  /\ snd (MPesa.initiateSTKPush Examples.digits_StringToNumber Examples.cfg
            Examples.accepting 5000 empty_cache "0712345678"
            (JS.VNum (JS.Fin (600001 # 2))) "c1")
     = Returned (MPesa.mkStkResult "MR1" "CO123" "Success")
  /\ map (fun r => match r with
                   | ReqStkPush p => Some (stk_Amount p)
                   | _ => None
                   end)
       (snd (fst (MPesa.initiateSTKPush Examples.digits_StringToNumber
                    Examples.cfg Examples.accepting 5000 empty_cache
                    "0712345678" (JS.VNum (JS.Fin (600001 # 2))) "c1")))
     = [None; Some (JS.Fin (inject_Z 300000))].
Proof.
  repeat split; vm_compute; reflexivity.
Qed.

(** C10. A truthy amount whose numeric conversion is NaN passes both
    range guards, and once a token is at hand the charge request goes out
    with [Amount] equal to NaN. *)
Theorem stk_nan_amount_not_rejected :
  forall S cfg gw now cache phone cid amount,
    JS.str_truthy phone = true ->
    JS.str_truthy cid = true ->
    JS.truthy amount = true ->
    JS.Number S amount = JS.NaN ->
    MPesa.validate_stk S phone amount cid = MPesa.AmountOk JS.NaN
    /\ forall cache' log tok,
        MPesa.generateAccessToken cfg gw now cache = (cache', log, Returned tok) ->
        exists paymentRequest res,
          MPesa.initiateSTKPush S cfg gw now cache phone amount cid
          = (cache', (log ++ [ReqStkPush paymentRequest])%list, res)
          /\ stk_Amount paymentRequest = JS.NaN.
Proof.
  intros S cfg gw now cache phone cid amount Hp Hc Ht Hn.
  assert (V : MPesa.validate_stk S phone amount cid = MPesa.AmountOk JS.NaN).
  { unfold MPesa.validate_stk. rewrite Hp, Hc, Ht, Hn. reflexivity. }
  split; [exact V|].
  intros cache' log tok Htok.
  unfold MPesa.initiateSTKPush, MPesa.initiateSTKPush_try.
  rewrite V, Htok.
  exists (MPesa.build_stk_request cfg phone JS.NaN cid).
  destruct (stkpush gw (MPesa.build_stk_request cfg phone JS.NaN cid)) as [data|e].
  - destruct (String.eqb (stk_ResponseCode data) "0");
      eexists; split; reflexivity.
  - eexists; split; reflexivity.
Qed.

Lemma stk_nan_amount_not_rejected_witness :
  MPesa.validate_stk Examples.digits_StringToNumber "0712345678"
    (JS.VStr "abc") "c1" = MPesa.AmountOk JS.NaN
  /\ forall cache' log tok,
      MPesa.generateAccessToken Examples.cfg Examples.accepting 5000 empty_cache
      = (cache', log, Returned tok) ->
      exists paymentRequest res,
        MPesa.initiateSTKPush Examples.digits_StringToNumber Examples.cfg
          Examples.accepting 5000 empty_cache "0712345678" (JS.VStr "abc") "c1"
        = (cache', (log ++ [ReqStkPush paymentRequest])%list, res)
        /\ stk_Amount paymentRequest = JS.NaN.
Proof.
  apply (stk_nan_amount_not_rejected Examples.digits_StringToNumber
           Examples.cfg Examples.accepting 5000 empty_cache "0712345678" "c1"
           (JS.VStr "abc")); reflexivity.
Defined.

(** ** Phone normalisation *)

(** C9. The three spellings of the same subscriber number, with a leading
    zero, with [+254] and with [254], all normalise to 254712345678. *)
Theorem formatPhoneNumber_canonical :
  formatPhoneNumber "0712345678" = Some 254712345678 /\
  formatPhoneNumber "+254712345678" = Some 254712345678 /\
  formatPhoneNumber "254712345678" = Some 254712345678.
Proof. repeat split; vm_compute; reflexivity. Qed.

(** ** Rows and tables *)

Lemma lookup_set (k k' : string) (v : Db.cell) (r : Db.row) :
  Db.lookup k (Db.set k' v r)
  = if String.eqb k k' then Some v else Db.lookup k r.
Proof.
  induction r as [|[k'' v''] rest IH]; simpl.
  - reflexivity.
  - destruct (String.eqb k' k'') eqn:E; simpl.
    + apply String.eqb_eq in E. subst k''.
      destruct (String.eqb k k'); reflexivity.
    + rewrite IH. destruct (String.eqb k k'') eqn:E2; [|reflexivity].
      destruct (String.eqb k k') eqn:E1; [|reflexivity].
      apply String.eqb_eq in E1, E2. subst. rewrite String.eqb_refl in E.
      discriminate.
Qed.

Lemma get_set (k k' : string) (v : Db.cell) (r : Db.row) :
  Db.get k (Db.set k' v r) = if String.eqb k k' then v else Db.get k r.
Proof.
  unfold Db.get. rewrite lookup_set. destruct (String.eqb k k'); reflexivity.
Qed.

(** After an update a column holds the value the update object gives it
    last, and its old value when the object does not mention it. *)
Lemma get_apply_update (k : string) (patch r : Db.row) :
  Db.get k (Db.apply_update patch r)
  = match Db.lookup k (rev patch) with
    | Some v => v
    | None => Db.get k r
    end.
Proof.
  induction patch as [|[k' v'] patch IH] using rev_ind.
  - reflexivity.
  - unfold Db.apply_update in *. rewrite fold_left_app, rev_app_distr. simpl.
    rewrite get_set. destruct (String.eqb k k'); [reflexivity | exact IH].
Qed.

Lemma get_select (k : string) (cols : list string) (r : Db.row) :
  existsb (String.eqb k) cols = true ->
  Db.get k (Db.select cols r) = Db.get k r.
Proof.
  unfold Db.get at 1. unfold Db.select.
  induction cols as [|c cols IH]; simpl; [discriminate|].
  destruct (String.eqb k c) eqn:E.
  - apply String.eqb_eq in E. subst. reflexivity.
  - simpl. exact IH.
Qed.

Lemma cell_eqb_refl (c : Db.cell) : c <> Db.Null -> Db.cell_eqb c c = true.
Proof.
  destruct c; simpl; intros H.
  - congruence.
  - apply String.eqb_refl.
  - apply Z.eqb_refl.
  - apply Z.eqb_refl.
Qed.

(** An update that does not write column [col] keeps the rows that a
    filter on [col] selects. *)
Lemma filter_update_eq (col : string) (v : Db.cell) (patch : Db.row)
    (idcol : string) (idv : Db.cell) (t : Db.table) :
  Db.lookup col (rev patch) = None ->
  filter (Db.eq col v) (Db.update_eq patch idcol idv t)
  = map (fun r => if Db.eq idcol idv r then Db.apply_update patch r else r)
      (filter (Db.eq col v) t).
Proof.
  intros Hcol. unfold Db.update_eq.
  induction t as [|r t IH]; simpl; [reflexivity|].
  assert (E : Db.eq col v (if Db.eq idcol idv r
                           then Db.apply_update patch r else r)
              = Db.eq col v r).
  { destruct (Db.eq idcol idv r); [|reflexivity].
    unfold Db.eq. rewrite get_apply_update, Hcol. reflexivity. }
  rewrite E. destruct (Db.eq col v r); simpl; rewrite IH; reflexivity.
Qed.

(** [select_single] answers with the projection of the one matching
    row. *)
Lemma select_single_inv (cols : list string) (col : string) (v : Db.cell)
    (t : Db.table) (c : Db.row) :
  Db.select_single cols col v t = Some c ->
  exists r, filter (Db.eq col v) t = [r] /\ c = Db.select cols r.
Proof.
  unfold Db.select_single, Db.single.
  destruct (filter (Db.eq col v) t) as [|r [|r' rest]]; simpl; try discriminate.
  intros H. injection H as <-. exists r. split; reflexivity.
Qed.

Lemma statuses_update_eq (patch : Db.row) (idv : Db.cell) (t : Db.table) :
  map (Db.get "status") (Db.update_eq patch "id" idv t)
  = map (fun r => if Db.eq "id" idv r
                  then match Db.lookup "status" (rev patch) with
                       | Some v => v
                       | None => Db.get "status" r
                       end
                  else Db.get "status" r) t.
Proof.
  unfold Db.update_eq. rewrite map_map. apply map_ext. intros r.
  destruct (Db.eq "id" idv r); [apply get_apply_update | reflexivity].
Qed.

(** ** The funding trigger *)

Lemma trigger_write_refused B now f v t :
  Db.trigger_write B now f v t = None -> Db.funding_check B = true.
Proof.
  unfold Db.trigger_write. destruct (Db.funding_check B); [reflexivity|].
  cbn [andb]. discriminate.
Qed.

(** The trigger's debit stores [GREATEST(..., 0)], which the constraint
    never refuses. *)
Lemma trigger_write_debit B now NEW v t :
  Db.trigger_write B now (Db.trigger_debit NEW) v t
  = Some (map (fun r =>
                 if Db.eq "id" v r
                 then Db.apply_update
                        [("current_funding",
                           Db.trigger_debit NEW (Db.get "current_funding" r));
                         ("updated_at", Db.Time now)] r
                 else r) t).
Proof.
  unfold Db.trigger_write.
  assert (E : existsb
                (fun r => Db.eq "id" v r
                   && (Db.number
                         (Db.trigger_debit NEW (Db.get "current_funding" r)) <? 0))
                t = false).
  { induction t as [|r t IH]; [reflexivity|]. cbn [existsb]. rewrite IH.
    assert (N : (Db.number (Db.trigger_debit NEW (Db.get "current_funding" r))
                 <? 0) = false).
    { unfold Db.trigger_debit, Db.greatest_zero.
      destruct (Db.sql_sub _ _); cbn [Db.number]; apply Z.ltb_ge; lia. }
    rewrite N, andb_false_r. reflexivity. }
  rewrite E, andb_false_r. reflexivity.
Qed.

Lemma update_campaign_funding_inert B now OLD NEW t :
  Db.becomes_completed OLD NEW = false ->
  Db.becomes_refunded OLD NEW = false ->
  Db.completed_becomes_failed OLD NEW = false ->
  Db.update_campaign_funding B now OLD NEW t = Some t.
Proof.
  intros H1 H2 H3. unfold Db.update_campaign_funding, Db.trigger_step.
  rewrite H1, H2, H3. reflexivity.
Qed.

(** Only the credit can be refused. *)
Lemma update_campaign_funding_refused B now OLD NEW t :
  Db.update_campaign_funding B now OLD NEW t = None ->
  Db.funding_check B = true /\ Db.becomes_completed OLD NEW = true.
Proof.
  unfold Db.update_campaign_funding, Db.trigger_step.
  destruct (Db.becomes_completed OLD NEW).
  - destruct (Db.trigger_write B now (Db.trigger_credit NEW) _ t) eqn:E.
    + destruct (Db.becomes_refunded OLD NEW).
      * rewrite trigger_write_debit.
        destruct (Db.completed_becomes_failed OLD NEW);
          [rewrite trigger_write_debit|]; discriminate.
      * destruct (Db.completed_becomes_failed OLD NEW);
          [rewrite trigger_write_debit|]; discriminate.
    + intros _. split; [|reflexivity].
      eapply trigger_write_refused. exact E.
  - destruct (Db.becomes_refunded OLD NEW).
    + rewrite trigger_write_debit.
      destruct (Db.completed_becomes_failed OLD NEW);
        [rewrite trigger_write_debit|]; discriminate.
    + destruct (Db.completed_becomes_failed OLD NEW);
        [rewrite trigger_write_debit|]; discriminate.
Qed.

(** An update that leaves the status of a row alone fires no branch of
    the trigger. *)
Lemma trigger_same_status OLD NEW :
  Db.get "status" NEW = Db.get "status" OLD ->
  Db.becomes_completed OLD NEW = false
  /\ Db.becomes_refunded OLD NEW = false
  /\ Db.completed_becomes_failed OLD NEW = false.
Proof.
  intros E.
  unfold Db.becomes_completed, Db.becomes_refunded,
    Db.completed_becomes_failed, Db.text_is, Db.status_differs.
  rewrite E.
  destruct (Db.get "status" OLD) as [|t|z|z]; cbn [Db.cell_eqb];
    repeat split; try reflexivity.
  - destruct (String.eqb t "completed"); reflexivity.
  - destruct (String.eqb t "refunded"); reflexivity.
  - destruct (String.eqb t "completed") eqn:E1; [|reflexivity].
    apply String.eqb_eq in E1. subst t. reflexivity.
Qed.

Lemma run_funding_trigger_stuck B now patch v cs :
  fold_left
    (fun acc OLD =>
       match acc with
       | Some t =>
           if Db.eq "id" v OLD
           then Db.update_campaign_funding B now OLD (Db.apply_update patch OLD) t
           else Some t
       | None => None
       end)
    cs None = None.
Proof. induction cs as [|r cs IH]; [reflexivity | exact IH]. Qed.

(** The trigger does nothing when no updated row fires a branch. *)
Lemma run_funding_trigger_inert B now patch v cs t :
  (forall r, In r cs -> Db.eq "id" v r = true ->
     Db.becomes_completed r (Db.apply_update patch r) = false
     /\ Db.becomes_refunded r (Db.apply_update patch r) = false
     /\ Db.completed_becomes_failed r (Db.apply_update patch r) = false) ->
  Db.run_funding_trigger B now patch v cs t = Some t.
Proof.
  unfold Db.run_funding_trigger. revert t.
  induction cs as [|r cs IH]; intros t H; [reflexivity|].
  cbn [fold_left]. destruct (Db.eq "id" v r) eqn:E.
  - destruct (H r (or_introl Logic.eq_refl) E) as [H1 [H2 H3]].
    rewrite update_campaign_funding_inert by assumption.
    apply IH. intros r' Hin. apply H. right. exact Hin.
  - apply IH. intros r' Hin. apply H. right. exact Hin.
Qed.

(** When the update touches one row, the trigger runs once, for it. *)
Lemma run_funding_trigger_unique B now patch v cs r t :
  filter (Db.eq "id" v) cs = [r] ->
  Db.run_funding_trigger B now patch v cs t
  = Db.update_campaign_funding B now r (Db.apply_update patch r) t.
Proof.
  unfold Db.run_funding_trigger. revert t.
  induction cs as [|a cs IH]; intros t; [discriminate|].
  cbn [filter fold_left]. destruct (Db.eq "id" v a) eqn:E.
  - intros H. injection H as -> Hrest.
    generalize (Db.update_campaign_funding B now r (Db.apply_update patch r) t).
    intros acc. clear IH E. revert acc.
    induction cs as [|b cs IH]; intros acc; [reflexivity|].
    cbn [filter] in Hrest. destruct (Db.eq "id" v b) eqn:Eb; [discriminate|].
    cbn [fold_left]. rewrite Eb.
    destruct acc as [t'|]; apply IH; exact Hrest.
  - intros H. apply IH. exact H.
Qed.

(** A refused update: the constraint is there, and a row it touches
    becomes completed. *)
Lemma run_funding_trigger_refused B now patch v cs t :
  Db.run_funding_trigger B now patch v cs t = None ->
  Db.funding_check B = true
  /\ exists r, In r cs /\ Db.eq "id" v r = true
               /\ Db.becomes_completed r (Db.apply_update patch r) = true.
Proof.
  unfold Db.run_funding_trigger. revert t.
  induction cs as [|r cs IH]; intros t; [discriminate|].
  cbn [fold_left]. destruct (Db.eq "id" v r) eqn:E.
  - destruct (Db.update_campaign_funding B now r (Db.apply_update patch r) t)
      as [t'|] eqn:Eu.
    + intros H. destruct (IH t' H) as [Hc [r' [Hin [Hid Hb]]]].
      split; [exact Hc|]. exists r'. split; [right; exact Hin | tauto].
    + intros _. destruct (update_campaign_funding_refused _ _ _ _ _ Eu)
        as [Hc Hb].
      split; [exact Hc|]. exists r. split; [left; reflexivity | tauto].
  - intros H. destruct (IH t H) as [Hc [r' [Hin [Hid Hb]]]].
    split; [exact Hc|]. exists r'. split; [right; exact Hin | tauto].
Qed.

(** What an update of [contributions] does to that table: the rows with
    the given id take the patch, or, when the statement is refused,
    nothing changes. *)
Lemma update_contributions_unchecked_contributions B now patch v s :
  Db.contributions (Db.update_contributions_unchecked B now patch v s)
  = Db.update_eq patch "id" v (Db.contributions s)
  \/ (Db.update_contributions_unchecked B now patch v s = s
      /\ Db.update_contributions B now patch v s = None).
Proof.
  unfold Db.update_contributions_unchecked, Db.update_contributions.
  destruct (Db.funding_trigger B); [|left; reflexivity].
  destruct (Db.run_funding_trigger B now patch v (Db.contributions s)
              (Db.campaigns s)); [left | right; split]; reflexivity.
Qed.

Lemma update_contributions_refused B now patch v s :
  Db.update_contributions B now patch v s = None ->
  Db.funding_trigger B = true /\ Db.funding_check B = true
  /\ exists r, In r (Db.contributions s) /\ Db.eq "id" v r = true
               /\ Db.becomes_completed r (Db.apply_update patch r) = true.
Proof.
  unfold Db.update_contributions.
  destruct (Db.funding_trigger B); [|discriminate].
  destruct (Db.run_funding_trigger B now patch v (Db.contributions s)
              (Db.campaigns s)) eqn:E; [discriminate|].
  intros _. split; [reflexivity|].
  eapply run_funding_trigger_refused. exact E.
Qed.

(** Without the trigger, or when no updated row fires a branch of it,
    an update of [contributions] is the plain update. *)
Lemma update_contributions_plain B now patch v s :
  Db.funding_trigger B = false
  \/ (forall r, In r (Db.contributions s) -> Db.eq "id" v r = true ->
        Db.becomes_completed r (Db.apply_update patch r) = false
        /\ Db.becomes_refunded r (Db.apply_update patch r) = false
        /\ Db.completed_becomes_failed r (Db.apply_update patch r) = false) ->
  Db.update_contributions B now patch v s
  = Some (Db.mkStore (Db.update_eq patch "id" v (Db.contributions s))
            (Db.campaigns s)).
Proof.
  intros H. unfold Db.update_contributions.
  destruct (Db.funding_trigger B) eqn:Et; [|reflexivity].
  destruct H as [H|H]; [discriminate|].
  rewrite run_funding_trigger_inert by exact H. reflexivity.
Qed.

(** An update object without a status fires no branch. *)
Lemma update_contributions_no_status B now patch v s :
  Db.lookup "status" (rev patch) = None ->
  Db.update_contributions B now patch v s
  = Some (Db.mkStore (Db.update_eq patch "id" v (Db.contributions s))
            (Db.campaigns s)).
Proof.
  intros H. apply update_contributions_plain. right. intros r _ _.
  apply trigger_same_status. rewrite get_apply_update, H. reflexivity.
Qed.

(** Nor does an update object whose status is none of [completed],
    [refunded] and [failed]. *)
Lemma update_contributions_other_status B now patch v s st :
  Db.lookup "status" (rev patch) = Some st ->
  Db.text_is st "completed" = false ->
  Db.text_is st "refunded" = false ->
  Db.text_is st "failed" = false ->
  Db.update_contributions B now patch v s
  = Some (Db.mkStore (Db.update_eq patch "id" v (Db.contributions s))
            (Db.campaigns s)).
Proof.
  intros H Hc Hr Hf. apply update_contributions_plain. right. intros r _ _.
  unfold Db.becomes_completed, Db.becomes_refunded,
    Db.completed_becomes_failed.
  rewrite get_apply_update, H, Hc, Hr, Hf, andb_false_r.
  repeat split; reflexivity.
Qed.

(** ** What the handlers write *)

Lemma charge_updateData_columns now rc desc details :
  Db.lookup "status" (rev (MPesa.charge_updateData now rc desc details))
  = Some (if JS.strict_eq_int rc 0 then Db.Text "completed" else Db.Text "failed")
  /\ Db.lookup "mpesa_checkout_request_id"
       (rev (MPesa.charge_updateData now rc desc details)) = None.
Proof.
  unfold MPesa.charge_updateData, MPesa.set_if, Db.field.
  destruct details as [receipt date phone].
  destruct (JS.strict_eq_int rc 0), desc; cbn [MPesa.mpesaReceiptNumber
    MPesa.transactionDate MPesa.phoneNumber];
    destruct (scalar_opt_truthy receipt), (scalar_opt_truthy phone),
      (scalar_opt_truthy date); split; reflexivity.
Qed.

Lemma reversal_updateData_columns now rc Result :
  Db.lookup "status" (rev (MPesa.reversal_updateData now rc Result))
  = (if JS.strict_eq_int rc 0 then Some (Db.Text "refunded") else None)
  /\ Db.lookup "transaction_id"
       (rev (MPesa.reversal_updateData now rc Result)) = None.
Proof.
  unfold MPesa.reversal_updateData, Db.field.
  destruct (JS.strict_eq_int rc 0), (rv_ConversationID Result),
    (rv_ResultDesc Result); split; reflexivity.
Qed.

(** A resolved charge callback: one update of the contribution by id, and
    after it one call of the ledger updater unless the code is not 0 or
    the contribution was read as completed. *)
Lemma deliver_charge_resolved B now s body c rc :
  resolves s (ChargeDelivery body) c rc ->
  exists patch,
    Db.lookup "status" (rev patch)
    = Some (if JS.strict_eq_int rc 0 then Db.Text "completed" else Db.Text "failed")
    /\ Db.lookup "mpesa_checkout_request_id" (rev patch) = None
    /\ deliver B now s (ChargeDelivery body)
       = Db.mkStore
           (Db.contributions
              (Db.update_contributions_unchecked B now patch (Db.get "id" c) s))
           (if JS.strict_eq_int rc 0
               && negb (Db.text_is (Db.get "status" c) "completed")
            then MPesa.updateCampaignFunding now B
                   (Db.campaigns
                      (Db.update_contributions_unchecked B now patch
                         (Db.get "id" c) s))
                   (Db.get "campaign_id" c) (Db.number (Db.get "amount" c))
            else Db.campaigns
                   (Db.update_contributions_unchecked B now patch
                      (Db.get "id" c) s)).
Proof.
  intros H. inversion H as [body' callback c' rc' Ht Hb Hk Hc Hr|]; subst.
  exists (MPesa.charge_updateData now rc (cb_ResultDesc callback)
            (MPesa.parseCallbackMetadata (cb_CallbackMetadata callback))).
  destruct (charge_updateData_columns now rc (cb_ResultDesc callback)
              (MPesa.parseCallbackMetadata (cb_CallbackMetadata callback)))
    as [Hs Hm].
  repeat split; [exact Hs | exact Hm |].
  unfold deliver, MPesa.handleContributionCallback.
  rewrite Ht, Hb, Hk, Hc, Hr. reflexivity.
Qed.

(** A charge callback that resolves to nothing leaves the store alone. *)
Lemma deliver_charge_unresolved B now s body :
  (forall c rc, ~ resolves s (ChargeDelivery body) c rc) ->
  deliver B now s (ChargeDelivery body) = s.
Proof.
  intros H. unfold deliver, MPesa.handleContributionCallback.
  destruct (cb_test body) eqn:Ht; [reflexivity|].
  destruct (cb_stkCallback body) as [callback|] eqn:Hb; [|reflexivity].
  destruct (env_truthy (cb_CheckoutRequestID callback)) eqn:Hk; [|reflexivity].
  cbn [negb].
  destruct (MPesa.charge_target (Db.contributions s) callback) as [c|] eqn:Hc;
    [|reflexivity].
  destruct (cb_ResultCode callback) as [rc|] eqn:Hr; [|reflexivity].
  exfalso. apply (H c rc). econstructor; eassumption.
Qed.

Lemma charge_resolution_dec s body :
  (exists c rc, resolves s (ChargeDelivery body) c rc)
  \/ (forall c rc, ~ resolves s (ChargeDelivery body) c rc).
Proof.
  destruct (cb_test body) eqn:Ht.
  { right. intros c0 rc0 H. inversion H; congruence. }
  destruct (cb_stkCallback body) as [callback|] eqn:Hb.
  2:{ right. intros c0 rc0 H. inversion H; congruence. }
  destruct (env_truthy (cb_CheckoutRequestID callback)) eqn:Hk.
  2:{ right. intros c0 rc0 H. inversion H; congruence. }
  destruct (MPesa.charge_target (Db.contributions s) callback) as [c|] eqn:Hc.
  2:{ right. intros c0 rc0 H. inversion H; congruence. }
  destruct (cb_ResultCode callback) as [rc|] eqn:Hr.
  2:{ right. intros c0 rc0 H. inversion H; congruence. }
  left. exists c, rc. econstructor; eassumption.
Qed.

(** ** The ledger updater *)


(** ** Charge callbacks *)

(** C1 at its failing input. A pending contribution of 100.00 on a
    campaign that holds nothing, in the database the contributions
    migration creates, where the table carries the funding trigger.  The
    successful charge callback, delivered once, completes the
    contribution and leaves 200.00: the trigger credits the amount when
    the status becomes [completed], and the handler then calls the ledger
    updater with the same amount.  A second delivery changes nothing
    more.  Without the trigger the total is 100.00, one credit. *)
Theorem charge_completion_credited_twice :
  let s := Examples.store "pending" 0 in
  let d := ChargeDelivery (Examples.charge 0) in
  Db.statuses "c1" (deliver_all Examples.triggered s [(2000, d)])
  = [Db.Text "completed"]
  /\ Db.funding "k1" (deliver_all Examples.triggered s [(2000, d)])
     = Some 20000
  /\ Db.funding "k1" (deliver_all Examples.triggered s [(2000, d); (3000, d)])
     = Some 20000
  /\ Db.funding "k1"
       (deliver_all Examples.triggered_checked s [(2000, d); (3000, d)])
     = Some 20000
  /\ Db.funding "k1" (deliver_all Examples.plain s [(2000, d); (3000, d)])
     = Some 10000.
Proof. repeat split; vm_compute; reflexivity. Qed.


(** ** Reversal callbacks *)

(** The update of a reversal callback never fires the trigger's credit,
    so the database does not refuse it. *)
Lemma reversal_update_accepted B now rc Result v s :
  exists campaigns1,
    Db.update_contributions B now (MPesa.reversal_updateData now rc Result) v s
    = Some (Db.mkStore
              (Db.update_eq (MPesa.reversal_updateData now rc Result) "id" v
                 (Db.contributions s))
              campaigns1)
    /\ (JS.strict_eq_int rc 0 = false -> campaigns1 = Db.campaigns s).
Proof.
  destruct (reversal_updateData_columns now rc Result) as [Hs _].
  destruct (JS.strict_eq_int rc 0) eqn:Erc.
  - destruct (Db.update_contributions B now
                (MPesa.reversal_updateData now rc Result) v s) as [s1|] eqn:E.
    + exists (Db.campaigns s1). split; [|discriminate].
      unfold Db.update_contributions in E.
      destruct (Db.funding_trigger B).
      * destruct (Db.run_funding_trigger _ _ _ _ _ _); [|discriminate].
        injection E as <-. reflexivity.
      * injection E as <-. reflexivity.
    + exfalso. apply update_contributions_refused in E.
      destruct E as [_ [_ [r [_ [_ Hb]]]]].
      unfold Db.becomes_completed in Hb.
      rewrite get_apply_update, Hs in Hb. discriminate.
  - exists (Db.campaigns s). split; [|reflexivity].
    apply update_contributions_no_status. exact Hs.
Qed.

Lemma deliver_reversal_resolved B now s body c rc :
  resolves s (ReversalDelivery body) c rc ->
  exists patch campaigns1,
    Db.lookup "status" (rev patch)
    = (if JS.strict_eq_int rc 0 then Some (Db.Text "refunded") else None)
    /\ Db.update_contributions B now patch (Db.get "id" c) s
       = Some (Db.mkStore
                 (Db.update_eq patch "id" (Db.get "id" c) (Db.contributions s))
                 campaigns1)
    /\ deliver B now s (ReversalDelivery body)
       = Db.mkStore
           (Db.update_eq patch "id" (Db.get "id" c) (Db.contributions s))
           (if JS.strict_eq_int rc 0
            then MPesa.updateCampaignFunding now B campaigns1
                   (Db.get "campaign_id" c) (- Db.number (Db.get "amount" c))
            else Db.campaigns s).
Proof.
  intros H. inversion H as [|body' Result c' rc' Hb Hc Hr]; subst.
  exists (MPesa.reversal_updateData now rc Result).
  destruct (reversal_update_accepted B now rc Result (Db.get "id" c) s)
    as [campaigns1 [Hu Hsame]].
  exists campaigns1.
  split; [apply reversal_updateData_columns|].
  split; [exact Hu|].
  unfold deliver, MPesa.handleReversalCallback.
  rewrite Hb, Hc, Hr, Hu. cbn [fst Db.contributions Db.campaigns].
  destruct (JS.strict_eq_int rc 0); [reflexivity|].
  rewrite Hsame by reflexivity. reflexivity.
Qed.

Lemma deliver_reversal_unresolved B now s body :
  (forall c rc, ~ resolves s (ReversalDelivery body) c rc) ->
  deliver B now s (ReversalDelivery body) = s.
Proof.
  intros H. unfold deliver, MPesa.handleReversalCallback.
  destruct (rv_Result body) as [Result|] eqn:Hb; [|reflexivity].
  destruct (MPesa.reversal_target (Db.contributions s) Result) as [c|] eqn:Hc;
    [|reflexivity].
  destruct (rv_ResultCode Result) as [rc|] eqn:Hr; [|reflexivity].
  exfalso. apply (H c rc). econstructor; eassumption.
Qed.



Lemma reversal_resolution_dec s body :
  (exists c rc, resolves s (ReversalDelivery body) c rc)
  \/ (forall c rc, ~ resolves s (ReversalDelivery body) c rc).
Proof.
  destruct (rv_Result body) as [Result|] eqn:Hb.
  2:{ right. intros c0 rc0 H. inversion H; congruence. }
  destruct (MPesa.reversal_target (Db.contributions s) Result) as [c|] eqn:Hc.
  2:{ right. intros c0 rc0 H. inversion H; congruence. }
  destruct (rv_ResultCode Result) as [rc|] eqn:Hr.
  2:{ right. intros c0 rc0 H. inversion H; congruence. }
  left. exists c, rc. econstructor; eassumption.
Qed.

Lemma update_eq_statuses_valid (patch : Db.row) (idv : Db.cell) (t : Db.table) :
  match Db.lookup "status" (rev patch) with
  | Some v => valid_status v
  | None => True
  end ->
  Forall (fun r => valid_status (Db.get "status" r)) t ->
  Forall (fun r => valid_status (Db.get "status" r))
    (Db.update_eq patch "id" idv t).
Proof.
  intros Hpatch Ht. unfold Db.update_eq. rewrite Forall_map.
  eapply Forall_impl; [|exact Ht]. intros r Hr. cbv beta.
  destruct (Db.eq "id" idv r); [|exact Hr].
  rewrite get_apply_update.
  destruct (Db.lookup "status" (rev patch)); assumption.
Qed.

(** One delivery keeps every status among the six values. *)
Lemma deliver_statuses_valid B now s d :
  statuses_valid s -> statuses_valid (deliver B now s d).
Proof.
  intros Hs. unfold statuses_valid in *. destruct d as [body|body].
  - destruct (charge_resolution_dec s body) as [[c [rc H]]|H].
    + destruct (deliver_charge_resolved B now s body c rc H)
        as [patch [Hst [_ ->]]].
      cbn [Db.contributions].
      destruct (update_contributions_unchecked_contributions B now patch
                  (Db.get "id" c) s) as [->|[-> _]]; [|exact Hs].
      apply update_eq_statuses_valid; [|exact Hs].
      rewrite Hst. unfold valid_status.
      destruct (JS.strict_eq_int rc 0); simpl; auto.
    + rewrite deliver_charge_unresolved by exact H. exact Hs.
  - destruct (reversal_resolution_dec s body) as [[c [rc H]]|H].
    + destruct (deliver_reversal_resolved B now s body c rc H)
        as [patch [campaigns1 [Hst [_ ->]]]].
      apply update_eq_statuses_valid; [|exact Hs].
      rewrite Hst. unfold valid_status.
      destruct (JS.strict_eq_int rc 0); simpl; auto 7.
    + rewrite deliver_reversal_unresolved by exact H. exact Hs.
Qed.

(** X24. Any sequence of charge and reversal callbacks keeps every status
    among the six values. *)
Lemma deliver_all_statuses_valid B ds :
  forall s, statuses_valid s -> statuses_valid (deliver_all B s ds).
Proof.
  induction ds as [|[now d] ds IH]; intros s Hs; simpl.
  - exact Hs.
  - apply IH. apply deliver_statuses_valid. exact Hs.
Qed.

(** C2 at its failing input. A campaign holds 300.00; the contribution of
    100.00 is awaiting its reversal.  The successful reversal callback
    delivered once leaves 200.00, delivered twice 100.00: the second
    delivery, on a contribution already [refunded], debits again.  The
    same happens with the constraint on the total in place, and with the
    earlier definition of the handler. *)
Theorem reversal_callback_delivered_twice :
  let s := Examples.store "refund_pending" 30000 in
  let d := ReversalDelivery (Examples.reversal 0) in
  Db.funding "k1" (deliver_all Examples.plain s [(2000, d)]) = Some 20000
  /\ Db.statuses "c1" (deliver_all Examples.plain s [(2000, d)])
     = [Db.Text "refunded"]
  /\ Db.funding "k1" (deliver_all Examples.plain s [(2000, d); (3000, d)])
     = Some 10000
  /\ Db.funding "k1" (deliver_all Examples.checked s [(2000, d); (3000, d)])
     = Some 10000
  /\ Db.funding "k1"
       (fst (MPesa.handleReversalCallback_shadowed 3000 Examples.plain
               (fst (MPesa.handleReversalCallback_shadowed 2000 Examples.plain
                       s (Examples.reversal 0)))
               (Examples.reversal 0)))
     = Some 10000.
Proof. repeat split; vm_compute; reflexivity. Qed.

(** C4 at its failing inputs. On a contribution awaiting its reversal,
    the handler in force leaves result code 21 without effect (status
    still [refund_pending], ledger untouched) and keeps the status on a
    failure code instead of writing [refund_failed]; the earlier
    definition of the same name refunds on 21 and writes [refund_failed]
    on a failure code. *)
Theorem reversal_result_codes_in_force :
  let s := Examples.store "refund_pending" 30000 in
  let run rc := deliver Examples.plain 2000 s
                  (ReversalDelivery (Examples.reversal rc)) in
  let shadowed rc := fst (MPesa.handleReversalCallback_shadowed 2000
                            Examples.plain s (Examples.reversal rc)) in
  (Db.statuses "c1" (run 0) = [Db.Text "refunded"]
   /\ Db.funding "k1" (run 0) = Some 20000)
  /\ (Db.statuses "c1" (run 21) = [Db.Text "refund_pending"]
      /\ Db.funding "k1" (run 21) = Some 30000)
  /\ Db.statuses "c1" (run 1) = [Db.Text "refund_pending"]
  /\ (Db.statuses "c1" (shadowed 21) = [Db.Text "refunded"]
      /\ Db.funding "k1" (shadowed 21) = Some 20000)
  /\ (Db.statuses "c1" (shadowed 1) = [Db.Text "refund_failed"]
      /\ Db.funding "k1" (shadowed 1) = Some 30000).
Proof. repeat split; vm_compute; reflexivity. Qed.

(** C6 at its failing input. Two contributions, of 100.00 and of 50.00,
    complete on a campaign that starts at zero; the first is then
    reversed, and its reversal callback arrives twice.  The second debit
    of 100.00 meets a total of 50.00: the ledger updater stores -50.00,
    or, where the constraint forbids that, leaves 50.00.  In neither
    case is the total brought to zero, as the refund route's own debit
    would do: refunding a contribution of 100.00 that was not paid by
    M-Pesa on a total of 50.00 leaves zero.  A single reversal of 100.00
    on a campaign whose total is only 50.00 stores -50.00 as well. *)
Theorem reversal_debit_not_clamped :
  let a := Examples.contribution "pending" in
  let b := [("id", Db.Text "c2"); ("campaign_id", Db.Text "k1");
            ("amount", Db.Num 5000); ("status", Db.Text "pending");
            ("payment_method", Db.Text "mpesa");
            ("mpesa_checkout_request_id", Db.Text "CO456")] in
  let s := Db.mkStore [a; b] [Examples.campaign 0] in
  let charge_b :=
    mkChargeCallback false
      (Some (mkStkCallback (Some "CO456") (Some (JS.SInt 0)) (Some "ok")
               [("MpesaReceiptNumber", JS.SStr "DEF2")])) in
  let trace :=
    [(2000, ChargeDelivery (Examples.charge 0));
     (3000, ChargeDelivery charge_b);
     (4000, ReversalDelivery (Examples.reversal 0));
     (5000, ReversalDelivery (Examples.reversal 0))] in
  Db.funding "k1" (deliver_all Examples.plain s (firstn 2 trace)) = Some 15000
  /\ Db.funding "k1" (deliver_all Examples.plain s (firstn 3 trace)) = Some 5000
  /\ Db.funding "k1" (deliver_all Examples.plain s trace) = Some (-5000)
  /\ Db.funding "k1" (deliver_all Examples.checked s trace) = Some 5000
  /\ Db.funding "k1"
       (fst (fst (fst (Routes.refund Examples.cfg Examples.accepting 6000
                         Examples.plain
                         (Db.mkStore
                            [[("id", Db.Text "c3"); ("campaign_id", Db.Text "k1");
                              ("amount", Db.Num 10000);
                              ("status", Db.Text "completed");
                              ("payment_method", Db.Text "bank")]]
                            [Examples.campaign 5000])
                         empty_cache "c3" "Admin initiated refund"))))
     = Some 0
  /\ Db.funding "k1"
       (deliver Examples.plain 2000 (Examples.store "refund_pending" 5000)
          (ReversalDelivery (Examples.reversal 0)))
     = Some (-5000).
Proof. repeat split; vm_compute; reflexivity. Qed.

(** ** Refund initiation *)

Lemma generateAccessToken_from_log cfg gw now k n cache cache' log res :
  MPesa.generateAccessToken_from cfg gw now k n cache = (cache', log, res) ->
  forall r, In r log -> r = ReqOAuth.
Proof.
  revert n cache' log res.
  induction k as [|k IH]; intros n cache' log res; simpl;
    destruct (MPesa.cache_hit now cache);
    try (intros H; injection H as <- <- <-; intros r []).
  - unfold MPesa.token_attempt.
    destruct (negb (env_truthy (consumerKey cfg))
              || negb (env_truthy (consumerSecret cfg))).
    + intros H; injection H as <- <- <-; intros r [].
    + destruct (oauth gw n); intros H; injection H as <- <- <-;
        intros r [<-|[]]; reflexivity.
  - unfold MPesa.token_attempt.
    destruct (negb (env_truthy (consumerKey cfg))
              || negb (env_truthy (consumerSecret cfg))).
    + destruct (MPesa.shouldRetry _).
      * destruct (MPesa.generateAccessToken_from cfg gw now k (S n) cache)
          as [[c l] o] eqn:E.
        intros H; injection H as <- <- <-. intros r Hin.
        apply (IH _ _ _ _ E). exact Hin.
      * intros H; injection H as <- <- <-; intros r [].
    + destruct (oauth gw n) as [tok|error].
      * intros H; injection H as <- <- <-; intros r [<-|[]]; reflexivity.
      * destruct (MPesa.shouldRetry error).
        -- destruct (MPesa.generateAccessToken_from cfg gw now k (S n) cache)
             as [[c l] o] eqn:E.
           intros H; injection H as <- <- <-. intros r [<-|Hin];
             [reflexivity | apply (IH _ _ _ _ E); exact Hin].
        -- intros H; injection H as <- <- <-; intros r [<-|[]]; reflexivity.
Qed.

(** [initiateReversal] never returns and never reaches the reversal
    endpoint: whatever the upstream would answer, building the request
    reads [occasion], which the function does not bind. *)
Lemma initiateReversal_always_throws cfg gw now cache transactionId amount remarks :
  exists cache' log e,
    MPesa.initiateReversal cfg gw now cache transactionId amount remarks
    = (cache', log, Thrown e)
    /\ forall r, In r log -> r = ReqOAuth.
Proof.
  unfold MPesa.initiateReversal, MPesa.initiateReversal_try,
    MPesa.generateAccessToken.
  destruct (MPesa.generateAccessToken_from cfg gw now MPesa.maxRetries 0 cache)
    as [[cache' log] [tok|e]] eqn:E;
    pose proof (generateAccessToken_from_log _ _ _ _ _ _ _ _ _ E) as Hlog.
  - destruct (JS.lt (JS.floor amount) (JS.of_Z 1)
              || JS.gt (JS.floor amount) (JS.of_Z 300000));
      cbn; eexists _, _, _; split; try reflexivity; exact Hlog.
  - eexists _, _, _; split; [reflexivity | exact Hlog].
Qed.

(** Whatever the store, the request and the upstream, the refund route
    never answers that the refund is pending. *)
Lemma refund_never_pending cfg gw now B s cache id reason :
  Routes.body_status
    (snd (Routes.refund cfg gw now B s cache id reason))
  <> Some "refund_pending".
Proof.
  unfold Routes.refund.
  destruct (Db.select_single _ _ _ _) as [contribution|]; [|discriminate].
  destruct (negb (Db.text_is (Db.get "status" contribution) "completed"));
    [discriminate|].
  destruct (existsb _ _); [discriminate|].
  destruct (Db.text_is (Db.get "payment_method" contribution) "mpesa"
            && Db.truthy (Db.get "transaction_id" contribution));
    [|discriminate].
  destruct (initiateReversal_always_throws cfg gw now cache
              (Routes.cell_string (Db.get "transaction_id" contribution))
              (Routes.js_amount (Db.get "amount" contribution)) reason)
    as [cache' [log [e [-> _]]]].
  discriminate.
Qed.

(** C5 at its failing input. A completed M-Pesa contribution with a
    settled transaction id, an upstream that accepts every request: the
    refund route answers 500 and the contribution is [refund_failed] with
    the error kept, no reversal request having been sent; it is never
    [refund_pending], and no conversation identifier is stored. *)
Theorem refund_of_completed_contribution :
  let s := Examples.store "completed" 10000 in
  let out := Routes.refund Examples.cfg Examples.accepting 5000 Examples.plain
               s empty_cache "c1" "Admin initiated refund" in
  let s' := fst (fst (fst out)) in
  Db.statuses "c1" s' = [Db.Text "refund_failed"]
  /\ map (Db.get "refund_error") (Db.contributions s')
     = [Db.Text "Reversal initiation failed: occasion is not defined"]
  /\ map (Db.get "reversal_conversation_id") (Db.contributions s') = [Db.Null]
  /\ snd (fst out) = [ReqOAuth]
  /\ Routes.http_status (snd out) = 500.
Proof. repeat split; vm_compute; reflexivity. Qed.

(** ** Charge initiation *)

(** C7 (as stated) fails: the charge endpoint times out and the
    contribution, inserted as [pending], is [failed] afterwards. *)
Lemma charge_timeout_marks_failed_example :
  let out := Routes.contribute_payment Examples.digits_StringToNumber
               Examples.cfg Examples.stalling 5000
               (Examples.store "pending" 0) empty_cache
               (Examples.contribution "pending") "254712345678"
               (JS.VNum (JS.of_Z 100)) in
  Db.statuses "c1" (Examples.store "pending" 0) = [Db.Text "pending"]
  /\ Db.statuses "c1" (fst (fst (fst out))) = [Db.Text "failed"].
Proof. split; vm_compute; reflexivity. Qed.

Lemma includes_app (needle p s : string) :
  JS.includes needle s = true -> JS.includes needle (p ++ s) = true.
Proof.
  intros H. induction p as [|a p IH]; [exact H|].
  cbn [append JS.includes]. rewrite IH. apply orb_true_r.
Qed.

(** What [initiateSTKPush] throws when the initiation times out: an
    error whose message mentions the timeout. *)
Lemma initiateSTKPush_times_out S cfg gw now cache phone amount cid :
  initiation_times_out S cfg gw now cache phone amount cid ->
  exists cache' log e,
    MPesa.initiateSTKPush S cfg gw now cache phone amount cid
    = (cache', log, Thrown e)
    /\ JS.includes "timeout" (err_message e) = true.
Proof.
  intros [n cache' log tok e Hv Hg Hp Ht | n e0 e1 e2 Hv Hm Hk Hs H0 R0 H1 R1 H2 Ht];
    unfold MPesa.initiateSTKPush, MPesa.initiateSTKPush_try; rewrite Hv.
  - rewrite Hg, Hp. unfold upstream_timeout in Ht.
    apply andb_true_iff in Ht. destruct Ht as [Hc _].
    eexists _, _, _. split; [reflexivity|].
    unfold MPesa.stk_catch. rewrite Hc. reflexivity.
  - unfold MPesa.generateAccessToken, MPesa.maxRetries.
    cbn [MPesa.generateAccessToken_from]. unfold MPesa.token_attempt.
    rewrite Hm, Hk, Hs. cbn [negb orb]. rewrite H0, R0, H1, R1, H2.
    eexists _, _, _. split; [reflexivity|].
    unfold MPesa.stk_catch. cbn [Error err_code err_errorMessage err_message
      eqb_opt_string env_truthy].
    unfold upstream_timeout in Ht. apply andb_true_iff in Ht.
    destruct Ht as [_ Hi].
    apply includes_app. apply includes_app. exact Hi.
Qed.

(** C7 (as the code has it). When a charge initiation fails with an
    upstream timeout, of the charge request or of the token request, the
    route marks the contribution [failed], keeps the error's message,
    which mentions the timeout, in [result_desc] after the words
    [M-Pesa initiation failed:], leaves the ledger alone and answers 504
    with [can_retry] set: the timeout is reported as retryable and
    recorded as a failure. *)
Theorem charge_timeout_marks_failed :
  forall S cfg gw now s cache contribution phone amount,
    initiation_times_out S cfg gw now cache phone
      (JS.VNum (JS.floor (JS.Number S amount)))
      (Routes.cell_string (Db.get "id" contribution)) ->
    let out := Routes.contribute_payment S cfg gw now s cache contribution
                 phone amount in
    let s' := fst (fst (fst out)) in
    exists cache' log e,
      MPesa.initiateSTKPush S cfg gw now cache phone
        (JS.VNum (JS.floor (JS.Number S amount)))
        (Routes.cell_string (Db.get "id" contribution))
      = (cache', log, Thrown e)
      /\ JS.includes "timeout" (err_message e) = true
      /\ map (Db.get "status") (Db.contributions s')
         = map (fun r => if Db.eq "id" (Db.get "id" contribution) r
                         then Db.Text "failed" else Db.get "status" r)
             (Db.contributions s)
      /\ map (Db.get "result_desc") (Db.contributions s')
         = map (fun r => if Db.eq "id" (Db.get "id" contribution) r
                         then Db.Text ("M-Pesa initiation failed: "
                                       ++ err_message e)
                         else Db.get "result_desc" r)
             (Db.contributions s)
      /\ Db.campaigns s' = Db.campaigns s
      /\ Routes.http_status (snd out) = 504
      /\ Routes.body_can_retry (snd out) = Some true.
Proof.
  intros S cfg gw now s cache contribution phone amount H.
  destruct (initiateSTKPush_times_out _ _ _ _ _ _ _ _ H)
    as [cache' [log [e [Hpush Hmsg]]]].
  cbv zeta. exists cache', log, e. split; [exact Hpush|].
  unfold Routes.contribute_payment. rewrite Hpush, Hmsg.
  cbn [fst snd Db.contributions Db.campaigns Routes.http_status
       Routes.body_can_retry].
  repeat split.
  - rewrite statuses_update_eq. reflexivity.
  - unfold Db.update_eq. rewrite map_map. apply map_ext. intros r.
    destruct (Db.eq "id" (Db.get "id" contribution) r); [|reflexivity].
    rewrite get_apply_update. reflexivity.
Qed.

(** The token request times out on all three attempts: the contribution
    is marked failed and the route answers 504. *)
Lemma charge_timeout_marks_failed_witness :
  let out := Routes.contribute_payment Examples.digits_StringToNumber
               Examples.cfg Examples.token_stalling 5000
               (Examples.store "pending" 0) empty_cache
               (Examples.contribution "pending") "254712345678"
               (JS.VNum (JS.of_Z 100)) in
  map (Db.get "status") (Db.contributions (fst (fst (fst out))))
  = [Db.Text "failed"]
  /\ Routes.http_status (snd out) = 504
  /\ Routes.body_can_retry (snd out) = Some true.
Proof.
  destruct (charge_timeout_marks_failed Examples.digits_StringToNumber
              Examples.cfg Examples.token_stalling 5000
              (Examples.store "pending" 0)
              empty_cache (Examples.contribution "pending") "254712345678"
              (JS.VNum (JS.of_Z 100)))
    as [cache' [log [e [_ [_ [Hs [_ [_ [Hh Hr]]]]]]]]].
  - eapply token_request_times_out with (e0 := Examples.timeout_error)
      (e1 := Examples.timeout_error) (e2 := Examples.timeout_error);
      reflexivity.
  - cbv zeta. split; [rewrite Hs; reflexivity | split; [exact Hh | exact Hr]].
Defined.

(* ===================================================================== *)
(** * Further properties of the payment core *)
(* ===================================================================== *)

(** ** Phone numbers *)

Lemma strip_non_digits_idempotent (s : string) :
  JS.strip_non_digits (JS.strip_non_digits s) = JS.strip_non_digits s.
Proof.
  induction s as [|c s IH]; simpl; [reflexivity|].
  destruct (JS.is_digit c) eqn:E; simpl; [rewrite E, IH|]; auto.
Qed.

Lemma prefix_cons (a : ascii) (p s : string) :
  String.prefix (String a p) s = true ->
  exists rest, s = String a rest /\ String.prefix p rest = true.
Proof.
  destruct s as [|b rest]; simpl; [discriminate|].
  destruct (ascii_dec a b) as [->|]; [|discriminate].
  intros H. exists rest. split; [reflexivity | exact H].
Qed.

Lemma prefix_cons_false (a : ascii) (p s : string) :
  String.prefix (String a p) s = false ->
  forall rest, s = String a rest -> String.prefix p rest = false.
Proof.
  intros H rest ->. simpl in H.
  destruct (ascii_dec a a); [exact H | congruence].
Qed.

(** X1. A subscriber number written with a leading 0, with the country
    code 254, or with +254 normalises to the same number, whatever
    follows the prefix (digits, blanks, dashes). *)
Theorem formatPhoneNumber_prefix_forms :
  forall rest : string,
    formatPhoneNumber ("0" ++ rest) = formatPhoneNumber ("254" ++ rest)
    /\ formatPhoneNumber ("+254" ++ rest) = formatPhoneNumber ("254" ++ rest).
Proof.
  intros rest. unfold formatPhoneNumber. simpl.
  destruct (JS.strip_non_digits rest); split; reflexivity.
Qed.

(** X2. Normalisation never yields NaN, and it reads only the digits of
    its argument: separators and any other characters are ignored. *)
Theorem formatPhoneNumber_reads_digits :
  forall phoneNumber : string,
    exists n,
      formatPhoneNumber phoneNumber = Some n
      /\ formatPhoneNumber (JS.strip_non_digits phoneNumber) = Some n.
Proof.
  intros phoneNumber. unfold formatPhoneNumber.
  rewrite strip_non_digits_idempotent.
  set (cleaned := JS.strip_non_digits phoneNumber).
  destruct (JS.startsWith "254" cleaned) eqn:E.
  - apply prefix_cons in E. destruct E as [rest [-> _]].
    eexists. split; reflexivity.
  - destruct (JS.startsWith "0" cleaned); eexists; split; reflexivity.
Qed.

(** X3. The contribute route rewrites the phone number before it stores
    and forwards it; the rewriting does not change what the gateway
    client makes of the number. *)
Theorem route_phone_then_formatPhoneNumber :
  forall phoneNumber : string,
    formatPhoneNumber (Api.route_phone phoneNumber)
    = formatPhoneNumber phoneNumber.
Proof.
  intros phoneNumber. unfold Api.route_phone.
  destruct (JS.startsWith "0" phoneNumber) eqn:E0.
  - apply prefix_cons in E0. destruct E0 as [rest [-> _]].
    unfold formatPhoneNumber. simpl.
    destruct (JS.strip_non_digits rest); reflexivity.
  - destruct (JS.startsWith "+" phoneNumber) eqn:E1; [|reflexivity].
    apply prefix_cons in E1. destruct E1 as [rest [-> _]]. reflexivity.
Qed.

(** ** The token cache *)

Lemma cache_hit_inv now cache t :
  MPesa.cache_hit now cache = Some t ->
  exists e, token cache = Some t /\ expires cache = Some e
            /\ t <> "" /\ now < e.
Proof.
  unfold MPesa.cache_hit. destruct cache as [[t'|] [e|]]; simpl; try discriminate.
  destruct (String.eqb t' "") eqn:Et; simpl; [discriminate|].
  destruct (now <? e) eqn:El; [|discriminate].
  intros H. injection H as <-. exists e. repeat split.
  - apply String.eqb_neq. exact Et.
  - apply Z.ltb_lt. exact El.
Qed.

Lemma cache_hit_intro now t e :
  t <> "" -> now < e ->
  MPesa.cache_hit now (mkTokenCache (Some t) (Some e)) = Some t.
Proof.
  intros Ht Hl. unfold MPesa.cache_hit. simpl.
  apply String.eqb_neq in Ht. apply Z.ltb_lt in Hl. rewrite Ht, Hl. reflexivity.
Qed.

Lemma generateAccessToken_from_returned cfg gw now k n cache cache' log tok :
  MPesa.generateAccessToken_from cfg gw now k n cache
  = (cache', log, Returned tok) ->
  tok <> "" ->
  exists e, cache' = mkTokenCache (Some tok) (Some e)
            /\ (log = [] -> cache' = cache /\ now < e).
Proof.
  revert n cache' log. induction k as [|k IH]; intros n cache' log; simpl.
  - destruct (MPesa.cache_hit now cache) as [t|] eqn:Eh.
    + intros H Hne. injection H as <- <- <-.
      apply cache_hit_inv in Eh. destruct Eh as [e [Ht [He [_ Hl]]]].
      exists e. destruct cache as [tk ex]; simpl in *. subst. auto.
    + destruct (MPesa.token_attempt cfg gw n) as [l [r|err]] eqn:Ea;
        [|discriminate].
      intros H Hne. injection H as <- <- <-. eexists. split; [reflexivity|].
      intros ->. unfold MPesa.token_attempt in Ea.
      destruct (negb _ || negb _); discriminate.
  - destruct (MPesa.cache_hit now cache) as [t|] eqn:Eh.
    + intros H Hne. injection H as <- <- <-.
      apply cache_hit_inv in Eh. destruct Eh as [e [Ht [He [_ Hl]]]].
      exists e. destruct cache as [tk ex]; simpl in *. subst. auto.
    + destruct (MPesa.token_attempt cfg gw n) as [l [r|err]] eqn:Ea.
      * intros H Hne. injection H as <- <- <-. eexists. split; [reflexivity|].
        intros ->. unfold MPesa.token_attempt in Ea.
        destruct (negb _ || negb _); discriminate.
      * destruct (MPesa.shouldRetry err); [|discriminate].
        destruct (MPesa.generateAccessToken_from cfg gw now k (S n) cache)
          as [[c l'] o] eqn:E.
        intros H Hne. injection H as <- <- ->.
        destruct (IH _ _ _ E Hne) as [e [Hc Hnil]].
        exists e. split; [exact Hc|].
        intros Happ. apply app_eq_nil in Happ. destruct Happ as [-> ->].
        apply Hnil. reflexivity.
Qed.

(** X4. A token that [generateAccessToken] has returned is served from
    the cache, without any request, by every later call made before the
    stored expiry, whatever the upstream would answer by then. *)
Theorem generateAccessToken_reuses_token :
  forall cfg gw now cache cache' log tok,
    MPesa.generateAccessToken cfg gw now cache = (cache', log, Returned tok) ->
    tok <> "" ->
    exists e,
      expires cache' = Some e
      /\ forall cfg' gw' now',
          now' < e ->
          MPesa.generateAccessToken cfg' gw' now' cache'
          = (cache', [], Returned tok).
Proof.
  intros cfg gw now cache cache' log tok H Hne.
  destruct (generateAccessToken_from_returned _ _ _ _ _ _ _ _ _ H Hne)
    as [e [-> _]].
  exists e. split; [reflexivity|].
  intros cfg' gw' now' Hl. unfold MPesa.generateAccessToken. simpl.
  rewrite (cache_hit_intro now' tok e Hne Hl). reflexivity.
Qed.

Lemma generateAccessToken_reuses_token_witness :
  exists e,
    expires (mkTokenCache (Some "tok") (Some 3544000)) = Some e
    /\ forall cfg' gw' now',
        now' < e ->
        MPesa.generateAccessToken cfg' gw' now'
          (mkTokenCache (Some "tok") (Some 3544000))
        = (mkTokenCache (Some "tok") (Some 3544000), [], Returned "tok").
Proof.
  apply (generateAccessToken_reuses_token Examples.cfg Examples.accepting 5000
           empty_cache _ [ReqOAuth] "tok").
  - reflexivity.
  - discriminate.
Defined.

Lemma generateAccessToken_from_bounded cfg gw now k n cache cache' log res :
  MPesa.generateAccessToken_from cfg gw now k n cache = (cache', log, res) ->
  (List.length log <= S k)%nat
  /\ (forall e, res = Thrown e -> cache' = cache).
Proof.
  revert n cache' log res. induction k as [|k IH]; intros n cache' log res; simpl.
  - destruct (MPesa.cache_hit now cache).
    + intros H. injection H as <- <- <-. split; [simpl; lia | discriminate].
    + unfold MPesa.token_attempt.
      destruct (negb _ || negb _).
      * intros H. injection H as <- <- <-. split; [simpl; lia | reflexivity].
      * destruct (oauth gw n); intros H; injection H as <- <- <-;
          (split; [simpl; lia | try discriminate; reflexivity]).
  - destruct (MPesa.cache_hit now cache).
    + intros H. injection H as <- <- <-. split; [simpl; lia | discriminate].
    + unfold MPesa.token_attempt.
      destruct (negb _ || negb _).
      * destruct (MPesa.shouldRetry _).
        -- destruct (MPesa.generateAccessToken_from cfg gw now k (S n) cache)
             as [[c l] o] eqn:E.
           intros H. injection H as <- <- <-.
           destruct (IH _ _ _ _ E) as [Hlen Hc]. split; [simpl; lia | exact Hc].
        -- intros H. injection H as <- <- <-. split; [simpl; lia | reflexivity].
      * destruct (oauth gw n) as [r|err].
        -- intros H. injection H as <- <- <-. split; [simpl; lia | discriminate].
        -- destruct (MPesa.shouldRetry err).
           ++ destruct (MPesa.generateAccessToken_from cfg gw now k (S n) cache)
                as [[c l] o] eqn:E.
              intros H. injection H as <- <- <-.
              destruct (IH _ _ _ _ E) as [Hlen Hc].
              split; [simpl; lia | exact Hc].
           ++ intros H. injection H as <- <- <-.
              split; [simpl; lia | reflexivity].
Qed.

(** X5. One call of [generateAccessToken] sends at most three token
    requests (the first attempt and two retries) and nothing else, and
    when it fails it leaves the cache as it found it. *)
Theorem generateAccessToken_bounded :
  forall cfg gw now cache cache' log res,
    MPesa.generateAccessToken cfg gw now cache = (cache', log, res) ->
    (List.length log <= 3)%nat
    /\ (forall r, In r log -> r = ReqOAuth)
    /\ (forall e, res = Thrown e -> cache' = cache).
Proof.
  intros cfg gw now cache cache' log res H.
  destruct (generateAccessToken_from_bounded _ _ _ _ _ _ _ _ _ H) as [Hlen Hc].
  repeat split; [exact Hlen | | exact Hc].
  exact (generateAccessToken_from_log _ _ _ _ _ _ _ _ _ H).
Qed.

Lemma generateAccessToken_bounded_witness :
  (List.length [ReqOAuth; ReqOAuth; ReqOAuth] <= 3)%nat
  /\ (forall r, In r [ReqOAuth; ReqOAuth; ReqOAuth] -> r = ReqOAuth)
  /\ (forall e,
        @Thrown string
          (Error "Failed to generate access token: timeout of 30000ms exceeded")
        = Thrown e ->
        empty_cache = empty_cache).
Proof.
  apply (generateAccessToken_bounded Examples.cfg
           (mkGateway (fun _ => Thrown Examples.timeout_error)
              (stkpush Examples.accepting) (reversal Examples.accepting))
           5000 empty_cache).
  reflexivity.
Defined.

(** ** Charge initiation, continued *)

(** X6. [initiateSTKPush] reports success only for a request the
    upstream accepted with response code "0": the token requests are
    followed by exactly one charge request, built from the normalised
    phone number and the truncated amount, and the identifiers returned
    are the ones of the upstream's answer. *)
Theorem initiateSTKPush_success_inv :
  forall S cfg gw now cache phone amount cid cache' log res,
    MPesa.initiateSTKPush S cfg gw now cache phone amount cid
    = (cache', log, Returned res) ->
    exists toklog tok data,
      let paymentRequest :=
        MPesa.build_stk_request cfg phone (JS.floor (JS.Number S amount)) cid in
      MPesa.generateAccessToken cfg gw now cache = (cache', toklog, Returned tok)
      /\ log = (toklog ++ [ReqStkPush paymentRequest])%list
      /\ stkpush gw paymentRequest = Returned data
      /\ stk_ResponseCode data = "0"
      /\ MPesa.res_CheckoutRequestID res = stk_CheckoutRequestID data
      /\ MPesa.res_MerchantRequestID res = stk_MerchantRequestID data.
Proof.
  intros S cfg gw now cache phone amount cid cache' log res.
  unfold MPesa.initiateSTKPush, MPesa.initiateSTKPush_try, MPesa.validate_stk.
  destruct (negb (JS.str_truthy phone) || negb (JS.truthy amount)
            || negb (JS.str_truthy cid)); [discriminate|].
  destruct (JS.lt _ _ || JS.gt _ _); [discriminate|].
  destruct (MPesa.generateAccessToken cfg gw now cache) as [[c toklog] [tok|e]];
    [|discriminate].
  destruct (stkpush gw _) as [data|e] eqn:Ep; [|discriminate].
  destruct (String.eqb (stk_ResponseCode data) "0") eqn:Ec; [|discriminate].
  intros H. injection H as <- <- <-.
  exists toklog, tok, data. cbv zeta.
  split; [reflexivity|]. split; [reflexivity|]. split; [reflexivity|].
  split; [apply String.eqb_eq; exact Ec|]. split; reflexivity.
Qed.

Lemma initiateSTKPush_success_inv_witness :
  exists toklog tok data,
    let paymentRequest :=
      MPesa.build_stk_request Examples.cfg "0712345678"
        (JS.floor (JS.Number Examples.digits_StringToNumber
                     (JS.VNum (JS.of_Z 100)))) "c1" in
    MPesa.generateAccessToken Examples.cfg Examples.accepting 5000 empty_cache
    = (mkTokenCache (Some "tok") (Some 3544000), toklog, Returned tok)
    /\ [ReqOAuth;
        ReqStkPush (MPesa.build_stk_request Examples.cfg "0712345678"
                      (JS.Fin (inject_Z 100)) "c1")]
       = (toklog ++ [ReqStkPush paymentRequest])%list
    /\ stkpush Examples.accepting paymentRequest = Returned data
    /\ stk_ResponseCode data = "0"
    /\ MPesa.res_CheckoutRequestID (MPesa.mkStkResult "MR1" "CO123" "Success")
       = stk_CheckoutRequestID data
    /\ MPesa.res_MerchantRequestID (MPesa.mkStkResult "MR1" "CO123" "Success")
       = stk_MerchantRequestID data.
Proof.
  apply (initiateSTKPush_success_inv Examples.digits_StringToNumber
           Examples.cfg Examples.accepting 5000 empty_cache "0712345678"
           (JS.VNum (JS.of_Z 100)) "c1").
  reflexivity.
Defined.

(** X7. Without configured credentials and without a cached token, a
    well-formed charge request sends nothing at all: it fails with the
    credential error wrapped twice, and the cache is untouched. *)
Theorem initiateSTKPush_without_credentials :
  forall S cfg gw now cache phone amount cid n,
    MPesa.validate_stk S phone amount cid = MPesa.AmountOk n ->
    MPesa.cache_hit now cache = None ->
    env_truthy (consumerKey cfg) && env_truthy (consumerSecret cfg) = false ->
    MPesa.initiateSTKPush S cfg gw now cache phone amount cid
    = (cache, [],
       Thrown (Error ("Payment initiation failed: "
                      ++ "Failed to generate access token: "
                      ++ "MPesa credentials not configured"))).
Proof.
  intros S cfg gw now cache phone amount cid n Hv Hh Hc.
  unfold MPesa.initiateSTKPush, MPesa.initiateSTKPush_try.
  rewrite Hv. unfold MPesa.generateAccessToken. simpl.
  rewrite Hh. unfold MPesa.token_attempt.
  assert (E : negb (env_truthy (consumerKey cfg))
              || negb (env_truthy (consumerSecret cfg)) = true).
  { destruct (env_truthy (consumerKey cfg)), (env_truthy (consumerSecret cfg));
      simpl in *; congruence. }
  rewrite E. reflexivity.
Qed.

Lemma initiateSTKPush_without_credentials_witness :
  MPesa.initiateSTKPush Examples.digits_StringToNumber
    (mkConfig None None (Some "174379") "https://example.org/api/payments")
    Examples.accepting 5000 empty_cache "0712345678" (JS.VNum (JS.of_Z 100)) "c1"
  = (empty_cache, [],
     Thrown (Error ("Payment initiation failed: "
                    ++ "Failed to generate access token: "
                    ++ "MPesa credentials not configured"))).
Proof.
  apply (initiateSTKPush_without_credentials Examples.digits_StringToNumber
           (mkConfig None None (Some "174379") "https://example.org/api/payments")
           Examples.accepting 5000 empty_cache "0712345678"
           (JS.VNum (JS.of_Z 100)) "c1" (JS.Fin (inject_Z 100)));
    reflexivity.
Defined.

(** ** Callback metadata *)

(** The value of the last item called [name], starting from [acc]. *)
Lemma parseCallbackMetadata_fields items acc :
  let pick name start :=
    fold_left (fun found (item : string * JS.scalar) =>
                 if String.eqb (fst item) name then Some (snd item) else found)
      items start in
  fold_left
    (fun details (item : string * JS.scalar) =>
       let '(Name, Value) := item in
       if String.eqb Name "MpesaReceiptNumber" then
         MPesa.mkTransactionDetails (Some Value) (MPesa.transactionDate details)
           (MPesa.phoneNumber details)
       else if String.eqb Name "TransactionDate" then
         MPesa.mkTransactionDetails (MPesa.mpesaReceiptNumber details)
           (Some Value) (MPesa.phoneNumber details)
       else if String.eqb Name "PhoneNumber" then
         MPesa.mkTransactionDetails (MPesa.mpesaReceiptNumber details)
           (MPesa.transactionDate details) (Some Value)
       else details)
    items acc
  = MPesa.mkTransactionDetails
      (pick "MpesaReceiptNumber" (MPesa.mpesaReceiptNumber acc))
      (pick "TransactionDate" (MPesa.transactionDate acc))
      (pick "PhoneNumber" (MPesa.phoneNumber acc)).
Proof.
  cbv zeta. revert acc.
  induction items as [|[Name Value] items IH]; intros acc; simpl.
  - destruct acc; reflexivity.
  - rewrite IH.
    destruct (String.eqb Name "MpesaReceiptNumber") eqn:E1.
    { apply String.eqb_eq in E1. subst. reflexivity. }
    destruct (String.eqb Name "TransactionDate") eqn:E2.
    { apply String.eqb_eq in E2. subst. reflexivity. }
    destruct (String.eqb Name "PhoneNumber") eqn:E3.
    { apply String.eqb_eq in E3. subst. reflexivity. }
    reflexivity.
Qed.

Lemma pick_permutation (name : string) (items items' : list (string * JS.scalar)) :
  Permutation items items' ->
  NoDup (map fst items) ->
  forall start,
    fold_left (fun found (item : string * JS.scalar) =>
                 if String.eqb (fst item) name then Some (snd item) else found)
      items start
    = fold_left (fun found (item : string * JS.scalar) =>
                   if String.eqb (fst item) name then Some (snd item) else found)
        items' start.
Proof.
  induction 1 as [|x l l' Hp IH|x y l|l l' l'' Hp1 IH1 Hp2 IH2];
    intros Hnd start; simpl.
  - reflexivity.
  - apply IH. inversion Hnd; assumption.
  - destruct (String.eqb (fst x) name) eqn:Ex,
             (String.eqb (fst y) name) eqn:Ey; try reflexivity.
    apply String.eqb_eq in Ex, Ey. simpl in Hnd.
    inversion Hnd as [|? ? Hnotin _]. exfalso. apply Hnotin.
    left. congruence.
  - rewrite IH1 by exact Hnd. apply IH2.
    apply (Permutation_NoDup (l := map fst l));
      [apply Permutation_map; exact Hp1 | exact Hnd].
Qed.

(** X8. The metadata of a charge callback is an unordered list: when
    its items carry pairwise different names, any reordering of them is
    parsed to the same receipt number, transaction date and phone
    number. *)
Theorem parseCallbackMetadata_unordered :
  forall items items',
    distinct_names items ->
    Permutation items items' ->
    MPesa.parseCallbackMetadata items' = MPesa.parseCallbackMetadata items.
Proof.
  intros items items' Hnd Hp. unfold MPesa.parseCallbackMetadata.
  pose proof (parseCallbackMetadata_fields items
                (MPesa.mkTransactionDetails None None None)) as H.
  pose proof (parseCallbackMetadata_fields items'
                (MPesa.mkTransactionDetails None None None)) as H'.
  cbv zeta in H, H'. rewrite H, H'. cbn [MPesa.mpesaReceiptNumber
    MPesa.transactionDate MPesa.phoneNumber].
  rewrite !(pick_permutation _ items items' Hp Hnd). reflexivity.
Qed.

Lemma parseCallbackMetadata_unordered_witness :
  MPesa.parseCallbackMetadata
    [("PhoneNumber", JS.SInt 254712345678);
     ("MpesaReceiptNumber", JS.SStr "ABC1");
     ("Amount", JS.SInt 100)]
  = MPesa.parseCallbackMetadata
      [("Amount", JS.SInt 100);
       ("MpesaReceiptNumber", JS.SStr "ABC1");
       ("PhoneNumber", JS.SInt 254712345678)].
Proof.
  apply parseCallbackMetadata_unordered.
  - unfold distinct_names. simpl.
    repeat constructor; simpl; intuition discriminate.
  - apply Permutation_trans
      with [("MpesaReceiptNumber", JS.SStr "ABC1");
            ("Amount", JS.SInt 100);
            ("PhoneNumber", JS.SInt 254712345678)].
    + apply perm_swap.
    + apply Permutation_trans
        with [("MpesaReceiptNumber", JS.SStr "ABC1");
              ("PhoneNumber", JS.SInt 254712345678);
              ("Amount", JS.SInt 100)].
      * apply perm_skip. apply perm_swap.
      * apply perm_swap.
Defined.

(** ** Callbacks, continued *)

Lemma select_apply_update (cols : list string) (patch r : Db.row) :
  (forall k, In k cols -> Db.lookup k (rev patch) = None) ->
  Db.select cols (Db.apply_update patch r) = Db.select cols r.
Proof.
  intros H. unfold Db.select. apply map_ext_in. intros k Hk.
  rewrite get_apply_update, (H k Hk). reflexivity.
Qed.

Lemma charge_updateData_identity now rc desc details k :
  In k identity_columns ->
  Db.lookup k (rev (MPesa.charge_updateData now rc desc details)) = None.
Proof.
  unfold MPesa.charge_updateData, MPesa.set_if, Db.field, identity_columns.
  destruct details as [receipt date phone].
  intros [<-|[<-|[<-|[<-|[]]]]];
    destruct (JS.strict_eq_int rc 0), desc; cbn [MPesa.mpesaReceiptNumber
      MPesa.transactionDate MPesa.phoneNumber];
    destruct (scalar_opt_truthy receipt), (scalar_opt_truthy phone),
      (scalar_opt_truthy date); reflexivity.
Qed.

Lemma reversal_updateData_identity now rc Result k :
  In k identity_columns ->
  Db.lookup k (rev (MPesa.reversal_updateData now rc Result)) = None.
Proof.
  unfold MPesa.reversal_updateData, Db.field, identity_columns.
  intros [<-|[<-|[<-|[<-|[]]]]];
    destruct (JS.strict_eq_int rc 0), (rv_ConversationID Result),
      (rv_ResultDesc Result); reflexivity.
Qed.

(** The contributions after one delivery: untouched, or one update by id
    with an object that writes none of the identity columns. *)
Lemma deliver_contributions B now s d :
  Db.contributions (deliver B now s d) = Db.contributions s
  \/ exists patch idv,
       (forall k, In k identity_columns -> Db.lookup k (rev patch) = None)
       /\ Db.contributions (deliver B now s d)
          = Db.update_eq patch "id" idv (Db.contributions s).
Proof.
  destruct d as [body|body]; unfold deliver.
  - unfold MPesa.handleContributionCallback.
    destruct (cb_test body); [left; reflexivity|].
    destruct (cb_stkCallback body) as [callback|]; [|left; reflexivity].
    destruct (negb (env_truthy (cb_CheckoutRequestID callback)));
      [left; reflexivity|].
    destruct (MPesa.charge_target (Db.contributions s) callback) as [c|];
      [|left; reflexivity].
    destruct (cb_ResultCode callback) as [rc|]; [|left; reflexivity].
    cbn [fst Db.contributions].
    destruct (update_contributions_unchecked_contributions B now
                (MPesa.charge_updateData now rc (cb_ResultDesc callback)
                   (MPesa.parseCallbackMetadata (cb_CallbackMetadata callback)))
                (Db.get "id" c) s) as [E|[E _]].
    + right. eexists _, _. split; [|exact E].
      intros k Hk. apply charge_updateData_identity. exact Hk.
    + left. rewrite E. reflexivity.
  - unfold MPesa.handleReversalCallback.
    destruct (rv_Result body) as [Result|]; [|left; reflexivity].
    destruct (MPesa.reversal_target (Db.contributions s) Result) as [c|];
      [|left; reflexivity].
    destruct (rv_ResultCode Result) as [rc|]; [|left; reflexivity].
    destruct (reversal_update_accepted B now rc Result (Db.get "id" c) s)
      as [campaigns1 [Hu _]].
    rewrite Hu. right. eexists _, _. split; [|reflexivity].
    intros k Hk. apply reversal_updateData_identity. exact Hk.
Qed.

Lemma deliver_keeps_identity B now s d :
  map (Db.select identity_columns) (Db.contributions (deliver B now s d))
  = map (Db.select identity_columns) (Db.contributions s).
Proof.
  destruct (deliver_contributions B now s d) as [->|[patch [idv [Hcols ->]]]];
    [reflexivity|].
  unfold Db.update_eq. rewrite map_map. apply map_ext. intros r.
  destruct (Db.eq "id" idv r); [|reflexivity].
  apply select_apply_update. exact Hcols.
Qed.

(** X9. No sequence of charge and reversal callbacks creates or deletes
    a contribution, and none changes the id, the campaign, the amount or
    the checkout-request id of one: row by row these columns are what
    they were. *)
Theorem deliveries_keep_identity :
  forall B ds s,
    map (Db.select ["id"; "campaign_id"; "amount"; "mpesa_checkout_request_id"])
      (Db.contributions (deliver_all B s ds))
    = map (Db.select ["id"; "campaign_id"; "amount"; "mpesa_checkout_request_id"])
        (Db.contributions s).
Proof.
  intros B ds. induction ds as [|[now d] ds IH]; intros s; simpl.
  - reflexivity.
  - rewrite IH. apply deliver_keeps_identity.
Qed.

(** X10. A delivery that resolves to nothing, or whose result code is
    anything but the number 0 (the string "0" included), leaves every
    campaign row as it was: the handlers call the ledger updater on code
    0 only, and the trigger has nothing to do, provided that, where it
    is installed, a charge callback does not meet a completed
    contribution (which the trigger would debit on its way to
    [failed]). *)
Theorem ledger_moves_only_on_code_zero :
  forall B now s d,
    (forall c rc, resolves s d c rc -> JS.strict_eq_int rc 0 = false) ->
    (Db.funding_trigger B = true ->
     forall body c rc r,
       d = ChargeDelivery body -> resolves s d c rc ->
       In r (Db.contributions s) -> Db.eq "id" (Db.get "id" c) r = true ->
       Db.text_is (Db.get "status" r) "completed" = false) ->
    Db.campaigns (deliver B now s d) = Db.campaigns s.
Proof.
  intros B now s d H Ht. destruct d as [body|body].
  - destruct (charge_resolution_dec s body) as [[c [rc Hres]]|Hnone].
    + destruct (deliver_charge_resolved B now s body c rc Hres)
        as [patch [Hs [_ ->]]].
      rewrite (H c rc Hres) in *. cbn [andb Db.campaigns].
      unfold Db.update_contributions_unchecked.
      rewrite update_contributions_plain; [reflexivity|].
      destruct (Db.funding_trigger B) eqn:Et; [right | left; reflexivity].
      intros r Hin Hid.
      unfold Db.becomes_completed, Db.becomes_refunded,
        Db.completed_becomes_failed.
      rewrite get_apply_update, Hs.
      rewrite (Ht Logic.eq_refl body c rc r Logic.eq_refl Hres Hin Hid).
      repeat split; reflexivity.
    + rewrite deliver_charge_unresolved by exact Hnone. reflexivity.
  - destruct (reversal_resolution_dec s body) as [[c [rc Hres]]|Hnone].
    + destruct (deliver_reversal_resolved B now s body c rc Hres)
        as [patch [campaigns1 [_ [_ ->]]]].
      rewrite (H c rc Hres). reflexivity.
    + rewrite deliver_reversal_unresolved by exact Hnone. reflexivity.
Qed.

(** A charge callback whose result code is the string "0", in the
    database with the trigger: the pending contribution is marked failed
    and nothing is credited. *)
Lemma ledger_moves_only_on_code_zero_witness :
  let body :=
    mkChargeCallback false
      (Some (mkStkCallback (Some "CO123") (Some (JS.SStr "0")) (Some "ok")
               [("MpesaReceiptNumber", JS.SStr "ABC1")])) in
  Db.campaigns (deliver Examples.triggered 2000 (Examples.store "pending" 0)
                  (ChargeDelivery body))
  = Db.campaigns (Examples.store "pending" 0).
Proof.
  intros body. apply ledger_moves_only_on_code_zero.
  - intros c rc H. inversion H as [b callback c' rc' _ Hb _ _ Hr|]; subst.
    injection Hb as <-. injection Hr as <-. reflexivity.
  - intros _ b c rc r _ _ [<-|[]] _. reflexivity.
Defined.




Lemma filter_map_rows (col : string) (v idv : Db.cell)
    (change : Db.row -> Db.row) (t : Db.table) :
  (forall r, Db.get col (change r) = Db.get col r) ->
  filter (Db.eq col v) (map (fun r => if Db.eq "id" idv r then change r else r) t)
  = map (fun r => if Db.eq "id" idv r then change r else r)
      (filter (Db.eq col v) t).
Proof.
  intros H. induction t as [|r t IH]; [reflexivity|]. cbn [map filter].
  assert (E : Db.eq col v (if Db.eq "id" idv r then change r else r)
              = Db.eq col v r).
  { destruct (Db.eq "id" idv r); [|reflexivity]. unfold Db.eq. rewrite H.
    reflexivity. }
  rewrite E. destruct (Db.eq col v r); cbn [map]; rewrite IH; reflexivity.
Qed.

(** One statement of the trigger, when it is not refused: the one row
    of the campaign takes the new total. *)
Lemma trigger_write_total B now f campaignId t t' k :
  Db.trigger_write B now f (Db.Text campaignId) t = Some t' ->
  filter (Db.eq "id" (Db.Text campaignId)) t = [k] ->
  exists k',
    filter (Db.eq "id" (Db.Text campaignId)) t' = [k']
    /\ Db.get "current_funding" k' = f (Db.get "current_funding" k).
Proof.
  unfold Db.trigger_write. destruct (Db.funding_check B && _); [discriminate|].
  intros H Hf. injection H as <-.
  rewrite (filter_map_rows "id" (Db.Text campaignId) (Db.Text campaignId)
             (fun r => Db.apply_update
                         [("current_funding", f (Db.get "current_funding" r));
                          ("updated_at", Db.Time now)] r)).
  - rewrite Hf. cbn [map].
    assert (Hk : Db.eq "id" (Db.Text campaignId) k = true).
    { assert (H : In k (filter (Db.eq "id" (Db.Text campaignId)) t))
        by (rewrite Hf; left; reflexivity).
      apply filter_In in H. tauto. }
    rewrite Hk. eexists. split; [reflexivity|].
    rewrite get_apply_update. reflexivity.
  - intros r. rewrite get_apply_update. reflexivity.
Qed.




(** ** The ledger updater, continued *)

(** X12. The ledger updater touches only the rows of the campaign it is
    called for: when the RPC answers with an error, every row with
    another id is kept as it is, in place; for an unknown campaign
    nothing changes at all. *)
Theorem updateCampaignFunding_local :
  forall B now t campaignId amount,
    Db.rpc_increment B t campaignId amount = None ->
    (exists change,
       MPesa.updateCampaignFunding now B t campaignId amount
       = map (fun r => if Db.eq "id" campaignId r then change r else r) t)
    /\ (filter (Db.eq "id" campaignId) t = [] ->
        MPesa.updateCampaignFunding now B t campaignId amount = t).
Proof.
  intros B now t campaignId amount Hrpc.
  unfold MPesa.updateCampaignFunding, Db.select_single. rewrite Hrpc. split.
  - destruct (Db.single _) as [campaign|].
    + unfold Db.update_campaigns. destruct (Db.funding_check B && _).
      * exists (fun r => r). rewrite <- (map_id t) at 1. apply map_ext.
        intros r. destruct (Db.eq "id" campaignId r); reflexivity.
      * eexists. reflexivity.
    + exists (fun r => r). rewrite <- (map_id t) at 1. apply map_ext.
      intros r. destruct (Db.eq "id" campaignId r); reflexivity.
  - intros ->. reflexivity.
Qed.

Lemma updateCampaignFunding_local_witness :
  (exists change,
     MPesa.updateCampaignFunding 2000 Examples.plain
       [Examples.campaign 5000] (Db.Text "k9") 100
     = map (fun r => if Db.eq "id" (Db.Text "k9") r then change r else r)
         [Examples.campaign 5000])
  /\ (filter (Db.eq "id" (Db.Text "k9")) [Examples.campaign 5000] = [] ->
      MPesa.updateCampaignFunding 2000 Examples.plain
        [Examples.campaign 5000] (Db.Text "k9") 100
      = [Examples.campaign 5000]).
Proof.
  apply (updateCampaignFunding_local Examples.plain 2000
           [Examples.campaign 5000] (Db.Text "k9") 100).
  reflexivity.
Defined.

(** X13. Where the campaigns table carries the constraint on the total
    and the RPC answers with an error, the ledger updater never leaves a
    negative total behind: a debit that would do so is refused as a
    whole. *)
Theorem updateCampaignFunding_checked :
  forall B now t campaignId amount,
    Db.rpc_increment B t campaignId amount = None ->
    Db.funding_check B = true ->
    totals_nonnegative t ->
    totals_nonnegative (MPesa.updateCampaignFunding now B t campaignId amount).
Proof.
  intros B now t campaignId amount Hrpc Hchk Ht.
  unfold MPesa.updateCampaignFunding. rewrite Hrpc.
  destruct (Db.select_single _ _ _ _) as [campaign|]; [|exact Ht].
  unfold Db.update_campaigns. rewrite Hchk. cbn [andb].
  set (patch := [("current_funding", _); ("updated_at", _)]).
  destruct (existsb _ t) eqn:Ex; [exact Ht|].
  unfold totals_nonnegative, Db.update_eq in *. rewrite Forall_map.
  rewrite Forall_forall in *. intros r Hr.
  destruct (Db.eq "id" campaignId r) eqn:Eid; [|apply Ht; exact Hr].
  destruct (Z.ltb_spec
              (Db.number (Db.get "current_funding" (Db.apply_update patch r))) 0)
    as [Hneg|Hok]; [|exact Hok].
  exfalso. assert (Hex : existsb
    (fun r0 => Db.eq "id" campaignId r0
               && (Db.number (Db.get "current_funding"
                                (Db.apply_update patch r0)) <? 0)) t = true).
  { apply existsb_exists. exists r. split; [exact Hr|].
    rewrite Eid. apply Z.ltb_lt in Hneg. rewrite Hneg. reflexivity. }
  congruence.
Qed.

Lemma updateCampaignFunding_checked_witness :
  totals_nonnegative
    (MPesa.updateCampaignFunding 2000 Examples.checked
       [Examples.campaign 5000] (Db.Text "k1") (-10000)).
Proof.
  apply updateCampaignFunding_checked; try reflexivity.
  repeat constructor. discriminate.
Defined.

(** ** The refund route, continued *)

Lemma text_is_eq (c : Db.cell) (s : string) :
  Db.text_is c s = true -> c = Db.Text s.
Proof.
  unfold Db.text_is. destruct c; simpl; try discriminate.
  intros H. apply String.eqb_eq in H. congruence.
Qed.

(** X14. A refund request for a contribution that is unknown or not
    [completed] is turned away with 404 or 400 before anything happens:
    no row is written, no request leaves, the token cache is as it
    was. *)
Theorem refund_requires_completed :
  forall cfg gw now B s cache id reason,
    match Db.select_single
            ["id"; "status"; "amount"; "transaction_id"; "payment_method";
             "campaign_id"; "created_at"]
            "id" (Db.Text id) (Db.contributions s) with
    | Some c => Db.text_is (Db.get "status" c) "completed" = false
    | None => True
    end ->
    exists response,
      Routes.refund cfg gw now B s cache id reason = (s, cache, [], response)
      /\ (Routes.http_status response = 404
          \/ Routes.http_status response = 400).
Proof.
  intros cfg gw now B s cache id reason H. unfold Routes.refund.
  destruct (Db.select_single _ _ _ _) as [c|].
  - rewrite H. eexists. split; [reflexivity | right; reflexivity].
  - eexists. split; [reflexivity | left; reflexivity].
Qed.

Lemma refund_requires_completed_witness :
  exists response,
    Routes.refund Examples.cfg Examples.accepting 5000 Examples.plain
      (Examples.store "pending" 0) empty_cache "c1" "Admin initiated refund"
    = (Examples.store "pending" 0, empty_cache, [], response)
    /\ (Routes.http_status response = 404
        \/ Routes.http_status response = 400).
Proof.
  apply refund_requires_completed. reflexivity.
Defined.

(** X15. Every refund request for a completed M-Pesa contribution with a
    transaction id ends the same way, whatever the upstream would answer:
    the contribution is [refund_failed], the ledger is untouched, only
    token requests were sent, and the route answers 500. *)
Theorem refund_mpesa_always_fails :
  forall cfg gw now B s cache id reason c,
    Db.select_single
      ["id"; "status"; "amount"; "transaction_id"; "payment_method";
       "campaign_id"; "created_at"]
      "id" (Db.Text id) (Db.contributions s) = Some c ->
    Db.text_is (Db.get "status" c) "completed" = true ->
    Db.text_is (Db.get "payment_method" c) "mpesa" = true ->
    Db.truthy (Db.get "transaction_id" c) = true ->
    let out := Routes.refund cfg gw now B s cache id reason in
    let s' := fst (fst (fst out)) in
    map (Db.get "status") (Db.contributions s')
    = map (fun r => if Db.eq "id" (Db.Text id) r
                    then Db.Text "refund_failed" else Db.get "status" r)
        (Db.contributions s)
    /\ Db.campaigns s' = Db.campaigns s
    /\ (forall r, In r (snd (fst out)) -> r = ReqOAuth)
    /\ Routes.http_status (snd out) = 500.
Proof.
  intros cfg gw now B s cache id reason c Hc Hst Hpm Htx. cbv zeta.
  unfold Routes.refund. rewrite Hc, Hst, Hpm, Htx.
  rewrite (text_is_eq _ _ Hst). cbn [negb existsb Db.text_is Db.cell_eqb
    String.eqb Ascii.eqb Bool.eqb orb andb].
  destruct (initiateReversal_always_throws cfg gw now cache
              (Routes.cell_string (Db.get "transaction_id" c))
              (Routes.js_amount (Db.get "amount" c)) reason)
    as [cache' [log [e [-> Hlog]]]].
  unfold Db.update_contributions_unchecked.
  rewrite (update_contributions_other_status B now _ (Db.Text id) s
             (Db.Text "refund_failed")) by reflexivity.
  cbn [fst snd Db.contributions Db.campaigns Routes.http_status].
  repeat split; try exact Hlog.
  rewrite statuses_update_eq. reflexivity.
Qed.

Lemma refund_mpesa_always_fails_witness :
  let out := Routes.refund Examples.cfg Examples.accepting 5000 Examples.plain
               (Examples.store "completed" 10000) empty_cache "c1"
               "Admin initiated refund" in
  map (Db.get "status") (Db.contributions (fst (fst (fst out))))
  = [Db.Text "refund_failed"]
  /\ Routes.http_status (snd out) = 500.
Proof.
  destruct (refund_mpesa_always_fails Examples.cfg Examples.accepting 5000
              Examples.plain (Examples.store "completed" 10000) empty_cache
              "c1" "Admin initiated refund" _ eq_refl eq_refl eq_refl eq_refl)
    as [Hs [_ [_ Hh]]].
  cbv zeta. split; [rewrite Hs; reflexivity | exact Hh].
Defined.

Lemma update_campaigns_nonnegative B (z t' : Z) (v : Db.cell) (t : Db.table) :
  0 <= z ->
  Db.update_campaigns B
    [("current_funding", Db.Num z); ("updated_at", Db.Time t')] v t
  = Db.update_eq
      [("current_funding", Db.Num z); ("updated_at", Db.Time t')] "id" v t.
Proof.
  intros Hz. unfold Db.update_campaigns.
  destruct (Db.funding_check B); [|reflexivity]. cbn [andb].
  destruct (existsb _ t) eqn:Ex; [|reflexivity].
  apply existsb_exists in Ex. destruct Ex as [r [_ Hr]].
  apply andb_true_iff in Hr. destruct Hr as [_ Hneg].
  rewrite get_apply_update in Hneg. simpl in Hneg.
  apply Z.ltb_lt in Hneg. lia.
Qed.

(** X16. Refunding a completed contribution that was not paid through
    M-Pesa sets it [refunded], sends no request and debits the campaign
    with a clamp at zero, with or without the constraint on the table:
    the route stores the larger of zero and the difference.  Where the
    trigger is installed it has by then taken the amount off already
    (clamping too), so the amount is taken off twice. *)
Theorem refund_direct_clamps :
  forall cfg gw now B s cache id reason c k campaignId amount total,
    Db.select_single
      ["id"; "status"; "amount"; "transaction_id"; "payment_method";
       "campaign_id"; "created_at"]
      "id" (Db.Text id) (Db.contributions s) = Some c ->
    Db.text_is (Db.get "status" c) "completed" = true ->
    Db.text_is (Db.get "payment_method" c) "mpesa"
      && Db.truthy (Db.get "transaction_id" c) = false ->
    Db.get "campaign_id" c = Db.Text campaignId ->
    campaignId <> "" ->
    Db.get "amount" c = Db.Num amount ->
    filter (Db.eq "id" (Db.Text campaignId)) (Db.campaigns s) = [k] ->
    Db.get "current_funding" k = Db.Num total ->
    let out := Routes.refund cfg gw now B s cache id reason in
    let s' := fst (fst (fst out)) in
    Db.funding campaignId s'
    = Some (Z.max 0
              ((if Db.funding_trigger B
                then Z.max (total - amount) 0 else total) - amount))
    /\ map (Db.get "status") (Db.contributions s')
       = map (fun r => if Db.eq "id" (Db.Text id) r
                       then Db.Text "refunded" else Db.get "status" r)
           (Db.contributions s)
    /\ snd (fst out) = [].
Proof.
  intros cfg gw now B s cache id reason c k campaignId amount total
    Hc Hst Hpm Hcid Hne Hamt Hk Htot. cbv zeta.
  unfold Routes.refund. rewrite Hc, Hst, Hpm, Hcid, Hamt.
  rewrite (text_is_eq _ _ Hst). cbn [negb existsb Db.text_is Db.cell_eqb
    String.eqb Ascii.eqb Bool.eqb orb andb Db.truthy Db.number].
  apply String.eqb_neq in Hne. rewrite Hne. cbn [negb].
  set (patch := [("status", Db.Text "refunded"); ("refund_reason", _);
                 ("refunded_at", _); ("updated_at", _)]).
  apply select_single_inv in Hc. destruct Hc as [r [Hu Hsel]].
  assert (Hupd :
    exists t' k',
      Db.update_contributions_unchecked B now patch (Db.Text id) s
      = Db.mkStore (Db.update_eq patch "id" (Db.Text id) (Db.contributions s)) t'
      /\ filter (Db.eq "id" (Db.Text campaignId)) t' = [k']
      /\ Db.get "current_funding" k'
         = Db.Num (if Db.funding_trigger B
                   then Z.max (total - amount) 0 else total)).
  { unfold Db.update_contributions_unchecked, Db.update_contributions.
    destruct (Db.funding_trigger B).
    - rewrite (run_funding_trigger_unique _ _ _ _ _ _ _ Hu).
      unfold Db.update_campaign_funding, Db.trigger_step,
        Db.becomes_completed, Db.becomes_refunded, Db.completed_becomes_failed.
      rewrite !get_apply_update.
      assert (Hst' : Db.get "status" r = Db.Text "completed").
      { apply text_is_eq. pose proof Hst as H.
        rewrite Hsel, get_select in H by reflexivity. exact H. }
      assert (Hcid' : Db.get "campaign_id" r = Db.Text campaignId)
        by (rewrite <- Hcid, Hsel, get_select by reflexivity; reflexivity).
      assert (Hamt' : Db.get "amount" r = Db.Num amount)
        by (rewrite <- Hamt, Hsel, get_select by reflexivity; reflexivity).
      rewrite Hst', Hcid'.
      cbn [patch rev app Db.lookup String.eqb Ascii.eqb Bool.eqb
           Db.text_is Db.status_differs Db.cell_eqb andb negb].
      rewrite trigger_write_debit.
      destruct (trigger_write_total B now
                  (Db.trigger_debit (Db.apply_update patch r)) campaignId
                  (Db.campaigns s) _ k (trigger_write_debit _ _ _ _ _) Hk)
        as [k' [Hf' Hcf]].
      eexists _, k'. split; [reflexivity|]. split; [exact Hf'|].
      rewrite Hcf, Htot. unfold Db.trigger_debit.
      rewrite get_apply_update. cbn [patch rev app Db.lookup String.eqb
        Ascii.eqb Bool.eqb].
      rewrite Hamt'. reflexivity.
    - exists (Db.campaigns s), k. split; [reflexivity|]. split; assumption. }
  destruct Hupd as [t' [k' [-> [Hf' Hcf]]]].
  cbn [Db.contributions Db.campaigns fst snd].
  unfold Db.select_single. rewrite Hf'. cbn [map Db.single].
  rewrite update_campaigns_nonnegative by apply Z.le_max_l.
  repeat split.
  - unfold Db.funding. cbn [Db.campaigns].
    rewrite filter_update_eq by reflexivity. rewrite Hf'. cbn [map].
    assert (Hr : Db.eq "id" (Db.Text campaignId) k' = true).
    { assert (Hin : In k' (filter (Db.eq "id" (Db.Text campaignId)) t'))
        by (rewrite Hf'; left; reflexivity).
      apply filter_In in Hin. tauto. }
    rewrite Hr, get_apply_update. cbn [rev app Db.lookup String.eqb].
    rewrite get_select by reflexivity. rewrite Hcf. reflexivity.
  - rewrite statuses_update_eq. reflexivity.
Qed.

(** A bank payment of 100.00 refunded on a campaign that holds 250.00,
    in the database with the trigger and the constraint: 50.00 are
    left. *)
Lemma refund_direct_clamps_witness :
  let s := Db.mkStore
             [[("id", Db.Text "c3"); ("campaign_id", Db.Text "k1");
               ("amount", Db.Num 10000); ("status", Db.Text "completed");
               ("payment_method", Db.Text "bank")]]
             [Examples.campaign 25000] in
  let out := Routes.refund Examples.cfg Examples.accepting 6000
               Examples.triggered_checked s empty_cache "c3"
               "Admin initiated refund" in
  Db.funding "k1" (fst (fst (fst out))) = Some 5000.
Proof.
  intros s out.
  destruct (refund_direct_clamps Examples.cfg Examples.accepting 6000
              Examples.triggered_checked s empty_cache "c3"
              "Admin initiated refund"
              _ (Examples.campaign 25000) "k1" 10000 25000
              eq_refl eq_refl eq_refl eq_refl) as [Hf _].
  - discriminate.
  - reflexivity.
  - reflexivity.
  - reflexivity.
  - exact Hf.
Defined.

(** ** Reversals, continued *)

Lemma substring0_length (n : nat) (s : string) :
  (String.length (JS.substring0 n s) <= n)%nat.
Proof.
  revert s. induction n as [|n IH]; intros s; simpl; [lia|].
  destruct s as [|c s]; simpl; [lia|]. specialize (IH s). lia.
Qed.

Lemma substring0_prefix (n : nat) (s : string) :
  String.prefix (JS.substring0 n s) s = true.
Proof.
  revert s. induction n as [|n IH]; intros s; simpl;
    [destruct s; reflexivity|].
  destruct s as [|c s]; simpl; [reflexivity|].
  destruct (ascii_dec c c); [apply IH | congruence].
Qed.

(** X17. [reverseTransaction], which binds [occasion], does reach the
    reversal endpoint: once a token is at hand it sends exactly one
    reversal request, for the truncated amount and without any range
    check, with remarks and occasion cut to their first 100 characters;
    it reports success only for an answer with response code "0". *)
Theorem reverseTransaction_request :
  forall cfg gw now cache transactionId amount remarks occasion
         cache' toklog tok,
    MPesa.generateAccessToken cfg gw now cache = (cache', toklog, Returned tok) ->
    exists reversalRequest res,
      Reversal.reverseTransaction cfg gw now cache transactionId amount
        remarks occasion
      = (cache', (toklog ++ [ReqReversal reversalRequest])%list, res)
      /\ rev_TransactionID reversalRequest = transactionId
      /\ rev_Amount reversalRequest = JS.floor amount
      /\ (String.length (rev_Remarks reversalRequest) <= 100)%nat
      /\ String.prefix (rev_Remarks reversalRequest) remarks = true
      /\ (String.length (rev_Occasion reversalRequest) <= 100)%nat
      /\ String.prefix (rev_Occasion reversalRequest) occasion = true
      /\ (forall accepted, res = Returned accepted ->
          exists data,
            reversal gw reversalRequest = Returned data
            /\ rev_ResponseCode data = "0"
            /\ Reversal.ini_ConversationID accepted = rev_ConversationID data).
Proof.
  intros cfg gw now cache transactionId amount remarks occasion
    cache' toklog tok Htok.
  unfold Reversal.reverseTransaction, Reversal.reverseTransaction_try.
  rewrite Htok.
  set (req := mkReversalRequest _ _ _ _ _ _ _).
  assert (Hfacts :
    rev_TransactionID req = transactionId
    /\ rev_Amount req = JS.floor amount
    /\ (String.length (rev_Remarks req) <= 100)%nat
    /\ String.prefix (rev_Remarks req) remarks = true
    /\ (String.length (rev_Occasion req) <= 100)%nat
    /\ String.prefix (rev_Occasion req) occasion = true).
  { subst req. cbn [rev_TransactionID rev_Amount rev_Remarks rev_Occasion].
    repeat split;
      first [apply substring0_length | apply substring0_prefix]. }
  destruct Hfacts as [H1 [H2 [H3 [H4 [H5 H6]]]]].
  exists req. destruct (reversal gw req) as [data|e] eqn:Er.
  - destruct (String.eqb (rev_ResponseCode data) "0") eqn:Ec.
    + eexists. split; [reflexivity|]. repeat (split; [assumption|]).
      intros accepted Hacc. injection Hacc as <-. exists data.
      split; [reflexivity|]. split; [apply String.eqb_eq; exact Ec|reflexivity].
    + eexists. split; [reflexivity|]. repeat (split; [assumption|]).
      intros accepted Hacc. discriminate.
  - eexists. split; [reflexivity|]. repeat (split; [assumption|]).
    intros accepted Hacc. discriminate.
Qed.

Lemma reverseTransaction_request_witness :
  exists reversalRequest res,
    Reversal.reverseTransaction Examples.cfg Examples.accepting 5000
      empty_cache "ABC1" (JS.Fin (1 # 2)) "Admin initiated refund" "Refund"
    = (mkTokenCache (Some "tok") (Some 3544000),
       ([ReqOAuth] ++ [ReqReversal reversalRequest])%list, res)
    /\ rev_TransactionID reversalRequest = "ABC1"
    /\ rev_Amount reversalRequest = JS.floor (JS.Fin (1 # 2))
    /\ (String.length (rev_Remarks reversalRequest) <= 100)%nat
    /\ String.prefix (rev_Remarks reversalRequest) "Admin initiated refund" = true
    /\ (String.length (rev_Occasion reversalRequest) <= 100)%nat
    /\ String.prefix (rev_Occasion reversalRequest) "Refund" = true
    /\ (forall accepted, res = Returned accepted ->
        exists data,
          reversal Examples.accepting reversalRequest = Returned data
          /\ rev_ResponseCode data = "0"
          /\ Reversal.ini_ConversationID accepted = rev_ConversationID data).
Proof.
  apply (reverseTransaction_request Examples.cfg Examples.accepting 5000
           empty_cache "ABC1" (JS.Fin (1 # 2)) "Admin initiated refund" "Refund"
           _ [ReqOAuth] "tok").
  reflexivity.
Defined.

(** X18. The refund-status route flags a pending reversal as overdue
    exactly when sixteen full minutes (960000 ms) have passed since the
    refund was initiated; such a refund is reported pending and not
    complete. *)
Theorem refund_status_overdue :
  forall now s id c,
    Db.select_single
      ["id"; "status"; "refund_reason"; "refund_initiated_at"; "refunded_at";
       "reversal_result_code"; "reversal_result_desc";
       "reversal_conversation_id"; "reversal_callback_received_at";
       "refund_estimated_completion"; "refund_error"]
      "id" (Db.Text id) (Db.contributions s) = Some c ->
    Db.truthy (Db.get "reversal_conversation_id" c) = true ->
    Db.text_is (Db.get "status" c) "refund_pending" = true ->
    exists details timing,
      Api.refund_status now s id = Some details
      /\ Api.sd_timing details = Some timing
      /\ Api.sd_isPending details = true
      /\ Api.sd_isComplete details = false
      /\ (Api.isOverdue timing = true
          <-> 960000 <= now - Db.number_of_time (Db.get "refund_initiated_at" c)).
Proof.
  intros now s id c Hc Hconv Hst. unfold Api.refund_status.
  rewrite Hc, Hconv, Hst. cbn [andb].
  eexists _, _. split; [reflexivity|].
  split; [reflexivity|]. split; [reflexivity|].
  cbn [Api.sd_timing Api.sd_isPending Api.sd_isComplete Api.isOverdue]. split.
  - rewrite (text_is_eq _ _ Hst). reflexivity.
  - rewrite Z.ltb_lt.
    set (x := now - Db.number_of_time (Db.get "refund_initiated_at" c)).
    change (1000 * 60) with 60000.
    pose proof (Z.div_mod x 60000 ltac:(lia)) as Hdm.
    pose proof (Z.mod_pos_bound x 60000 ltac:(lia)) as Hmod.
    lia.
Qed.

Lemma refund_status_overdue_witness :
  let s := Db.mkStore
             [[("id", Db.Text "c1"); ("status", Db.Text "refund_pending");
               ("reversal_conversation_id", Db.Text "CV1");
               ("refund_initiated_at", Db.Time 1000)]] [] in
  exists details timing,
    Api.refund_status 961000 s "c1" = Some details
    /\ Api.sd_timing details = Some timing
    /\ Api.sd_isPending details = true
    /\ Api.sd_isComplete details = false
    /\ (Api.isOverdue timing = true <-> 960000 <= 961000 - 1000).
Proof.
  intros s.
  apply (refund_status_overdue 961000 s "c1" _ eq_refl eq_refl eq_refl).
Defined.

Lemma handleReversalCallback_result B now s body :
  (exists c rc, resolves s (ReversalDelivery body) c rc)
  -> success (snd (MPesa.handleReversalCallback now B s body)) = true.
Proof.
  intros [c [rc H]]. inversion H as [|b Result c' rc' Hb Hc Hr]; subst.
  unfold MPesa.handleReversalCallback. rewrite Hb, Hc, Hr.
  destruct (reversal_update_accepted B now rc Result (Db.get "id" c) s)
    as [campaigns1 [-> _]].
  reflexivity.
Qed.

(** X19. The two reversal callback endpoints make the same change to the
    database and answer differently: the payments router always answers
    200, the M-Pesa router answers 200 for a callback that resolves to a
    contribution and 400, with nothing written, for one that does
    not. *)
Theorem reversal_endpoints :
  forall B now s body,
    Api.payments_reversal_callback now B s body
    = (deliver B now s (ReversalDelivery body), 200)
    /\ fst (Api.mpesa_reversal_callback now B s body)
       = deliver B now s (ReversalDelivery body)
    /\ ((exists c rc, resolves s (ReversalDelivery body) c rc) ->
        snd (Api.mpesa_reversal_callback now B s body) = 200)
    /\ ((forall c rc, ~ resolves s (ReversalDelivery body) c rc) ->
        Api.mpesa_reversal_callback now B s body = (s, 400)).
Proof.
  intros B now s body.
  unfold Api.payments_reversal_callback, Api.mpesa_reversal_callback, deliver.
  repeat split.
  - destruct (MPesa.handleReversalCallback now B s body); reflexivity.
  - destruct (MPesa.handleReversalCallback now B s body); reflexivity.
  - intros H. pose proof (handleReversalCallback_result B now s body H) as Hs.
    destruct (MPesa.handleReversalCallback now B s body) as [s' result].
    simpl in Hs. rewrite Hs. reflexivity.
  - intros H. unfold MPesa.handleReversalCallback.
    destruct (rv_Result body) as [Result|] eqn:Hb; [|reflexivity].
    destruct (MPesa.reversal_target (Db.contributions s) Result) as [c|] eqn:Hc;
      [|reflexivity].
    destruct (rv_ResultCode Result) as [rc|] eqn:Hr; [|reflexivity].
    exfalso. apply (H c rc). econstructor; eassumption.
Qed.

Lemma reversal_endpoints_witness :
  Api.mpesa_reversal_callback 2000 Examples.plain (Examples.store "completed" 0)
    (mkReversalCallback None)
  = (Examples.store "completed" 0, 400).
Proof.
  apply (reversal_endpoints Examples.plain 2000 (Examples.store "completed" 0)
           (mkReversalCallback None)).
  intros c rc H. inversion H; discriminate.
Defined.

(** ** The contribute route *)

(** X20. The contribute route turns a numeric amount of zero or less
    away with 400 before it reads or writes anything. *)
Theorem contribute_refuses_nonpositive :
  forall S cfg gw now stored s profiles cache campaignId contributorId
         phone defaults (q : Q),
    (q <= 0)%Q ->
    Api.contribute S cfg gw now stored s profiles cache campaignId
      contributorId (Api.mkContributeBody (JS.VNum (JS.Fin q)) phone) defaults
    = (s, cache, [], Api.refuse 400 "Invalid contribution amount").
Proof.
  intros S cfg gw now stored s profiles cache campaignId contributorId
    phone defaults q Hq.
  unfold Api.contribute, Api.amount_refused.
  cbn [Api.body_amount JS.truthy JS.is_zero JS.Number JS.le JS.lt JS.of_Z].
  assert (E : JS.Qltb (inject_Z 0) q = false) by (apply Qltb_false; exact Hq).
  rewrite E. cbn [negb]. rewrite orb_true_r. reflexivity.
Qed.

Lemma contribute_refuses_nonpositive_witness :
  Api.contribute Examples.digits_StringToNumber Examples.cfg Examples.accepting
    5000 (fun _ => Db.Null) (Examples.store "pending" 0) [] empty_cache
    "k1" "u1" (Api.mkContributeBody (JS.VNum (JS.Fin (-5))) (Some "0712345678"))
    [("id", Db.Text "c9")]
  = (Examples.store "pending" 0, empty_cache, [],
     Api.refuse 400 "Invalid contribution amount").
Proof.
  apply contribute_refuses_nonpositive. unfold Qle. simpl. lia.
Defined.

(** X21. An amount that truncates to nothing (a fraction below 1, or a
    text that is not a number, both of which pass the route's own check)
    never reaches the upstream: the gateway client rejects it as a missing
    parameter, the contribution just created is marked [failed], and the
    route answers 500 with [can_retry] set. *)
Theorem contribute_payment_truncated_amount :
  forall S cfg gw now s cache contribution phone amount,
    JS.truthy (JS.VNum (JS.floor (JS.Number S amount))) = false ->
    Routes.contribute_payment S cfg gw now s cache contribution phone amount
    = (Db.mkStore
         (Db.update_eq
            [("status", Db.Text "failed");
             ("result_desc",
               Db.Text ("M-Pesa initiation failed: "
                        ++ "Payment initiation failed: "
                        ++ "Missing required parameters for STK push"));
             ("updated_at", Db.Time now)]
            "id" (Db.get "id" contribution) (Db.contributions s))
         (Db.campaigns s),
       cache, [],
       Routes.mkResponse 500
         (Some "Failed to initiate payment. Please try again.")
         (Some ("Payment initiation failed: "
                ++ "Missing required parameters for STK push"))
         None (Some true)).
Proof.
  intros S cfg gw now s cache contribution phone amount Hfalsy.
  unfold Routes.contribute_payment, MPesa.initiateSTKPush,
    MPesa.initiateSTKPush_try, MPesa.validate_stk.
  rewrite Hfalsy. cbn [negb]. rewrite orb_true_r. cbn [orb]. reflexivity.
Qed.

Lemma contribute_payment_truncated_amount_witness :
  Api.amount_refused Examples.digits_StringToNumber (JS.VNum (JS.Fin (1 # 2)))
  = false
  /\ Api.amount_refused Examples.digits_StringToNumber (JS.VStr "abc") = false
  /\ snd (fst (Routes.contribute_payment Examples.digits_StringToNumber
              Examples.cfg Examples.accepting 5000 (Examples.store "pending" 0)
              empty_cache (Examples.contribution "pending") "254712345678"
              (JS.VNum (JS.Fin (1 # 2)))))
  = []
  /\ snd (fst (Routes.contribute_payment Examples.digits_StringToNumber
                 Examples.cfg Examples.accepting 5000
                 (Examples.store "pending" 0) empty_cache
                 (Examples.contribution "pending") "254712345678"
                 (JS.VStr "abc")))
     = [].
Proof.
  split; [reflexivity|]. split; [reflexivity|]. split.
  - rewrite (contribute_payment_truncated_amount
               Examples.digits_StringToNumber Examples.cfg Examples.accepting
               5000 (Examples.store "pending" 0) empty_cache
               (Examples.contribution "pending") "254712345678"
               (JS.VNum (JS.Fin (1 # 2))) eq_refl).
    reflexivity.
  - rewrite (contribute_payment_truncated_amount
               Examples.digits_StringToNumber Examples.cfg Examples.accepting
               5000 (Examples.store "pending" 0) empty_cache
               (Examples.contribution "pending") "254712345678"
               (JS.VStr "abc") eq_refl).
    reflexivity.
Defined.

Lemma contribute_payment_shape S cfg gw now s cache contribution phone amount :
  exists patch,
    fst (fst (fst (Routes.contribute_payment S cfg gw now s cache contribution
                     phone amount)))
    = Db.mkStore
        (Db.update_eq patch "id" (Db.get "id" contribution) (Db.contributions s))
        (Db.campaigns s)
    /\ Db.lookup "id" (rev patch) = None
    /\ Db.lookup "amount" (rev patch) = None
    /\ Db.lookup "campaign_id" (rev patch) = None.
Proof.
  unfold Routes.contribute_payment.
  destruct (MPesa.initiateSTKPush _ _ _ _ _ _ _ _) as [[cache' log] [res|e]];
    eexists; cbn [fst]; repeat split; reflexivity.
Qed.

Lemma update_eq_length patch col v t :
  List.length (Db.update_eq patch col v t) = List.length t.
Proof. unfold Db.update_eq. apply length_map. Qed.

(** X22. The contribute route never moves money: whatever the request
    and whatever the upstream answers, every campaign row is as it was,
    and at most one contribution has been added. *)
Theorem contribute_leaves_ledger :
  forall S cfg gw now stored s profiles cache campaignId contributorId body
         defaults,
    let s' := fst (fst (fst (Api.contribute S cfg gw now stored s profiles
                               cache campaignId contributorId body defaults))) in
    Db.campaigns s' = Db.campaigns s
    /\ (List.length (Db.contributions s')
        <= List.length (Db.contributions s) + 1)%nat.
Proof.
  intros S cfg gw now stored s profiles cache campaignId contributorId body
    defaults. cbv zeta. unfold Api.contribute.
  destruct (Api.amount_refused S (Api.body_amount body));
    [cbn [fst]; split; [reflexivity | lia]|].
  destruct (Db.single _) as [campaign|];
    [|cbn [fst]; split; [reflexivity | lia]].
  destruct (negb (Db.text_is (Db.get "status" campaign) "active"));
    [cbn [fst]; split; [reflexivity | lia]|].
  destruct (Db.number_of_time (Db.get "end_date" campaign) <? now);
    [cbn [fst]; split; [reflexivity | lia]|].
  destruct (negb (JS.str_truthy _));
    [cbn [fst]; split; [reflexivity | lia]|].
  match goal with
  | |- context [Routes.contribute_payment ?a ?b ?c ?d ?e ?f ?g ?h ?i] =>
      destruct (contribute_payment_shape a b c d e f g h i)
        as [patch [-> _]]
  end.
  cbn [Db.campaigns Db.contributions]. split; [reflexivity|].
  rewrite update_eq_length, length_app. simpl. lia.
Qed.

Lemma filter_none {A} (f : A -> bool) (l : list A) :
  (forall x, In x l -> f x = false) -> filter f l = [].
Proof.
  induction l as [|x l IH]; intros H; simpl; [reflexivity|].
  rewrite (H x) by (left; reflexivity).
  apply IH. intros y Hy. apply H. right. exact Hy.
Qed.

(** A row inserted under a fresh id and then given a fresh checkout id is
    the only row a lookup by that checkout id finds. *)
Lemma filter_checkout_after_insert patch idv checkout cs row :
  fresh_id idv cs ->
  fresh_checkout checkout cs ->
  Db.eq "id" idv row = true ->
  Db.get "mpesa_checkout_request_id" (Db.apply_update patch row)
  = Db.Text checkout ->
  filter (Db.eq "mpesa_checkout_request_id" (Db.Text checkout))
    (Db.update_eq patch "id" idv (cs ++ [row])%list)
  = [Db.apply_update patch row].
Proof.
  intros Hid Hco Hrow Hget. unfold Db.update_eq.
  rewrite map_app, filter_app. cbn [map]. rewrite Hrow.
  rewrite filter_none.
  - cbn [filter app]. unfold Db.eq at 1. rewrite Hget.
    cbn [Db.cell_eqb]. rewrite String.eqb_refl. reflexivity.
  - intros r Hr. apply in_map_iff in Hr. destruct Hr as [r0 [<- Hr0]].
    rewrite (Hid r0 Hr0). apply Hco. exact Hr0.
Qed.

Lemma filter_id_after_insert patch idv cs row :
  fresh_id idv cs ->
  Db.eq "id" idv row = true ->
  Db.lookup "id" (rev patch) = None ->
  filter (Db.eq "id" idv) (Db.update_eq patch "id" idv (cs ++ [row])%list)
  = [Db.apply_update patch row].
Proof.
  intros Hid Hrow Hpatch. unfold Db.update_eq.
  rewrite map_app, filter_app. cbn [map]. rewrite Hrow.
  rewrite filter_none.
  - cbn [filter app]. unfold Db.eq at 1. rewrite get_apply_update, Hpatch.
    unfold Db.eq in Hrow. rewrite Hrow. reflexivity.
  - intros r Hr. apply in_map_iff in Hr. destruct Hr as [r0 [<- Hr0]].
    rewrite (Hid r0 Hr0). apply Hid. exact Hr0.
Qed.

(** X23. Initiation and callback meet. When the contribute route has
    answered 200 for a contribution inserted under a fresh id, it has
    stored the upstream's checkout-request id on it; a charge callback
    carrying that id (provided the id is not empty and no earlier
    contribution has it) resolves to exactly that contribution, still
    [pending], with the amount and the campaign of the request. *)
Theorem contribute_then_callback :
  forall S cfg gw now stored s profiles cache campaignId contributorId body
         defaults s1 cache1 log response,
    Api.contribute S cfg gw now stored s profiles cache campaignId
      contributorId body defaults = (s1, cache1, log, response) ->
    Routes.http_status response = 200 ->
    Db.get "id" defaults <> Db.Null ->
    fresh_id (Db.get "id" defaults) (Db.contributions s) ->
    exists checkout,
      map (Db.get "mpesa_checkout_request_id")
        (filter (Db.eq "id" (Db.get "id" defaults)) (Db.contributions s1))
      = [Db.Text checkout]
      /\ (checkout <> "" ->
          fresh_checkout checkout (Db.contributions s) ->
          forall cbody callback rc,
            cb_test cbody = false ->
            cb_stkCallback cbody = Some callback ->
            cb_CheckoutRequestID callback = Some checkout ->
            cb_ResultCode callback = Some rc ->
            exists c,
              resolves s1 (ChargeDelivery cbody) c rc
              /\ Db.get "id" c = Db.get "id" defaults
              /\ Db.get "status" c = Db.Text "pending"
              /\ Db.get "amount" c = stored (Api.body_amount body)
              /\ Db.get "campaign_id" c = Db.Text campaignId).
Proof.
  intros S cfg gw now stored s profiles cache campaignId contributorId body
    defaults s1 cache1 log response H Hok Hnn Hfresh.
  unfold Api.contribute in H.
  destruct (Api.amount_refused S (Api.body_amount body));
    [injection H as <- <- <- <-; discriminate|].
  destruct (Db.single _) as [campaign|];
    [|injection H as <- <- <- <-; discriminate].
  destruct (negb (Db.text_is (Db.get "status" campaign) "active"));
    [injection H as <- <- <- <-; discriminate|].
  destruct (Db.number_of_time (Db.get "end_date" campaign) <? now);
    [injection H as <- <- <- <-; discriminate|].
  destruct (negb (JS.str_truthy _));
    [injection H as <- <- <- <-; discriminate|].
  unfold Routes.contribute_payment in H.
  set (row := Db.apply_update _ defaults) in H.
  destruct (MPesa.initiateSTKPush _ _ _ _ _ _ _ _) as [[cache' log'] [res|e]].
  2:{ injection H as <- <- <- <-. exfalso. revert Hok.
      cbn [Routes.http_status].
      destruct (JS.includes "timeout" (err_message e)); [discriminate|].
      destruct (JS.includes "Invalid Access Token" (err_message e));
        [discriminate|].
      destruct (JS.includes "Invalid phone number" (err_message e));
        discriminate. }
  injection H as <- <- <- <-.
  exists (MPesa.res_CheckoutRequestID res).
  assert (Hidrow : Db.get "id" row = Db.get "id" defaults).
  { subst row. rewrite get_apply_update. reflexivity. }
  assert (Heq : Db.eq "id" (Db.get "id" row) row = true).
  { unfold Db.eq. apply cell_eqb_refl. rewrite Hidrow. exact Hnn. }
  set (patch := [("merchant_request_id", _); ("mpesa_checkout_request_id", _);
                 ("updated_at", _)]).
  split.
  { cbn [Db.contributions]. rewrite <- Hidrow.
    rewrite filter_id_after_insert;
      [| rewrite Hidrow; exact Hfresh | exact Heq | reflexivity].
    cbn [map]. rewrite get_apply_update. reflexivity. }
  intros Hne Hco cbody callback rc Ht Hb Hk Hr.
  assert (Hfilter :
    filter (Db.eq "mpesa_checkout_request_id"
              (Db.Text (MPesa.res_CheckoutRequestID res)))
      (Db.update_eq patch "id" (Db.get "id" row)
         (Db.contributions s ++ [row])%list)
    = [Db.apply_update patch row]).
  { apply filter_checkout_after_insert.
    - rewrite Hidrow. exact Hfresh.
    - exact Hco.
    - exact Heq.
    - rewrite get_apply_update. reflexivity. }
  exists (Db.select ["id"; "campaign_id"; "amount"; "status"]
            (Db.apply_update patch row)).
  split.
  - econstructor; try eassumption.
    + rewrite Hk. unfold env_truthy. apply String.eqb_neq in Hne.
      rewrite Hne. reflexivity.
    + unfold MPesa.charge_target, Db.select_single. rewrite Hk.
      cbn [interpolate Db.contributions]. rewrite Hfilter. reflexivity.
  - rewrite !get_select by reflexivity. rewrite !get_apply_update.
    cbn [rev app Db.lookup String.eqb Ascii.eqb Bool.eqb patch].
    subst row. rewrite !get_apply_update. repeat split; reflexivity.
Qed.

Lemma contribute_then_callback_witness :
  let s := Db.mkStore []
             [[("id", Db.Text "k1"); ("status", Db.Text "active");
               ("end_date", Db.Time 9000); ("current_funding", Db.Num 0)]] in
  let out := Api.contribute Examples.digits_StringToNumber Examples.cfg
               Examples.accepting 5000 (fun _ => Db.Num 10000) s [] empty_cache
               "k1" "u1"
               (Api.mkContributeBody (JS.VNum (JS.of_Z 100)) (Some "0712345678"))
               [("id", Db.Text "c9")] in
  exists checkout,
    map (Db.get "mpesa_checkout_request_id")
      (filter (Db.eq "id" (Db.get "id" [("id", Db.Text "c9")]))
         (Db.contributions (fst (fst (fst out)))))
    = [Db.Text checkout]
    /\ (checkout <> "" ->
        fresh_checkout checkout (Db.contributions s) ->
        forall cbody callback rc,
          cb_test cbody = false ->
          cb_stkCallback cbody = Some callback ->
          cb_CheckoutRequestID callback = Some checkout ->
          cb_ResultCode callback = Some rc ->
          exists c,
            resolves (fst (fst (fst out))) (ChargeDelivery cbody) c rc
            /\ Db.get "id" c = Db.get "id" [("id", Db.Text "c9")]
            /\ Db.get "status" c = Db.Text "pending"
            /\ Db.get "amount" c = Db.Num 10000
            /\ Db.get "campaign_id" c = Db.Text "k1").
Proof.
  intros s out.
  apply (contribute_then_callback Examples.digits_StringToNumber Examples.cfg
           Examples.accepting 5000 (fun _ => Db.Num 10000) s [] empty_cache
           "k1" "u1"
           (Api.mkContributeBody (JS.VNum (JS.of_Z 100)) (Some "0712345678"))
           [("id", Db.Text "c9")]
           (fst (fst (fst out))) (snd (fst (fst out))) (snd (fst out)) (snd out)).
  - reflexivity.
  - reflexivity.
  - discriminate.
  - intros r [].
Defined.

(** ** Sequences of callbacks *)

Lemma deliver_all_statuses_valid_witness :
  statuses_valid
    (deliver_all Examples.plain (Examples.store "pending" 0)
       [(2000, ChargeDelivery (Examples.charge 1032));
        (3000, ChargeDelivery (Examples.charge 0));
        (4000, ReversalDelivery (Examples.reversal 0))]).
Proof.
  apply deliver_all_statuses_valid.
  repeat constructor.
Defined.













(** X26. A callback that is a connectivity test, malformed, without a
    result code, or for a contribution that cannot be found exactly once
    changes nothing: no contribution, no campaign. *)
Theorem unresolved_delivery_changes_nothing :
  forall B now s d,
    (forall c rc, ~ resolves s d c rc) ->
    deliver B now s d = s.
Proof.
  intros B now s d H. destruct d as [body|body].
  - apply deliver_charge_unresolved. exact H.
  - apply deliver_reversal_unresolved. exact H.
Qed.

(** Two contributions share a checkout-request id: the lookup is
    ambiguous and even a successful callback is dropped. *)
Lemma unresolved_delivery_changes_nothing_witness :
  let s := Db.mkStore [Examples.contribution "pending";
                       Examples.contribution "pending"]
             [Examples.campaign 0] in
  deliver Examples.plain 2000 s (ChargeDelivery (Examples.charge 0)) = s.
Proof.
  intros s. apply unresolved_delivery_changes_nothing.
  intros c rc H. inversion H as [b callback c' rc' _ Hb _ Hc _|]; subst.
  injection Hb as <-. discriminate.
Defined.

Lemma filter_after_update_unique patch idv col v (t : Db.table) r :
  filter (Db.eq "id" idv) t = [r] ->
  (forall r', In r' t -> Db.eq "id" idv r' = false -> Db.eq col v r' = false) ->
  Db.eq col v (Db.apply_update patch r) = true ->
  filter (Db.eq col v) (Db.update_eq patch "id" idv t)
  = [Db.apply_update patch r].
Proof.
  unfold Db.update_eq. induction t as [|a t IH]; simpl; [discriminate|].
  intros Hf Hother Hhit. destruct (Db.eq "id" idv a) eqn:Ea.
  - injection Hf as -> Hrest. rewrite Hhit. f_equal.
    apply filter_none. intros x Hx. apply in_map_iff in Hx.
    destruct Hx as [x0 [<- Hx0]].
    assert (Ex0 : Db.eq "id" idv x0 = false).
    { destruct (Db.eq "id" idv x0) eqn:E; [|reflexivity].
      assert (Hin : In x0 (filter (Db.eq "id" idv) t))
        by (apply filter_In; split; assumption).
      rewrite Hrest in Hin. destruct Hin. }
    rewrite Ex0. apply Hother; [right; exact Hx0 | exact Ex0].
  - rewrite (Hother a (or_introl eq_refl) Ea).
    apply IH; [exact Hf | | exact Hhit].
    intros r' Hr'. apply Hother. right. exact Hr'.
Qed.

(** X27. From the reversal callback to the status query. After a
    successful reversal callback that carries conversation id [cv], for a
    contribution whose id is unique and when no other contribution has
    that conversation id, [checkReversalStatus] finds the contribution
    under [cv]: it is [refunded] and complete, refunded at the time of
    the callback.  The handler in force does not record that a callback
    was received: [callbackReceived] is what it was before. *)
Theorem reversal_callback_then_status :
  forall B now now' s body Result c cv r,
    rv_Result body = Some Result ->
    rv_ConversationID Result = Some cv ->
    resolves s (ReversalDelivery body) c (JS.SInt 0) ->
    filter (Db.eq "id" (Db.get "id" c)) (Db.contributions s) = [r] ->
    (forall r', In r' (Db.contributions s) ->
       Db.eq "id" (Db.get "id" c) r' = false ->
       Db.eq "reversal_conversation_id" (Db.Text cv) r' = false) ->
    exists st,
      Reversal.checkReversalStatus now'
        (Db.contributions (deliver B now s (ReversalDelivery body)))
        (Db.Text cv) = Some st
      /\ Reversal.st_status st = Db.Text "refunded"
      /\ Reversal.st_isComplete st = true
      /\ Reversal.st_refundedAt st = Db.Time now
      /\ Reversal.st_callbackReceived st
         = Db.truthy (Db.get "reversal_callback_received_at" r).
Proof.
  intros B now now' s body Result c cv r Hb Hcv Hres Hunique Hother.
  inversion Hres as [|b Result' c' rc' Hb' Hc Hr]; subst.
  rewrite Hb in Hb'. injection Hb' as <-.
  unfold deliver, MPesa.handleReversalCallback. rewrite Hb, Hc, Hr.
  destruct (reversal_update_accepted B now (JS.SInt 0) Result (Db.get "id" c) s)
    as [campaigns1 [-> _]].
  cbn [fst Db.contributions].
  set (patch := MPesa.reversal_updateData now (JS.SInt 0) Result).
  assert (Hp : Db.lookup "status" (rev patch) = Some (Db.Text "refunded")
               /\ Db.lookup "refunded_at" (rev patch) = Some (Db.Time now)
               /\ Db.lookup "reversal_conversation_id" (rev patch)
                  = Some (Db.Text cv)
               /\ Db.lookup "reversal_callback_received_at" (rev patch) = None).
  { subst patch. unfold MPesa.reversal_updateData, Db.field. rewrite Hcv.
    destruct (rv_ResultDesc Result); repeat split; reflexivity. }
  destruct Hp as [Hst [Hat [Hconv Hrecv]]].
  unfold Reversal.checkReversalStatus, Db.select_single.
  rewrite (filter_after_update_unique patch (Db.get "id" c)
             "reversal_conversation_id" (Db.Text cv) (Db.contributions s) r
             Hunique Hother).
  2:{ unfold Db.eq. rewrite get_apply_update, Hconv. cbn [Db.cell_eqb].
      apply String.eqb_refl. }
  cbn [map Db.single]. eexists. split; [reflexivity|].
  cbn [Reversal.st_status Reversal.st_isComplete Reversal.st_refundedAt
       Reversal.st_callbackReceived].
  rewrite !get_select by reflexivity.
  rewrite !get_apply_update, Hst, Hat, Hrecv. repeat split; reflexivity.
Qed.

Lemma reversal_callback_then_status_witness :
  let s := Examples.store "refund_pending" 30000 in
  exists st,
    Reversal.checkReversalStatus 9000
      (Db.contributions
         (deliver Examples.plain 2000 s (ReversalDelivery (Examples.reversal 0))))
      (Db.Text "CV1") = Some st
    /\ Reversal.st_status st = Db.Text "refunded"
    /\ Reversal.st_isComplete st = true
    /\ Reversal.st_refundedAt st = Db.Time 2000
    /\ Reversal.st_callbackReceived st
       = Db.truthy (Db.get "reversal_callback_received_at"
                      (Examples.contribution "refund_pending")).
Proof.
  intros s.
  apply (reversal_callback_then_status Examples.plain 2000 9000 s
           (Examples.reversal 0) (Examples.reversal_result 0)
           (Db.select ["id"; "campaign_id"; "amount"; "status"; "transaction_id"]
              (Examples.contribution "refund_pending"))
           "CV1" (Examples.contribution "refund_pending")).
  - reflexivity.
  - reflexivity.
  - econstructor; reflexivity.
  - reflexivity.
  - intros r' [<-|[]]. discriminate.
Defined.
